(** * PetPlantr API server: rate limiting, job lifecycle, polling, fallback

    A shallow embedding of [api_server.py] and [src/api/routes/breed.py].
    Module-level dictionaries ([request_log], [user_requests],
    [job_storage]) are finite maps that the handlers thread through;
    a handler either returns a value or raises, and in both cases leaves a
    new state behind.  Everything the handlers obtain from outside (the
    clock, uuid4, HTTP responses, the outcome of file-system calls, the
    neural pipeline, the inference engine) is an explicit argument. *)

From stdpp Require Import gmap strings list fin_maps pretty sorting.
From Stdlib Require Import ZArith Lia Ascii.

Local Open Scope Z_scope.

(** ** Exceptions and outcomes *)

(** The exception classes that the two files raise or intercept.  All of
    them derive from Python's [Exception], so an [except Exception] clause
    intercepts every constructor below. *)
Inductive exn : Type :=
  | HTTPException (status_code : Z) (detail : string)
  | Exception (msg : string)
  | JSONDecodeError
  | TypeError
  | ValidationError
  | KeyError (key : string)
  | AttributeError
  | ValueError (msg : string)
  | OSError.

Inductive outcome (A : Type) : Type :=
  | Return (a : A)
  | Raise (e : exn).

Arguments Return {A} a.
Arguments Raise {A} e.

Definition is_Return {A} (o : outcome A) : bool :=
  match o with Return _ => true | Raise _ => false end.

(** ** Request identity *)

Record Address := { host : string; port : Z }.

(** A Starlette request, as far as the handlers look at it: the header
    table (lower-case names) and [request.client], which is [None] when
    the server passes no peer address. *)
Record Request := { headers : gmap string string; client : option Address }.

(** [a or b] where [a] comes from [headers.get]: [None] and the empty
    string are both falsy. *)
Definition py_or (a : option string) (b : string) : string :=
  match a with
  | Some s => if String.eqb s "" then b else s
  | None => b
  end.

(** Lines 356-360.  A conditional expression binds weaker than [or], so
    the expression reads [(h1 or h2 or str(host)) if request.client else
    'anonymous']. *)
Definition client_id (request : Request) : string :=
  match client request with
  | Some addr =>
      py_or (headers request !! "x-forwarded-for")
        (py_or (headers request !! "x-real-ip") (host addr))
  | None => "anonymous"
  end.

(** The precedence the documentation describes: forwarded-address header,
    then real-IP header, then the connection address, then the constant
    bucket. *)
Definition client_id_cascade (request : Request) : string :=
  py_or (headers request !! "x-forwarded-for")
    (py_or (headers request !! "x-real-ip")
       (match client request with
        | Some addr => host addr
        | None => "anonymous"
        end)).

(** ** Rate limiting *)

Record RateRecord := { count : Z; reset_time : Z }.

Record Admission := { allowed : bool; adm_user_id : string }.

Record User := { user_id : string; plan : string }.

Definition MAX_REQUESTS_PER_HOUR : Z := 50.

Definition rate_limit_detail (secs : Z) : string :=
  "Rate limit exceeded. Try again in " +:+ pretty secs +:+ " seconds".

Definition admitted_as (cid : string) : Admission :=
  {| allowed := true; adm_user_id := "user_" +:+ cid |}.

(** What the fixed-window contract decides for one request. *)
Inductive decision : Type :=
  | Allowed
  | RateLimitExceeded (retry_after : Z).

(** Runs a limiter over the arrival times of successive requests. *)
Fixpoint serve {S A : Type} (step : Z → S → outcome A * S)
    (times : list Z) (s : S) : list (outcome A) * S :=
  match times with
  | [] => ([], s)
  | now :: rest =>
      let '(o, s1) := step now s in
      let '(os, s2) := serve step rest s1 in
      (o :: os, s2)
  end.

Section RateLimiting.

(** [time.time()] is a float number of seconds.  Timestamps are exact
    multiples of [1/ticks] of a second, for an arbitrary resolution
    [ticks]. *)
Context (ticks : positive).

Definition seconds (n : Z) : Z := n * Z.pos ticks.

(** [int(d)] for a duration [d]: truncation to whole seconds. *)
Definition py_int (d : Z) : Z := Z.quot d (Z.pos ticks).

(** Lines 354-383. *)
Definition check_rate_limit_enhanced (request : Request) (now : Z)
    (request_log : gmap string RateRecord)
    : outcome Admission * gmap string RateRecord :=
  let cid := client_id request in
  let hour_ms := seconds 3600 in
  match request_log !! cid with
  | None =>
      (Return (admitted_as cid),
       <[cid := {| count := 1; reset_time := now + hour_ms |}]> request_log)
  | Some record =>
      if bool_decide (now > reset_time record) then
        (Return (admitted_as cid),
         <[cid := {| count := 1; reset_time := now + hour_ms |}]> request_log)
      else if bool_decide (count record >= MAX_REQUESTS_PER_HOUR) then
        (Raise (HTTPException 429
                  (rate_limit_detail (py_int (reset_time record - now)))),
         request_log)
      else
        (Return (admitted_as cid),
         <[cid := {| count := count record + 1;
                     reset_time := reset_time record |}]> request_log)
  end.

(** Lines 328-351: the limiter of the authenticated routes keeps, per
    user, the arrival times of the admitted requests. *)
Definition check_rate_limit (user : User) (current_time : Z)
    (user_requests : gmap string (list Z))
    : outcome User * gmap string (list Z) :=
  let uid := user_id user in
  let recent :=
    filter (λ req_time, current_time - req_time < seconds 3600)
      (default [] (user_requests !! uid)) in
  let user_requests := <[uid := recent]> user_requests in
  if bool_decide (Z.of_nat (length recent) >= 100) then
    (Raise (HTTPException 429
              "Rate limit exceeded. Maximum 100 requests per hour."),
     user_requests)
  else
    (Return user, <[uid := recent ++ [current_time]]> user_requests).

(** The contract as the design text words it, for one key: the record of
    the key before the request, and the decision with the record after.
    The retry-after is the remaining part of the window. *)
Definition fixed_window_allow (threshold window now : Z)
    (record : option RateRecord) : decision * option RateRecord :=
  let fresh := Some {| count := 1; reset_time := now + window |} in
  match record with
  | None => (Allowed, fresh)
  | Some r =>
      if bool_decide (now > reset_time r) then (Allowed, fresh)
      else if bool_decide (count r < threshold) then
        (Allowed, Some {| count := count r + 1; reset_time := reset_time r |})
      else (RateLimitExceeded (reset_time r - now), Some r)
  end.

(** The contract run over the successive requests of one key: the
    decisions, in order. *)
Fixpoint fixed_window_run (threshold window : Z) (times : list Z)
    (record : option RateRecord) : list decision :=
  match times with
  | [] => []
  | now :: rest =>
      let '(d, r) := fixed_window_allow threshold window now record in
      d :: fixed_window_run threshold window rest r
  end.

(** How an outcome of [check_rate_limit_enhanced] reads as a decision of
    the contract; the handler reports the retry-after inside the detail
    text, in whole seconds. *)
Definition enhanced_outcome (cid : string) (d : decision)
    : outcome Admission :=
  match d with
  | Allowed => Return (admitted_as cid)
  | RateLimitExceeded retry =>
      Raise (HTTPException 429 (rate_limit_detail (py_int retry)))
  end.

End RateLimiting.

Definition is_Allowed (d : decision) : bool :=
  match d with Allowed => true | RateLimitExceeded _ => false end.

(** ** Python values

    What [response.json()] and [json.loads] hand back, and the dictionaries
    the pipeline stages pass on.  A dictionary keeps its items in insertion
    order. *)
#[local] Set Warnings "-register-all".

Inductive pyval : Type :=
  | PNone
  | PBool (b : bool)
  | PInt (n : Z)
  | PFloat (num : Z) (den : positive)
  | PStr (s : string)
  | PList (items : list pyval)
  | PDict (items : list (string * pyval)).

Definition py_truthy (v : pyval) : bool :=
  match v with
  | PNone => false
  | PBool b => b
  | PInt n => negb (n =? 0)
  | PFloat num _ => negb (num =? 0)
  | PStr s => negb (String.eqb s "")
  | PList items => match items with [] => false | _ => true end
  | PDict items => match items with [] => false | _ => true end
  end.

Fixpoint assoc_get {V : Type} (key : string) (items : list (string * V))
    : option V :=
  match items with
  | [] => None
  | (k, v) :: rest => if String.eqb k key then Some v else assoc_get key rest
  end.

(** [d[key] = v] on the items of a dictionary: an existing key keeps its
    place. *)
Fixpoint assoc_set {V : Type} (key : string) (v : V)
    (items : list (string * V)) : list (string * V) :=
  match items with
  | [] => [(key, v)]
  | (k, w) :: rest =>
      if String.eqb k key then (k, v) :: rest
      else (k, w) :: assoc_set key v rest
  end.

(** [v[key]] for a string key. *)
Definition py_getitem (v : pyval) (key : string) : outcome pyval :=
  match v with
  | PDict items =>
      match assoc_get key items with
      | Some x => Return x
      | None => Raise (KeyError key)
      end
  | _ => Raise TypeError
  end.

(** [v[key] = x] for a string key. *)
Definition py_setitem (v : pyval) (key : string) (x : pyval)
    : outcome pyval :=
  match v with
  | PDict items => Return (PDict (assoc_set key x items))
  | _ => Raise TypeError
  end.

(** [v.get(key, dflt)]: only dictionaries have the method. *)
Definition py_get (v : pyval) (key : string) (dflt : pyval)
    : outcome pyval :=
  match v with
  | PDict items => Return (default dflt (assoc_get key items))
  | _ => Raise AttributeError
  end.

Definition is_str (v : pyval) (s : string) : bool :=
  match v with PStr t => String.eqb t s | _ => false end.

(** [str(e)] of an intercepted exception.  The classes that carry a text
    here give that text (a [KeyError] the [repr] of its key); for the
    others the text depends on the library that raised them, and a
    placeholder stands for it. *)
Definition str_exn (e : exn) : string :=
  match e with
  | HTTPException code detail => pretty code +:+ ": " +:+ detail
  | Exception msg => msg
  | JSONDecodeError => "Expecting value"
  | TypeError => "type error"
  | ValidationError => "validation error"
  | KeyError key => "'" +:+ key +:+ "'"
  | AttributeError => "attribute error"
  | ValueError msg => msg
  | OSError => "os error"
  end.

(** ** Job registry *)

Inductive Status : Type := pending | processing | completed | failed.

Global Instance Status_eq_dec : EqDecision Status.
Proof. solve_decision. Defined.

Record Metadata := {
  md_breed_hint : string;
  md_style : string;
  md_size : string;
  md_quality : string;
  md_user_id : string }.

(** One entry of [job_storage].  The first six keys are those of
    [GenerationStatus.dict()]; the others are absent ([None] here) until an
    [update] adds them.  [progress] only takes the literals written in the
    handler (0.0, 10.0, 20.0, 90.0, 100.0) and is an integer number of
    percent here; the other float fields are kept as Python values. *)
Record Job := {
  job_id : string;
  status : Status;
  progress : Z;
  estimated_time_remaining : option Z;
  created_at : string;
  completed_at : option string;
  stl_file_path : option string;
  processing_time : option pyval;
  quality_score : option pyval;
  metadata : option Metadata;
  error : option string }.

Definition set_status (s : Status) (j : Job) : Job :=
  {| job_id := job_id j; status := s; progress := progress j;
     estimated_time_remaining := estimated_time_remaining j;
     created_at := created_at j; completed_at := completed_at j;
     stl_file_path := stl_file_path j; processing_time := processing_time j;
     quality_score := quality_score j; metadata := metadata j;
     error := error j |}.

Definition set_progress (p : Z) (j : Job) : Job :=
  {| job_id := job_id j; status := status j; progress := p;
     estimated_time_remaining := estimated_time_remaining j;
     created_at := created_at j; completed_at := completed_at j;
     stl_file_path := stl_file_path j; processing_time := processing_time j;
     quality_score := quality_score j; metadata := metadata j;
     error := error j |}.

(** The [update] of the success path (lines 670-684). *)
Definition update_completed (stamp output_path : string) (elapsed : pyval)
    (score : pyval) (md : Metadata) (j : Job) : Job :=
  {| job_id := job_id j; status := completed; progress := 100;
     estimated_time_remaining := estimated_time_remaining j;
     created_at := created_at j; completed_at := Some stamp;
     stl_file_path := Some output_path; processing_time := Some elapsed;
     quality_score := Some score; metadata := Some md;
     error := error j |}.

(** The [update] of the failure path (lines 693-697). *)
Definition update_failed (stamp cause : string) (j : Job) : Job :=
  {| job_id := job_id j; status := failed; progress := progress j;
     estimated_time_remaining := estimated_time_remaining j;
     created_at := created_at j; completed_at := Some stamp;
     stl_file_path := stl_file_path j; processing_time := processing_time j;
     quality_score := quality_score j; metadata := metadata j;
     error := Some cause |}.

(** The process-wide state of the job routes: the registry, the files on
    disk, and (for stating properties of runs) the journal of every version
    of a job record written to the registry, oldest first. *)
Record World := {
  job_storage : gmap string Job;
  files : gset string;
  journal : list Job }.

(** A handler of the job routes: it reads and writes the [World] and
    either returns or raises.  The state at the raise is kept, as an
    [except] clause sees it. *)
Definition M (A : Type) : Type := World → outcome A * World.

Global Instance M_ret : MRet M := λ A a w, (Return a, w).

Global Instance M_bind : MBind M := λ A B f m w,
  match m w with
  | (Return a, w1) => f a w1
  | (Raise e, w1) => (Raise e, w1)
  end.

Definition raise {A} (e : exn) : M A := λ w, (Raise e, w).

(** [try: body except Exception as e: handler e]. *)
Definition try_except {A} (body : M A) (handler : exn → M A) : M A := λ w,
  match body w with
  | (Return a, w1) => (Return a, w1)
  | (Raise e, w1) => handler e w1
  end.

(** [job_storage[job_id] = job]. *)
Definition store_job (jid : string) (j : Job) : M unit := λ w,
  (Return (),
   {| job_storage := <[jid := j]> (job_storage w); files := files w;
      journal := journal w ++ [j] |}).

(** [job_storage[job_id][key] = v] and [job_storage[job_id].update(...)]:
    the record is looked up (a [KeyError] when absent) and changed in
    place. *)
Definition modify_job (jid : string) (f : Job → Job) : M unit := λ w,
  match job_storage w !! jid with
  | Some j => store_job jid (f j) w
  | None => (Raise (KeyError jid), w)
  end.

(** ** File-system calls

    Each call site can fail with an [OSError] for reasons outside the
    program (permissions, a full disk, a file held open elsewhere); the
    environment says which ones do. *)
Inductive io_site : Type :=
  | TempCreate | TempWrite | Makedirs | WriteOutput | WriteFallback
  | UnlinkInput | UnlinkArtifact | MakedirsModel | WriteModel.

Definition create_file (ok : bool) (path : string) : M unit := λ w,
  if ok then
    (Return (),
     {| job_storage := job_storage w; files := {[path]} ∪ files w;
        journal := journal w |})
  else (Raise OSError, w).

(** [os.unlink(path)]: a missing file is an error as well. *)
Definition unlink (ok : bool) (path : string) : M unit := λ w,
  if ok && bool_decide (path ∈ files w) then
    (Return (),
     {| job_storage := job_storage w; files := files w ∖ {[path]};
        journal := journal w |})
  else (Raise OSError, w).

Definition guard_io (ok : bool) : M unit := λ w,
  if ok then (Return (), w) else (Raise OSError, w).

Definition path_exists (path : string) : M bool := λ w,
  (Return (bool_decide (path ∈ files w)), w).

(** ** Background generation task *)

(** [neural_planter]: an object of the optional neural pipeline.  The
    task only asks which of the two entry points it has and calls it; the
    call returns or raises, and may touch the files on disk. *)
Inductive PlanterApi : Type :=
  | has_generate_dog_planter | has_generate_planter | has_neither.

Record Planter := {
  planter_api : PlanterApi;
  planter_run :
    string → string → string → gset string → outcome pyval * gset string }.

Record UploadFile := {
  content_type : option string;
  filename : option string;
  read : outcome string }.

(** What one run of the job routes draws from outside. *)
Record TaskEnv := {
  neural_planter : option Planter;
  io_ok : io_site → bool;
  uuid4 : string;
  tmp_name : string;
  elapsed : pyval;
  created_stamp : string;
  completed_stamp : string;
  failed_stamp : string }.

Definition lift {A} (o : outcome A) : M A := λ w, (o, w).

Definition lookup_job (jid : string) : M Job := λ w,
  match job_storage w !! jid with
  | Some j => (Return j, w)
  | None => (Raise (KeyError jid), w)
  end.

Definition call_planter (p : Planter) (input output hint : string)
    : M pyval := λ w,
  let '(o, fs) := planter_run p input output hint (files w) in
  (o, {| job_storage := job_storage w; files := fs; journal := journal w |}).

(** Lines 582-585: the temporary file exists from the moment it is
    opened ([delete=False] keeps it when the block is left, also by an
    exception). *)
Definition save_upload (env : TaskEnv) (file : UploadFile) : M string :=
  create_file (io_ok env TempCreate) (tmp_name env) ;;
  content ← lift (read file) ;
  guard_io (io_ok env TempWrite) ;;
  mret (tmp_name env).

(** Lines 590-644: the branch taken when the neural pipeline is loaded. *)
Definition run_neural (env : TaskEnv) (p : Planter)
    (jid temp_input_path breed_hint : string) : M (string * pyval * pyval) :=
  let output_path := "temp_outputs/" +:+ jid +:+ "_planter.stl" in
  guard_io (io_ok env Makedirs) ;;
  result ← try_except
    (match planter_api p with
     | has_neither =>
         create_file (io_ok env WriteOutput) output_path ;;
         mret (PDict [("quality_score", PFloat 85 1)])
     | _ => call_planter p temp_input_path output_path breed_hint
     end)
    (λ e,
       create_file (io_ok env WriteFallback) output_path ;;
       mret (PDict [("quality_score", PFloat 75 1)])) ;
  modify_job jid (set_progress 90) ;;
  mret (output_path, elapsed env, result).

(** Lines 646-667: demo mode. *)
Definition run_demo (env : TaskEnv) (jid : string)
    : M (string * pyval * pyval) :=
  let output_path := "temp_outputs/" +:+ jid +:+ "_demo_planter.stl" in
  guard_io (io_ok env Makedirs) ;;
  create_file (io_ok env WriteOutput) output_path ;;
  mret (output_path, PFloat 2 1, PDict [("quality_score", PFloat 85 1)]).

(** Lines 577-689: the body of the [try]. *)
Definition process_body (env : TaskEnv) (jid : string) (file : UploadFile)
    (breed_hint style size quality uid : string) : M unit :=
  modify_job jid (set_status processing) ;;
  modify_job jid (set_progress 10) ;;
  temp_input_path ← save_upload env file ;
  modify_job jid (set_progress 20) ;;
  '(output_path, processing_time, result) ←
    match neural_planter env with
    | Some p => run_neural env p jid temp_input_path breed_hint
    | None => run_demo env jid
    end ;
  lookup_job jid ;;
  score ← lift (py_get result "quality_score" (PFloat 0 1)) ;
  modify_job jid
    (update_completed (completed_stamp env) output_path processing_time score
       {| md_breed_hint := breed_hint; md_style := style; md_size := size;
          md_quality := quality; md_user_id := uid |}) ;;
  unlink (io_ok env UnlinkInput) temp_input_path.

(** Lines 566-697. *)
Definition process_planter_generation (env : TaskEnv) (jid : string)
    (file : UploadFile) (breed_hint style size quality uid : string)
    : M unit :=
  try_except (process_body env jid file breed_hint style size quality uid)
    (λ e, modify_job jid (update_failed (failed_stamp env) (str_exn e))).

(** The arguments [background_tasks.add_task] records for the run after
    the response. *)
Record Task := {
  task_job_id : string;
  task_file : UploadFile;
  task_breed_hint : string;
  task_style : string;
  task_size : string;
  task_quality : string;
  task_user_id : string }.

Definition run_task (env : TaskEnv) (t : Task) : M unit :=
  process_planter_generation env (task_job_id t) (task_file t)
    (task_breed_hint t) (task_style t) (task_size t) (task_quality t)
    (task_user_id t).

Definition new_job (jid stamp : string) : Job :=
  {| job_id := jid; status := pending; progress := 0;
     estimated_time_remaining := None; created_at := stamp;
     completed_at := None; stl_file_path := None; processing_time := None;
     quality_score := None; metadata := None; error := None |}.

Definition is_image (file : UploadFile) : bool :=
  match content_type file with
  | Some ct => negb (String.eqb ct "") && String.prefix "image/" ct
  | None => false
  end.

(** Lines 524-564; the user is the one [check_rate_limit] let through. *)
Definition generate_planter (env : TaskEnv) (file : UploadFile)
    (breed_hint style size quality : option string) (user : User)
    : M (Job * Task) :=
  if negb (is_image file) then
    raise (HTTPException 400 "File must be an image")
  else
    let jid := uuid4 env in
    let job_info := new_job jid (created_stamp env) in
    store_job jid job_info ;;
    mret (job_info,
          {| task_job_id := jid; task_file := file;
             task_breed_hint := py_or breed_hint "";
             task_style := py_or style "realistic";
             task_size := py_or size "medium";
             task_quality := py_or quality "high";
             task_user_id := user_id user |}).

Definition remove_job (jid : string) : M unit := λ w,
  (Return (),
   {| job_storage := delete jid (job_storage w); files := files w;
      journal := journal w |}).

(** Lines 766-788. *)
Definition delete_job (env : TaskEnv) (jid : string) (user : User)
    : M string :=
  λ w,
  match job_storage w !! jid with
  | None => (Raise (HTTPException 404 "Job not found"), w)
  | Some job_info =>
      if bool_decide (md_user_id <$> metadata job_info ≠ Some (user_id user))
      then (Raise (HTTPException 403 "Access denied"), w)
      else
        ((match stl_file_path job_info with
          | Some stl_path =>
              if negb (String.eqb stl_path "")
                 && bool_decide (stl_path ∈ files w)
              then unlink (io_ok env UnlinkArtifact) stl_path
              else mret ()
          | None => mret ()
          end) ;;
         remove_job jid ;;
         mret "Job deleted successfully") w
  end.

(** ** Polling the external job API *)

Global Instance outcome_ret : MRet outcome := λ A a, Return a.

Global Instance outcome_bind : MBind outcome := λ A B f o,
  match o with
  | Return a => f a
  | Raise e => Raise e
  end.

Record Response := {
  resp_status : Z;
  resp_json : outcome pyval;
  resp_text : string }.

(** The remote prediction API as one client session meets it: the answer
    to the submission, and the answer to the n-th status query (counted
    from 0) for a prediction id.  Either call can also fail in the client
    (no connection), which raises. *)
Record Provider := {
  post : outcome Response;
  get : pyval → nat → outcome Response }.

(** What the poller does that the outside can observe. *)
Inductive event : Type :=
  | Query (attempt : nat)
  | Sleep (secs : Z).

Definition is_Query (ev : event) : bool :=
  match ev with Query _ => true | Sleep _ => false end.

Definition queries (tr : list event) : nat := length (filter is_Query tr).

Definition is_terminal_status (st : pyval) : bool :=
  is_str st "succeeded" || is_str st "failed".

(** The loop of lines 1199-1215 with [remaining] iterations left, the next
    one being attempt [i]. *)
Fixpoint poll_loop (status_query : nat → outcome Response)
    (remaining i : nat) : outcome pyval * list event :=
  match remaining with
  | O => (Raise (Exception "Job polling timeout"), [])
  | S remaining' =>
      match status_query i with
      | Raise e => (Raise e, [Query i])
      | Return response =>
          if negb (resp_status response =? 200) then
            (Raise (Exception ("Failed to check job status: "
                               +:+ pretty (resp_status response))),
             [Query i])
          else
            match result ← resp_json response ;
                  st ← py_getitem result "status" ;
                  mret (result, st) with
            | Raise e => (Raise e, [Query i])
            | Return (result, st) =>
                if is_terminal_status st then (Return result, [Query i])
                else
                  let '(o, tr) := poll_loop status_query remaining' (S i) in
                  (o, Query i :: Sleep 2 :: tr)
            end
      end
  end.

Definition DEFAULT_MAX_ATTEMPTS : Z := 30.

(** Lines 1197-1215; [range] of a negative bound is empty. *)
Definition poll_replicate_job (provider : Provider) (job_id : pyval)
    (max_attempts : Z) : outcome pyval * list event :=
  poll_loop (get provider job_id) (Z.to_nat max_attempts) 0.

(** ** Generation options and breed analysis *)

Inductive QualityLevel : Type := standard | high | ultra_high | production.

Inductive PhotoStyle : Type := studio | natural | professional.

Inductive PlanterSize : Type := small | medium | large | custom.

Record EnhancedGenerationOptions := {
  include_detailed : bool;
  analyze_colors : bool;
  analyze_dimensions : bool;
  photo_style : PhotoStyle;
  include_profile : bool;
  image_width : Z;
  image_height : Z;
  quality : string;
  include_color : bool;
  texture_size : Z;
  mesh_simplify : pyval;
  randomize_seed : bool;
  optimization_level : string;
  target_poly_count : Z;
  minimize_supports : bool;
  planter_size : PlanterSize;
  include_drainage : bool;
  include_reservoir : bool;
  custom_text : string;
  plant_type : string;
  preferred_material : string;
  custom_dimensions : string;
  infill_percentage : string;
  print_speed : string }.

(** [EnhancedGenerationOptions()]: the defaults of lines 213-236. *)
Definition default_options : EnhancedGenerationOptions :=
  {| include_detailed := true; analyze_colors := true;
     analyze_dimensions := true; photo_style := studio;
     include_profile := true; image_width := 768; image_height := 768;
     quality := "high"; include_color := true; texture_size := 1024;
     mesh_simplify := PFloat 95 100; randomize_seed := true;
     optimization_level := "standard"; target_poly_count := 15000;
     minimize_supports := true; planter_size := medium;
     include_drainage := true; include_reservoir := false;
     custom_text := ""; plant_type := "succulents";
     preferred_material := ""; custom_dimensions := "";
     infill_percentage := "20%"; print_speed := "50mm/s" |}.

Record EnhancedBreedAnalysis := {
  breed : string;
  confidence : pyval;
  head_shape : string;
  ear_type : string;
  facial_features : string;
  body_type : string;
  size_class : string;
  primary_color : string;
  markings : string;
  facial_markings : string;
  color_palette : list string;
  estimated_size : list (string * string);
  personality : string;
  dimensions : list (string * string);
  temperament : string;
  activity_level : string;
  grooming_needs : string }.

(** ** Enhanced generation: image, 3D conversion, procedural fallback *)

(** What a production run draws from outside.  The request bodies sent
    to the provider do not enter: whatever they are, the provider is given
    by its answers. *)
Record PipelineEnv := {
  REPLICATE_API_TOKEN : option string;
  BASE_URL : option string;
  flux : Provider;
  trellis : Provider;
  unix_time : Z;
  uuid_hex : string;
  pio_ok : io_site → bool }.

(** [a or b] on values. *)
Definition py_or_val (a b : pyval) : pyval := if py_truthy a then a else b.

(** [result['status'] == 'succeeded' and result['output']]: the second
    operand is looked up only when the first holds. *)
Definition succeeded_output (result : pyval) : outcome (option pyval) :=
  st ← py_getitem result "status" ;
  if is_str st "succeeded" then
    out ← py_getitem result "output" ;
    mret (if py_truthy out then Some out else None)
  else mret None.

(** Lines 1077-1136.  Every failure ends in the original image. *)
Definition generate_enhanced_pet_image (env : PipelineEnv)
    (image_url : string) (analysis : EnhancedBreedAnalysis)
    (options : EnhancedGenerationOptions) : pyval :=
  let attempt : outcome pyval :=
    response ← post (flux env) ;
    if negb (resp_status response =? 200) then
      Raise (Exception ("Replicate API error: "
                        +:+ pretty (resp_status response)))
    else
      prediction ← resp_json response ;
      pid ← py_getitem prediction "id" ;
      result ← fst (poll_replicate_job (flux env) pid DEFAULT_MAX_ATTEMPTS) ;
      out ← succeeded_output result ;
      match out with
      | Some (PList (first :: _)) => mret first
      | Some v => mret v
      | None => Raise (Exception "Enhanced image generation failed")
      end in
  match attempt with
  | Return v => v
  | Raise _ => PStr image_url
  end.

(** Lines 1217-1239. *)
Definition convert_to_planter_model_enhanced (original_model_url : pyval)
    (analysis : EnhancedBreedAnalysis) (options : EnhancedGenerationOptions)
    : list (string * pyval) :=
  [("glb_url", original_model_url); ("stl_url", original_model_url);
   ("preview_url", original_model_url)].

(** Lines 1138-1195: the handler logs and raises again. *)
Definition generate_custom_3d_model_enhanced (env : PipelineEnv)
    (enhanced_image_url : pyval) (analysis : EnhancedBreedAnalysis)
    (quality_level : QualityLevel) (options : EnhancedGenerationOptions)
    : outcome (list (string * pyval)) :=
  response ← post (trellis env) ;
  if negb (resp_status response =? 200) then
    Raise (Exception ("3D generation API error: "
                      +:+ pretty (resp_status response) +:+ " - "
                      +:+ resp_text response))
  else
    prediction ← resp_json response ;
    pid ← py_getitem prediction "id" ;
    result ← fst (poll_replicate_job (trellis env) pid DEFAULT_MAX_ATTEMPTS) ;
    out ← succeeded_output result ;
    match out with
    | Some output =>
        model_url ← py_get output "model_file" output ;
        let planter_model :=
          PDict (convert_to_planter_model_enhanced model_url analysis options) in
        glb ← py_getitem planter_model "glb_url" ;
        stl ← py_getitem planter_model "stl_url" ;
        preview ← py_getitem planter_model "preview_url" ;
        mret [("model_url", glb); ("stl_url", py_or_val stl glb);
              ("preview_url", py_or_val preview glb); ("job_id", pid);
              ("message",
               PStr "Custom 3D model generated from pet photo with enhanced options")]
    | None => Raise (Exception "3D model generation failed")
    end.

(** [uuid.uuid4().hex[:8]]. *)
Definition hex8 (uuid_hex : string) : string := String.substring 0 8 uuid_hex.

Definition procedural_model_id (env : PipelineEnv) : string :=
  "custom_" +:+ pretty (unix_time env) +:+ "_" +:+ hex8 (uuid_hex env).

(** Lines 1241-1268.  None of the three arguments is used. *)
Definition generate_procedural_model_enhanced (env : PipelineEnv)
    (analysis : EnhancedBreedAnalysis) (quality_level : QualityLevel)
    (options : EnhancedGenerationOptions) : M (list (string * pyval)) :=
  let model_id := procedural_model_id env in
  let model_path := "temp_outputs/" +:+ model_id +:+ ".glb" in
  guard_io (pio_ok env MakedirsModel) ;;
  create_file (pio_ok env WriteModel) model_path ;;
  let base_url := default "http://localhost:8000" (BASE_URL env) in
  let model_url := PStr (base_url +:+ "/temp_outputs/" +:+ model_id +:+ ".glb") in
  mret [("model_url", model_url); ("stl_url", model_url);
        ("preview_url", model_url); ("job_id", PStr model_id);
        ("message",
         PStr "Enhanced procedural model generated based on breed analysis")].

Definition has_token (env : PipelineEnv) : bool :=
  match REPLICATE_API_TOKEN env with
  | Some t => negb (String.eqb t "")
  | None => false
  end.

(** Lines 1050-1075. *)
Definition generate_with_3d_service_enhanced (env : PipelineEnv)
    (image_url : string) (analysis : EnhancedBreedAnalysis)
    (quality_level : QualityLevel) (options : EnhancedGenerationOptions)
    : M (list (string * pyval)) :=
  if negb (has_token env) then
    generate_procedural_model_enhanced env analysis quality_level options
  else
    try_except
      (let enhanced_image :=
         generate_enhanced_pet_image env image_url analysis options in
       lift (generate_custom_3d_model_enhanced env enhanced_image analysis
               quality_level options))
      (λ e,
         generate_procedural_model_enhanced env analysis quality_level options).

(** ** Option payload of the enhanced endpoint *)

Section EnhancedEndpoint.

(** [json.loads], the keyword constructor of the pydantic model
    [EnhancedGenerationOptions] ([None] when it raises its
    [ValidationError]) and lines 814-861 of the handler (everything after
    the options are parsed) are taken as given. *)
Context {Result : Type}.
Context (json_loads : string → outcome pyval).
Context (validate : list (string * pyval) → option EnhancedGenerationOptions).
Context (generate : string → QualityLevel → option string →
                    EnhancedGenerationOptions → outcome Result).

(** The constructor applied to the unpacked [options_dict]: unpacking
    anything but a mapping is a [TypeError]. *)
Definition construct_options (options_dict : pyval)
    : outcome EnhancedGenerationOptions :=
  match options_dict with
  | PDict kwargs =>
      match validate kwargs with
      | Some o => Return o
      | None => Raise ValidationError
      end
  | _ => Raise TypeError
  end.

(** Lines 806-812. *)
Definition parse_options (options : option string)
    : outcome EnhancedGenerationOptions :=
  let attempt :=
    options_dict ←
      match options with
      | Some s => if String.eqb s "" then Return (PDict []) else json_loads s
      | None => Return (PDict [])
      end ;
    construct_options options_dict in
  match attempt with
  | Raise JSONDecodeError | Raise TypeError => Return default_options
  | other => other
  end.

(** Lines 791-874; the detail of the 500 answer is its ['error'] text with
    the ['details'] text appended. *)
Definition generate_enhanced_3d_simple (image_url : string)
    (quality_level : QualityLevel) (breed : option string)
    (options : option string) : outcome Result :=
  match generation_options ← parse_options options ;
        generate image_url quality_level breed generation_options with
  | Return r => Return r
  | Raise (HTTPException code detail) => Raise (HTTPException code detail)
  | Raise e =>
      Raise (HTTPException 500
               ("Failed to generate enhanced 3D model: " +:+ str_exn e))
  end.

End EnhancedEndpoint.

(** A keyword constructor that checks the two enumeration fields the way
    pydantic does (the value must be one of the member strings) and takes
    every other key as it stands in [default_options].  It stands in for
    the library where a concrete payload is evaluated. *)
Definition parse_photo_style (v : pyval) : option PhotoStyle :=
  match v with
  | PStr s =>
      if String.eqb s "studio" then Some studio
      else if String.eqb s "natural" then Some natural
      else if String.eqb s "professional" then Some professional
      else None
  | _ => None
  end.

Definition parse_planter_size (v : pyval) : option PlanterSize :=
  match v with
  | PStr s =>
      if String.eqb s "small" then Some small
      else if String.eqb s "medium" then Some medium
      else if String.eqb s "large" then Some large
      else if String.eqb s "custom" then Some custom
      else None
  | _ => None
  end.

Definition with_enums (ps : PhotoStyle) (sz : PlanterSize)
    (o : EnhancedGenerationOptions) : EnhancedGenerationOptions :=
  {| include_detailed := include_detailed o;
     analyze_colors := analyze_colors o;
     analyze_dimensions := analyze_dimensions o; photo_style := ps;
     include_profile := include_profile o; image_width := image_width o;
     image_height := image_height o; quality := quality o;
     include_color := include_color o; texture_size := texture_size o;
     mesh_simplify := mesh_simplify o; randomize_seed := randomize_seed o;
     optimization_level := optimization_level o;
     target_poly_count := target_poly_count o;
     minimize_supports := minimize_supports o; planter_size := sz;
     include_drainage := include_drainage o;
     include_reservoir := include_reservoir o; custom_text := custom_text o;
     plant_type := plant_type o; preferred_material := preferred_material o;
     custom_dimensions := custom_dimensions o;
     infill_percentage := infill_percentage o; print_speed := print_speed o |}.

Definition validate_enums (kwargs : list (string * pyval))
    : option EnhancedGenerationOptions :=
  ps ← match assoc_get "photo_style" kwargs with
       | Some v => parse_photo_style v
       | None => Some (photo_style default_options)
       end ;
  sz ← match assoc_get "planter_size" kwargs with
       | Some v => parse_planter_size v
       | None => Some (planter_size default_options)
       end ;
  Some (with_enums ps sz default_options).

(** ** Batch breed detection ([src/api/routes/breed.py]) *)

Record BreedDetectionRequest := {
  image_url : option string;
  image_base64 : option string;
  use_tta : bool;
  confidence_threshold : pyval;
  return_top_k : Z }.

Record Image := { mode : string; width : Z; height : Z }.

(** Decoding and fetching images is the business of PIL, base64 and
    httpx: [open_base64] stands for lines 305-310 and [open_url] for lines
    316-320; each either yields an image or raises. *)
Record ImageIO := {
  open_base64 : string → outcome Image;
  open_url : string → outcome Image;
  convert_rgb : Image → outcome Image }.

(** [predict] of the loaded inference engine, as a handler that makes
    one call and reads its result meets it. *)
Record Engine := {
  predict : Image → bool → pyval → Z → outcome pyval }.

Definition truthy_opt (o : option string) : option string :=
  match o with
  | Some s => if String.eqb s "" then None else Some s
  | None => None
  end.

(** Lines 299-334.  A failure to open the image becomes a 400 answer whose
    detail ends in the text of the underlying error. *)
Definition _load_image (io : ImageIO) (image_url image_base64 : option string)
    : outcome Image :=
  image ←
    match truthy_opt image_base64, truthy_opt image_url with
    | Some b64, _ =>
        match open_base64 io b64 with
        | Return image => Return image
        | Raise e =>
            Raise (HTTPException 400 ("Invalid base64 image: " +:+ str_exn e))
        end
    | None, Some url =>
        match open_url io url with
        | Return image => Return image
        | Raise e =>
            Raise (HTTPException 400
                     ("Failed to load image from URL: " +:+ str_exn e))
        end
    | None, None =>
        Raise (HTTPException 400
                 "Either image_url or image_base64 must be provided")
    end ;
  image ← (if String.eqb (mode image) "RGB" then Return image
           else convert_rgb io image) ;
  if width image * height image >? 5000 * 5000 then
    Raise (HTTPException 400 "Image too large (max 5000x5000)")
  else Return image.

(** The entry recorded for a request whose image or inference failed
    (lines 240-245). *)
Definition error_entry (i : nat) (e : exn) : pyval :=
  PDict [("batch_index", PInt (Z.of_nat i)); ("error", PStr (str_exn e));
         ("predicted_breed", PNone); ("confidence", PFloat 0 1)].

(** In a batch the handler keeps the objects that [predict] returns in
    [results] and writes [batch_index] into them, so the identity of these
    objects matters: two positions that were given the same object show
    the same dictionary in the response.  There the engine is given with
    the store of its objects: a call reads and may change the store and
    returns the identity of an object in it, or raises.  An identity
    without an object in the store stands for [None]. *)
Record ObjectEngine := {
  predict_object :
    Image → bool → pyval → Z → gmap nat pyval → outcome nat * gmap nat pyval }.

(** An element of [results]: a dictionary the handler built itself, or an
    object of the engine. *)
Inductive batch_entry : Type :=
  | Built (v : pyval)
  | Object (ref : nat).

Definition object_at (store : gmap nat pyval) (ref : nat) : pyval :=
  default PNone (store !! ref).

(** What the response shows of an entry when it is written out. *)
Definition render (store : gmap nat pyval) (entry : batch_entry) : pyval :=
  match entry with
  | Built v => v
  | Object ref => object_at store ref
  end.

(** One pass of the loop body of lines 225-245 for the request at position
    [i]: the entry appended to [results], the store afterwards, and
    whether [predict] was called. *)
Definition detect_one (io : ImageIO) (engine : ObjectEngine) (i : nat)
    (request : BreedDetectionRequest) (store : gmap nat pyval)
    : batch_entry * gmap nat pyval * bool :=
  match _load_image io (image_url request) (image_base64 request) with
  | Raise e => (Built (error_entry i e), store, false)
  | Return image =>
      match predict_object engine image (use_tta request)
              (confidence_threshold request) (return_top_k request) store with
      | (Raise e, store) => (Built (error_entry i e), store, true)
      | (Return ref, store) =>
          match py_setitem (object_at store ref) "batch_index"
                  (PInt (Z.of_nat i)) with
          | Return written => (Object ref, <[ref := written]> store, true)
          | Raise e => (Built (error_entry i e), store, true)
          end
      end
  end.

Fixpoint detect_from (io : ImageIO) (engine : ObjectEngine) (i : nat)
    (requests : list BreedDetectionRequest) (store : gmap nat pyval)
    : list batch_entry * gmap nat pyval * list nat :=
  match requests with
  | [] => ([], store, [])
  | request :: rest =>
      let '(entry, store, ran) := detect_one io engine i request store in
      let '(entries, store, calls) := detect_from io engine (S i) rest store in
      (entry :: entries, store, if ran then i :: calls else calls)
  end.

Record BatchResponse := { results : list pyval; total_processed : Z }.

(** Lines 208-251: the answer as it is written out after the loop, the
    store of the engine's objects afterwards, and the positions of the
    requests on which inference ran.  Nothing in the loop escapes its inner
    handler, so the outer one has nothing to intercept. *)
Definition batch_detect_breeds (io : ImageIO)
    (inference_engine : option ObjectEngine)
    (requests : list BreedDetectionRequest) (store : gmap nat pyval)
    : outcome BatchResponse * gmap nat pyval * list nat :=
  match inference_engine with
  | None => (Raise (HTTPException 503 "Model not loaded"), store, [])
  | Some engine =>
      if Z.of_nat (length requests) >? 10 then
        (Raise (HTTPException 400 "Batch size limited to 10 images"), store,
         [])
      else
        let '(entries, store, calls) :=
          detect_from io engine 0 requests store in
        (Return {| results := render store <$> entries;
                   total_processed := Z.of_nat (length entries) |},
         store, calls)
  end.

(** ** Concrete requests and environments used below *)

(** A request that arrives through a proxy over a Unix socket: the proxy
    names the caller, the server has no peer address. *)
Definition proxied_request : Request :=
  {| headers := {["x-forwarded-for" := "203.0.113.7"]}; client := None |}.

Definition direct_request : Request :=
  {| headers := ∅; client := Some {| host := "198.51.100.4"; port := 40312 |} |}.

(** A request handed on by a proxy that names the caller in both
    headers. *)
Definition relayed_request : Request :=
  {| headers :=
       {["x-forwarded-for" := "203.0.113.7"; "x-real-ip" := "203.0.113.8"]};
     client := Some {| host := "10.0.0.1"; port := 51544 |} |}.

Definition demo_user : User := {| user_id := "demo_user"; plan := "premium" |}.

(** Arrival times that exhaust the first hour of a user late in the
    hour and go on just after it. *)
Definition late_burst : list Z := 0 :: replicate 99 3599 ++ [3601; 3601].

(** A status query that went through: HTTP 200 and a JSON body [result]
    whose ['status'] entry is [st]. *)
Definition answers (q : outcome Response) (result st : pyval) : Prop :=
  ∃ response,
    q = Return response ∧ resp_status response = 200
    ∧ resp_json response = Return result
    ∧ py_getitem result "status" = Return st.

(** A status query that went through and found the job still running. *)
Definition pending_answer (q : outcome Response) : Prop :=
  ∃ result st, answers q result st ∧ is_terminal_status st = false.

(** What is seen of [k] attempts from attempt [i] on that all found the job
    running: each query is followed by a sleep of two seconds. *)
Definition waiting (i k : nat) : list event :=
  flat_map (λ j, [Query j; Sleep 2]) (seq i k).

(** A provider whose job succeeds at the third status query. *)
Definition running : Response :=
  {| resp_status := 200;
     resp_json := Return (PDict [("status", PStr "processing")]);
     resp_text := "" |}.

Definition done_with (url : string) : Response :=
  {| resp_status := 200;
     resp_json :=
       Return (PDict [("status", PStr "succeeded"); ("output", PStr url)]);
     resp_text := "" |}.

Definition third_time_lucky : Provider :=
  {| post := Raise OSError;
     get := λ _ n,
       Return (if (n <? 2)%nat then running else done_with "https://cdn/x.glb") |}.

(** A provider that answers every submission with HTTP 500. *)
Definition unavailable : Provider :=
  {| post := Return {| resp_status := 500; resp_json := Raise JSONDecodeError;
                       resp_text := "Internal Server Error" |};
     get := λ _ _, Raise OSError |}.

Definition labrador : EnhancedBreedAnalysis :=
  {| breed := "Labrador"; confidence := PFloat 9 10;
     head_shape := "well-proportioned"; ear_type := "alert";
     facial_features := "intelligent expression"; body_type := "athletic";
     size_class := "medium"; primary_color := "#8B7355";
     markings := "unique pattern"; facial_markings := "distinctive features";
     color_palette := ["#8B7355"; "#D2B48C"; "#FFFFFF"];
     estimated_size := [("height", "20-24 inches"); ("weight", "40-60 lbs")];
     personality := "friendly and intelligent";
     dimensions := [("height", "24 inches"); ("length", "36 inches");
                    ("weight", "45-65 lbs")];
     temperament := "friendly, intelligent, loyal";
     activity_level := "moderate to high"; grooming_needs := "moderate" |}.

(** Two runs of the same generation request against the unavailable
    provider: the second a retry a minute and a half later. *)
Definition first_try : PipelineEnv :=
  {| REPLICATE_API_TOKEN := Some "r8_token"; BASE_URL := None;
     flux := unavailable; trellis := unavailable;
     unix_time := 1700000000;
     uuid_hex := "3f2a9c1e5b7d4e0fa1b2c3d4e5f60718";
     pio_ok := λ _, true |}.


Definition empty_world : World :=
  {| job_storage := ∅; files := ∅; journal := [] |}.

(** The double quote, and a JSON object text whose only key gives the
    photo style a value outside the enumeration. *)
Definition dq : string := String (Ascii.ascii_of_nat 34) EmptyString.

Definition cartoon_payload : string :=
  "{" +:+ dq +:+ "photo_style" +:+ dq +:+ ": " +:+ dq +:+ "cartoon" +:+ dq
  +:+ "}".

(** [json.loads] on the texts of a table, each with its value; any other
    text is taken not to be JSON. *)
Definition loads_table (table : list (string * pyval)) (text : string)
    : outcome pyval :=
  match assoc_get text table with
  | Some v => Return v
  | None => Raise JSONDecodeError
  end.

Definition cartoon_loads : string → outcome pyval :=
  loads_table [(cartoon_payload, PDict [("photo_style", PStr "cartoon")])].

(** A batch request by URL, an image source that opens every URL but one
    as a small RGB picture, and an engine that sees a Labrador in every
    picture. *)
Definition by_url (url : string) : BreedDetectionRequest :=
  {| image_url := Some url; image_base64 := None; use_tta := true;
     confidence_threshold := PFloat 8 10; return_top_k := 5 |}.

Definition web_images : ImageIO :=
  {| open_base64 := λ _, Raise (Exception "Incorrect padding");
     open_url := λ url,
       if String.eqb url "https://img.example/missing.jpg"
       then Raise (Exception "404 Not Found")
       else Return {| mode := "RGB"; width := 640; height := 480 |};
     convert_rgb := λ image, Return image |}.

Definition labrador_engine : Engine :=
  {| predict := λ _ _ _ _,
       Return (PDict [("predicted_breed", PStr "Labrador");
                      ("confidence", PFloat 93 100)]) |}.

(** The same engine in a batch, making a new dictionary at every call, and
    an engine that keeps one dictionary and returns it at every call. *)
Definition labrador_objects : ObjectEngine :=
  {| predict_object := λ _ _ _ _ store,
       let ref := fresh (dom store) in
       (Return ref,
        <[ref := PDict [("predicted_breed", PStr "Labrador");
                        ("confidence", PFloat 93 100)]]> store) |}.

Definition one_result_object : ObjectEngine :=
  {| predict_object := λ _ _ _ _ store,
       (Return 0%nat,
        <[0%nat := PDict [("predicted_breed", PStr "Labrador");
                          ("confidence", PFloat 93 100)]]> store) |}.

(** ** Lifecycle of a job record *)

Definition is_terminal (s : Status) : bool :=
  match s with completed | failed => true | pending | processing => false end.

(** One write to a record moves its status forward along
    pending, processing, then completed or failed, or leaves it. *)
Definition forward (a b : Status) : bool :=
  match a, b with
  | pending, (pending | processing) => true
  | processing, (processing | completed | failed) => true
  | completed, completed | failed, failed => true
  | _, _ => false
  end.

(** The same, except that a completed record may still be marked failed. *)
Definition forward_or_relabelled (a b : Status) : bool :=
  forward a b || (bool_decide (a = completed) && bool_decide (b = failed)).

(** [completed_at] is set exactly on terminal records. *)
Definition stamped_iff_terminal (j : Job) : bool :=
  Bool.eqb (bool_decide (is_Some (completed_at j))) (is_terminal (status j)).

Definition step_ok (order : Status → Status → bool) (a b : Job) : bool :=
  order (status a) (status b) && (progress a <=? progress b).

Fixpoint chain_ok (order : Status → Status → bool) (js : list Job) : bool :=
  match js with
  | a :: rest =>
      match rest with
      | b :: _ => step_ok order a b && chain_ok order rest
      | [] => true
      end
  | [] => true
  end.

(** The request for a job followed by its background task. *)
Definition submit_and_run (env : TaskEnv) (file : UploadFile) (user : User)
    : M Task :=
  '(job_info, task) ← generate_planter env file None None None None user ;
  run_task env task ;;
  mret task.

(** Demo mode (no neural pipeline) with the given outcomes of the
    file-system calls. *)
Definition demo_env (ok : io_site → bool) : TaskEnv :=
  {| neural_planter := None; io_ok := ok;
     uuid4 := "1b4e28ba-2fa1-41d2-883f-0016d3cca427";
     tmp_name := "/tmp/tmpk3x9q2.jpg";
     elapsed := PFloat 2 1;
     created_stamp := "2025-01-01 10:00:00 UTC";
     completed_stamp := "2025-01-01 10:00:02 UTC";
     failed_stamp := "2025-01-01 10:00:03 UTC" |}.

Definition all_ok : io_site → bool := λ _, true.

(** The uploaded file cannot be removed (held open elsewhere, or no
    permission on the directory). *)
Definition input_stuck (site : io_site) : bool :=
  match site with UnlinkInput => false | _ => true end.

Definition photo : UploadFile :=
  {| content_type := Some "image/jpeg"; filename := Some "dog.jpg";
     read := Return "JFIF" |}.

(** An upload that the framework has closed by the time the background
    task reads it. *)
Definition closed_photo : UploadFile :=
  {| content_type := Some "image/jpeg"; filename := Some "dog.jpg";
     read := Raise (ValueError "I/O operation on closed file") |}.

(** ** Running the background task symbolically *)

Ltac task_unfold :=
  cbv [process_planter_generation process_body try_except save_upload
       run_neural run_demo call_planter lookup_job modify_job store_job
       create_file unlink guard_io lift raise mbind mret M_bind M_ret].

(** Splits on the innermost thing the run depends on next. *)
Ltac task_split :=
  match goal with
  | |- context [match ?x with _ => _ end] =>
      lazymatch x with
      | context [match _ with _ => _ end] => fail
      | _ => destruct x eqn:?
      end
  end.

Ltac task_run :=
  repeat (cbn [job_storage files journal fst snd];
          first [rewrite lookup_insert_eq | task_split]);
  cbn [job_storage files journal fst snd].

(** ** Authentication and the read routes of the job registry *)

(** Lines 315-323. *)
Definition get_current_user (token : string) : outcome User :=
  if String.prefix "pk_" token then
    Return {| user_id := "demo_user"; plan := "premium" |}
  else Raise (HTTPException 401 "Invalid authentication token").

(** A route declared with [Depends(get_current_user)]: the framework
    resolves the dependency first and calls the handler with its result; an
    exception of the dependency is the answer, and the handler does not
    run. *)
Definition authenticated {A} (token : string) (handler : User → M A) : M A :=
  user ← lift (get_current_user token) ;
  handler user.

Record FileResponse := {
  fr_path : string;
  fr_media_type : string;
  fr_filename : string }.

(** Lines 724-744. *)
Definition download_stl (jid : string) (user : User) : M FileResponse := λ w,
  match job_storage w !! jid with
  | None => (Raise (HTTPException 404 "Job not found"), w)
  | Some job_info =>
      if negb (bool_decide (status job_info = completed)) then
        (Raise (HTTPException 400 "Job not completed"), w)
      else
        match stl_file_path job_info with
        | Some stl_path =>
            if negb (String.eqb stl_path "")
               && bool_decide (stl_path ∈ files w)
            then
              (Return {| fr_path := stl_path;
                         fr_media_type := "application/octet-stream";
                         fr_filename :=
                           "petplantr_" +:+ jid +:+ "_planter.stl" |},
               w)
            else (Raise (HTTPException 404 "STL file not found"), w)
        | None => (Raise (HTTPException 404 "STL file not found"), w)
        end
  end.

(** One entry of the answer of [list_user_jobs]. *)
Record JobSummary := {
  js_job_id : string;
  js_status : Status;
  js_created_at : string;
  js_completed_at : option string;
  js_breed_hint : option string }.

(** [sorted(..., key=lambda x: x["created_at"], reverse=True)]: the sort is
    stable, also in reverse; strings compare by code point.  An entry is put
    in front of the first entry that is not later than it. *)
Fixpoint insert_by_created_at (x : JobSummary) (l : list JobSummary)
    : list JobSummary :=
  match l with
  | [] => [x]
  | y :: rest =>
      if String.ltb (js_created_at x) (js_created_at y)
      then y :: insert_by_created_at x rest
      else x :: l
  end.

Fixpoint sorted_by_created_at_reverse (l : list JobSummary)
    : list JobSummary :=
  match l with
  | [] => []
  | x :: rest => insert_by_created_at x (sorted_by_created_at_reverse rest)
  end.

(** The test of line 755: [metadata.get("user_id") == user_id], where a
    record without metadata has the empty dictionary in its place. *)
Definition owned_by (user : User) (item : string * Job) : bool :=
  bool_decide (md_user_id <$> metadata (snd item) = Some (user_id user)).

Definition job_summary (item : string * Job) : JobSummary :=
  {| js_job_id := fst item; js_status := status (snd item);
     js_created_at := created_at (snd item);
     js_completed_at := completed_at (snd item);
     js_breed_hint := md_breed_hint <$> metadata (snd item) |}.

(** Lines 746-764, on the items of [job_storage] in the order in which the
    dictionary enumerates them. *)
Definition list_user_jobs (user : User) (items : list (string * Job))
    : list JobSummary :=
  sorted_by_created_at_reverse
    (job_summary <$> filter (λ item, owned_by user item = true) items).

(** Later first: no entry is followed by one created after it. *)
Definition not_before (a b : JobSummary) : Prop :=
  String.ltb (js_created_at a) (js_created_at b) = false.

(** A neural pipeline that is loaded but whose call fails, and the
    environment of a run with it in which every file-system call
    succeeds. *)
Definition broken_planter : Planter :=
  {| planter_api := has_generate_planter;
     planter_run := λ _ _ _ fs, (Raise (Exception "CUDA out of memory"), fs) |}.

Definition neural_env : TaskEnv :=
  {| neural_planter := Some broken_planter; io_ok := all_ok;
     uuid4 := "1b4e28ba-2fa1-41d2-883f-0016d3cca427";
     tmp_name := "/tmp/tmpk3x9q2.jpg";
     elapsed := PFloat 31 10;
     created_stamp := "2025-01-01 10:00:00 UTC";
     completed_stamp := "2025-01-01 10:00:04 UTC";
     failed_stamp := "2025-01-01 10:00:05 UTC" |}.

(** ** Runs of the two limiters *)

(** Successive requests, each with its arrival time, against the
    address-keyed limiter. *)
Fixpoint serve_requests (ticks : positive) (arrivals : list (Request * Z))
    (request_log : gmap string RateRecord)
    : list (outcome Admission) * gmap string RateRecord :=
  match arrivals with
  | [] => ([], request_log)
  | (request, now) :: rest =>
      let '(o, log1) :=
        check_rate_limit_enhanced ticks request now request_log in
      let '(os, log2) := serve_requests ticks rest log1 in
      (o :: os, log2)
  end.

(** The arrival times of the requests that were let through. *)
Definition admitted_times {A} (served : list (Z * outcome A)) : list Z :=
  fst <$> filter (λ p, is_Return (snd p) = true) served.

(** ** Analysis and optimisation stages of a production run *)

(** Lines 479-498: the analysis used when the remote one is not
    available. *)
Definition fallback_analysis (user_breed : option string)
    : EnhancedBreedAnalysis :=
  {| breed := py_or user_breed "Mixed Breed";
     confidence :=
       match truthy_opt user_breed with
       | Some _ => PFloat 9 10
       | None => PFloat 7 10
       end;
     head_shape := "well-proportioned"; ear_type := "alert";
     facial_features := "intelligent expression"; body_type := "athletic";
     size_class := "medium"; primary_color := "#8B7355";
     markings := "unique pattern"; facial_markings := "distinctive features";
     color_palette := ["#8B7355"; "#D2B48C"; "#FFFFFF"];
     estimated_size := [("height", "20-24 inches"); ("weight", "40-60 lbs")];
     personality := "friendly and intelligent";
     dimensions := [("height", "24 inches"); ("length", "36 inches");
                    ("weight", "45-65 lbs")];
     temperament := "friendly, intelligent, loyal";
     activity_level := "moderate to high"; grooming_needs := "moderate" |}.

(** The keyword arguments of lines 457-475, from the items of
    [analysis_data]. *)
Definition analysis_kwargs (user_breed : option string)
    (items : list (string * pyval)) : list (string * pyval) :=
  let get key dflt := default dflt (assoc_get key items) in
  [("breed", get "breed" (PStr (py_or user_breed "Mixed Breed")));
   ("confidence",
    get "confidence"
      match truthy_opt user_breed with
      | Some _ => PFloat 9 10
      | None => PFloat 7 10
      end);
   ("head_shape", get "headShape" (PStr "well-proportioned"));
   ("ear_type", get "earType" (PStr "alert"));
   ("facial_features", get "facialFeatures" (PStr "intelligent expression"));
   ("body_type", get "bodyType" (PStr "athletic"));
   ("size_class", get "sizeClass" (PStr "medium"));
   ("primary_color", get "primaryColor" (PStr "#8B7355"));
   ("markings", get "markings" (PStr "unique pattern"));
   ("facial_markings", get "facialMarkings" (PStr "distinctive features"));
   ("color_palette",
    get "colorPalette"
      (PList [PStr "#8B7355"; PStr "#D2B48C"; PStr "#FFFFFF"]));
   ("estimated_size",
    get "estimatedSize"
      (PDict [("height", PStr "20-24 inches"); ("weight", PStr "40-60 lbs")]));
   ("personality", get "personality" (PStr "friendly and intelligent"));
   ("dimensions",
    PDict [("height", PStr "24 inches"); ("length", PStr "36 inches");
           ("weight", PStr "45-65 lbs")]);
   ("temperament", PStr "friendly, intelligent, loyal");
   ("activity_level", PStr "moderate to high");
   ("grooming_needs", PStr "moderate")].

(** Lines 430-498.  [analyze_pet] is the answer of the remote analysis
    endpoint to the one request sent, [construct] the keyword constructor of
    the pydantic model [EnhancedBreedAnalysis] ([None] when it raises its
    [ValidationError]).  An answer other than 200 leaves the [with] blocks
    without a [return]; every exception is logged and dropped. *)
Definition analyze_pet_image_enhanced (analyze_pet : outcome Response)
    (construct : list (string * pyval) → option EnhancedBreedAnalysis)
    (image_url : string) (user_breed : option string)
    (options : option EnhancedGenerationOptions) : EnhancedBreedAnalysis :=
  let attempt : outcome (option EnhancedBreedAnalysis) :=
    response ← analyze_pet ;
    if resp_status response =? 200 then
      data ← resp_json response ;
      analysis_data ← py_get data "analysis" data ;
      match analysis_data with
      | PDict items =>
          match construct (analysis_kwargs user_breed items) with
          | Some analysis => Return (Some analysis)
          | None => Raise ValidationError
          end
      | _ => Raise AttributeError
      end
    else Return None in
  match attempt with
  | Return (Some analysis) => analysis
  | Return None | Raise _ => fallback_analysis user_breed
  end.

(** Lines 1270-1300. *)
Definition optimize_model_enhanced (model_result : pyval)
    (options : EnhancedGenerationOptions) : outcome (list (string * pyval)) :=
  let high := String.eqb (optimization_level options) "high" in
  model_url ← py_getitem model_result "model_url" ;
  stl_url ← py_getitem model_result "stl_url" ;
  preview_url ← py_getitem model_result "preview_url" ;
  mret [("model_url", model_url); ("stl_url", stl_url);
        ("preview_url", preview_url);
        ("complexity", PInt (target_poly_count options));
        ("processing_time", PInt (if high then 60 else 45));
        ("printability", PStr "excellent");
        ("mesh_quality", if high then PFloat 985 10 else PFloat 95 1);
        ("geometry_score", if high then PFloat 965 10 else PFloat 92 1);
        ("recommended_material",
         PStr (py_or (Some (preferred_material options))
                 "PLA+ or PETG for durability"));
        ("estimated_print_time",
         PStr (if high then "4-6 hours at 0.15mm layer height"
               else "4-6 hours at 0.2mm layer height"));
        ("support_required",
         PStr (if minimize_supports options then "none - optimized geometry"
               else "minimal - optimized geometry"));
        ("post_processing", PStr "light sanding recommended");
        ("dimensions",
         PStr (py_or (Some (custom_dimensions options))
                 ("6" +:+ dq +:+ " x 4" +:+ dq +:+ " x 8" +:+ dq
                  +:+ " (L x W x H)")));
        ("planter_capacity",
         PStr (match planter_size options with
               | large => "24 oz soil"
               | _ => "20 oz soil"
               end));
        ("weight_empty", PStr "0.9 lbs"); ("weight_filled", PStr "2.4 lbs");
        ("layer_height", PStr (if high then "0.15mm" else "0.2mm"));
        ("texture_generation",
         PStr "High-quality procedural textures generated");
        ("filament_usage", PStr "150g")].

(** The [job_id] that [generate_production_model_enhanced] puts into its
    answer (line 953): [optimized_result.get('job_id')]. *)
Definition production_job_id (optimized_result : list (string * pyval))
    : pyval :=
  default PNone (assoc_get "job_id" optimized_result).

(** A remote analysis endpoint that is down. *)
Definition analysis_down : outcome Response :=
  Return {| resp_status := 502; resp_json := Raise JSONDecodeError;
            resp_text := "Bad Gateway" |}.

(** Splits a run that is known to have returned on what it depended on. *)
Ltac split_run H :=
  repeat (match type of H with
          | context [match ?x with _ => _ end] =>
              lazymatch x with
              | context [match _ with _ => _ end] => fail
              | _ => destruct x eqn:?
              end
          end; try discriminate H).

(** ** Single-image breed detection ([src/api/routes/breed.py]) *)

(** Lines 103-151.  [build_response] stands for lines 126-142, the
    construction of the pydantic model [BreedDetectionResponse] from the
    result of the engine, which raises on a missing key or an ill-typed
    value. *)
Definition detect_breed {R : Type}
    (build_response : BreedDetectionRequest → Image → pyval → outcome R)
    (io : ImageIO) (inference_engine : option Engine)
    (request : BreedDetectionRequest) : outcome R :=
  match inference_engine with
  | None => Raise (HTTPException 503 "Model not loaded")
  | Some engine =>
      match image ← _load_image io (image_url request) (image_base64 request) ;
            results ← predict engine image (use_tta request)
                         (confidence_threshold request) (return_top_k request) ;
            build_response request image results with
      | Return response => Return response
      | Raise e =>
          Raise (HTTPException 500 ("Detection failed: " +:+ str_exn e))
      end
  end.

(** Lines 154-205.  [open_image] stands for [Image.open(io.BytesIO(...))],
    [elapsed_ms] for the clock reading of line 190 and [json_response] for
    the rendering of [JSONResponse]. *)
Definition detect_breed_from_file {R : Type}
    (open_image : string → outcome Image) (elapsed_ms : pyval)
    (json_response : pyval → outcome R)
    (io : ImageIO) (inference_engine : option Engine)
    (file : UploadFile) (use_tta : bool) (confidence_threshold : pyval)
    (top_k : Z) : outcome R :=
  match inference_engine with
  | None => Raise (HTTPException 503 "Model not loaded")
  | Some engine =>
      if negb (is_image file) then
        Raise (HTTPException 400 "File must be an image")
      else
        match image_data ← read file ;
              image ← open_image image_data ;
              image ← (if String.eqb (mode image) "RGB" then Return image
                       else convert_rgb io image) ;
              results ← predict engine image use_tta confidence_threshold
                           top_k ;
              results ←
                py_setitem results "metadata"
                  (PDict [("filename",
                           match filename file with
                           | Some name => PStr name
                           | None => PNone
                           end);
                          ("file_size",
                           PInt (Z.of_nat (String.length image_data)));
                          ("image_size",
                           PList [PInt (width image); PInt (height image)]);
                          ("processing_time_ms", elapsed_ms);
                          ("used_tta", PBool use_tta)]) ;
              json_response results with
        | Return response => Return response
        | Raise e =>
            Raise (HTTPException 500 ("Detection failed: " +:+ str_exn e))
        end
  end.

(** An upload whose bytes are not an image, and a decoder that says so. *)
Definition garbled_photo : UploadFile :=
  {| content_type := Some "image/png"; filename := Some "dog.png";
     read := Return "not an image" |}.

Definition strict_decoder (data : string) : outcome Image :=
  if String.eqb data "JFIF"
  then Return {| mode := "RGB"; width := 640; height := 480 |}
  else Raise (Exception "cannot identify image file").

(** ** Validation of the image URL (lines 814-847) *)

Definition SUPPORTED_IMAGE_FORMATS : list string :=
  ["jpg"; "jpeg"; "png"; "webp"].

Definition MAX_IMAGE_SIZE : Z := 10 * 1024 * 1024.

(** [s.split(sep)] for a separator of one character: the parts between
    the occurrences of the separator, at least one. *)
Fixpoint py_split (sep : Ascii.ascii) (s : string) : list string :=
  match s with
  | EmptyString => [EmptyString]
  | String c rest =>
      if Ascii.eqb c sep then EmptyString :: py_split sep rest
      else
        match py_split sep rest with
        | part :: parts => String c part :: parts
        | [] => [String c EmptyString]
        end
  end.

(** [sub in s]. *)
Fixpoint py_in (sub s : string) : bool :=
  String.prefix sub s
  || match s with
     | EmptyString => false
     | String _ rest => py_in sub rest
     end.

(** Lines 814-827; [lower] stands for [str.lower].  The 400 raised inside
    the [try] is an [Exception] and is intercepted by its handler. *)
Definition validate_image_url (lower : string → string) (image_url : string)
    : outcome unit :=
  let is_base64_url := String.prefix "data:image/" image_url in
  let is_regular_url :=
    existsb (λ fmt, py_in fmt (lower image_url)) SUPPORTED_IMAGE_FORMATS in
  if is_base64_url then
    let attempt : outcome unit :=
      let format_part :=
        List.last (py_split "/"%char (hd "" (py_split ";"%char image_url))) "" in
      if bool_decide (format_part ∈ SUPPORTED_IMAGE_FORMATS) then Return ()
      else
        Raise (HTTPException 400
                 ("Unsupported base64 image format: " +:+ format_part)) in
    match attempt with
    | Return _ => Return ()
    | Raise _ => Raise (HTTPException 400 "Invalid base64 image URL format")
    end
  else if negb is_regular_url then
    Raise (HTTPException 400 "Invalid image URL format")
  else Return ().

(** Lines 829-847.  [head] stands for the HEAD request and the lookup of
    the content-length header of its answer, [int_of] for [int] on the
    text of the header.  An HTTP exception is raised again, any other
    exception is logged and dropped.  The estimate [len * 3 / 4] exceeds
    the bound exactly when [3 * len] exceeds four times the bound. *)
Definition validate_image_size (head : string → outcome (option string))
    (int_of : string → outcome Z) (image_url : string) : outcome unit :=
  let is_base64_url := String.prefix "data:image/" image_url in
  let too_large :=
    Raise (HTTPException 400 "Image too large. Maximum size: 10MB") in
  let attempt : outcome unit :=
    if is_base64_url then
      let base64_data :=
        if py_in "," image_url then nth 1 (py_split ","%char image_url) ""
        else "" in
      if 3 * Z.of_nat (String.length base64_data) >? 4 * MAX_IMAGE_SIZE
      then too_large else Return ()
    else
      content_length ← head image_url ;
      match truthy_opt content_length with
      | Some text =>
          n ← int_of text ;
          if n >? MAX_IMAGE_SIZE then too_large else Return ()
      | None => Return ()
      end in
  match attempt with
  | Raise (HTTPException code detail) => Raise (HTTPException code detail)
  | Raise _ | Return _ => Return ()
  end.

(** ** Status of a job *)

Record GenerationResult := {
  gr_job_id : string;
  gr_status : Status;
  stl_file_url : option string;
  preview_image_url : option string;
  gr_processing_time : option pyval;
  gr_quality_score : option pyval;
  gr_metadata : option Metadata }.

(** Lines 699-722.  [as_float] is the validation of a value against the
    field type [float] of the pydantic model [GenerationResult] ([None]
    when it raises the [ValidationError]); an absent value is accepted as
    it is. *)
Definition get_generation_status (as_float : pyval → option pyval)
    (jid : string) (user : User) : M GenerationResult := λ w,
  match job_storage w !! jid with
  | None => (Raise (HTTPException 404 "Job not found"), w)
  | Some job_info =>
      let field (v : option pyval) : option (option pyval) :=
        match v with
        | Some x => Some <$> as_float x
        | None => Some None
        end in
      match field (processing_time job_info),
            field (quality_score job_info) with
      | Some time, Some score =>
          let ready :=
            bool_decide (status job_info = completed)
            && bool_decide (is_Some (stl_file_path job_info)) in
          (Return
             {| gr_job_id := jid; gr_status := status job_info;
                stl_file_url :=
                  if ready then Some ("/api/v1/download/" +:+ jid +:+ "/stl")
                  else None;
                preview_image_url :=
                  if ready
                  then Some ("/api/v1/download/" +:+ jid +:+ "/preview")
                  else None;
                gr_processing_time := time; gr_quality_score := score;
                gr_metadata := metadata job_info |},
           w)
      | _, _ => (Raise ValidationError, w)
      end
  end.

(** A validation that takes floats and integers. *)
Definition numbers_only (v : pyval) : option pyval :=
  match v with
  | PFloat num den => Some (PFloat num den)
  | PInt n => Some (PFloat n 1)
  | _ => None
  end.

(** A HEAD request that finds no server. *)
Definition unreachable (url : string) : outcome (option string) :=
  Raise OSError.

Definition digits_only (text : string) : outcome Z :=
  Raise (ValueError "invalid literal for int()").

(** ** Validation of a detection request ([src/api/routes/breed.py]) *)

(** Lines 55-59: the validator that pydantic runs on every
    [BreedDetectionRequest] before a handler sees it. *)
Definition check_any_source (request : BreedDetectionRequest)
    : outcome BreedDetectionRequest :=
  match truthy_opt (image_url request), truthy_opt (image_base64 request) with
  | None, None =>
      Raise (ValueError "Either image_url or image_base64 must be provided")
  | _, _ => Return request
  end.

(** A neural pipeline that returns a result without writing the model
    file. *)
Definition forgetful_planter : Planter :=
  {| planter_api := has_generate_dog_planter;
     planter_run := λ _ _ _ fs,
       (Return (PDict [("quality_score", PFloat 91 1)]), fs) |}.

Definition forgetful_env : TaskEnv :=
  {| neural_planter := Some forgetful_planter; io_ok := all_ok;
     uuid4 := "1b4e28ba-2fa1-41d2-883f-0016d3cca427";
     tmp_name := "/tmp/tmpk3x9q2.jpg";
     elapsed := PFloat 31 10;
     created_stamp := "2025-01-01 10:00:00 UTC";
     completed_stamp := "2025-01-01 10:00:04 UTC";
     failed_stamp := "2025-01-01 10:00:05 UTC" |}.

(** ** The production generation operation *)

(** [s.replace(old, new)]: the occurrences of [old] are found from the
    left and do not overlap.  [skip] counts the characters of an occurrence
    that are still to be passed over. *)
Fixpoint replace_from (old new : string) (skip : nat) (s : string) : string :=
  match s with
  | EmptyString => EmptyString
  | String c rest =>
      match skip with
      | S skip' => replace_from old new skip' rest
      | O =>
          if String.prefix old s
          then new +:+ replace_from old new (String.length old - 1) rest
          else String c (replace_from old new 0 rest)
      end
  end.

(** With an empty [old], [new] is put in front of every character and at
    the end. *)
Fixpoint replace_empty (new s : string) : string :=
  match s with
  | EmptyString => new
  | String c rest => new +:+ String c (replace_empty new rest)
  end.

Definition str_replace (old new s : string) : string :=
  if String.eqb old "" then replace_empty new s else replace_from old new 0 s.

(** Lines 1302-1317; only a text has [replace]. *)
Definition generate_additional_formats
    (optimized_result : list (string * pyval))
    (options : EnhancedGenerationOptions) : outcome (list (string * string)) :=
  base_url ← py_getitem (PDict optimized_result) "model_url" ;
  match base_url with
  | PStr base_url =>
      Return [("obj_url", str_replace ".glb" ".obj" base_url);
              ("thumbnail_url", str_replace ".glb" "-thumb.jpg" base_url);
              ("wireframe_url", str_replace ".glb" "-wireframe.png" base_url);
              ("cross_section_url",
               str_replace ".glb" "-section.png" base_url)]
  | _ => Raise AttributeError
  end.

(** Lines 402-416. *)
Definition generate_care_instructions (breed plant_type : string)
    : list string :=
  let instructions :=
    ["Perfect for " +:+ plant_type +:+ " that match your " +:+ breed
     +:+ "'s personality";
     "Water when soil feels dry to touch";
     "Place in bright, indirect sunlight";
     "Drainage holes prevent overwatering"] in
  if String.eqb plant_type "succulents" then
    instructions ++ ["Ideal for low-maintenance plant care"]
  else if String.eqb plant_type "herbs" then
    instructions ++ ["Great for kitchen herbs like basil or mint"]
  else instructions.

(** Lines 418-428, for a member of [QualityLevel]: a member hashes and
    compares as its value, so the table always has an entry for it. *)
Definition calculate_estimated_cost (quality_level : QualityLevel) : string :=
  match quality_level with
  | standard => "$2.50"
  | high => "$4.00"
  | ultra_high => "$6.50"
  | production => "$8.00"
  end.

Record EnhancedQualityMetrics := {
  prompt_complexity : Z;
  generation_time : pyval;
  metrics_quality_level : string;
  estimated_printability : string;
  mesh_quality : pyval;
  geometry_score : pyval;
  polygon_count : Z;
  texture_resolution : string }.

Record EnhancedMetadata := {
  meta_breed : string;
  meta_confidence : pyval;
  recommended_material : string;
  estimated_print_time : string;
  support_required : string;
  post_processing : string;
  meta_dimensions : string;
  planter_capacity : string;
  weight_empty : string;
  weight_filled : string;
  meta_infill_percentage : string;
  layer_height : string;
  meta_print_speed : string;
  filament_usage : string }.

Record AdditionalFeatures := {
  drainage_holes : bool;
  water_reservoir : bool;
  customizations : list string;
  features_plant_type : string;
  care_instructions : list string }.

(** The answer of the enhanced endpoint (lines 296-312).  It has no field
    that tells a procedural model from one of the provider. *)
Record EnhancedGenerationResult := {
  success : bool;
  development_mode : bool;
  model_url : string;
  stl_url : option string;
  obj_url : option string;
  preview_url : option string;
  thumbnail_url : option string;
  breed_analysis : EnhancedBreedAnalysis;
  quality_metrics : EnhancedQualityMetrics;
  result_metadata : EnhancedMetadata;
  generation_details : list (string * string);
  additional_features : option AdditionalFeatures;
  message : string;
  result_processing_time : string;
  estimated_cost : string;
  result_job_id : option string }.

(** How the pydantic models take a value for a field of type [str],
    [Optional[str]], [int] and [float].  A text field takes a text only.
    The fields of type [int] and [float] are given entries that
    [optimize_model_enhanced] has just computed, an integer for the first
    and an integer or a float for the second; no other value reaches them,
    and the conversions that pydantic has for further types do not come into
    play. *)
Definition str_field (v : pyval) : outcome string :=
  match v with PStr s => Return s | _ => Raise ValidationError end.

Definition optional_str_field (v : pyval) : outcome (option string) :=
  match v with
  | PNone => Return None
  | PStr s => Return (Some s)
  | _ => Raise ValidationError
  end.

Definition int_field (v : pyval) : outcome Z :=
  match v with PInt n => Return n | _ => Raise ValidationError end.

Definition float_field (v : pyval) : outcome pyval :=
  match v with
  | PFloat num den => Return (PFloat num den)
  | PInt n => Return (PFloat n 1)
  | _ => Raise ValidationError
  end.

(** Lines 898-954: the answer built from the results of the stages.
    [percent_text] stands for the text of [int(confidence * 100)], which
    depends on the rounding of the float product, and [member_text] for
    the text of a member of [QualityLevel] in an f-string (its value, or
    from Python 3.12 on its qualified name).  The arguments of a model are
    evaluated before the model validates them. *)
Definition production_result (percent_text : pyval → string)
    (member_text : QualityLevel → string) (quality_level : QualityLevel)
    (options : EnhancedGenerationOptions)
    (analysis_result : EnhancedBreedAnalysis)
    (optimized_result : list (string * pyval))
    (additional_formats : list (string * string))
    : outcome EnhancedGenerationResult :=
  let item key := py_getitem (PDict optimized_result) key in
  let get key dflt := default dflt (assoc_get key optimized_result) in
  let format key : outcome string :=
    match assoc_get key additional_formats with
    | Some url => Return url
    | None => Raise (KeyError key)
    end in
  model_url ← item "model_url" ;
  stl_url ← item "stl_url" ;
  obj_url ← format "obj_url" ;
  preview_url ← item "preview_url" ;
  thumbnail_url ← format "thumbnail_url" ;
  quality_metrics ←
    (complexity ← item "complexity" ;
     processing_time ← item "processing_time" ;
     printability ← item "printability" ;
     prompt_complexity ← int_field complexity ;
     generation_time ← float_field processing_time ;
     estimated_printability ← str_field printability ;
     mesh_quality ← float_field (get "mesh_quality" (PFloat 985 10)) ;
     geometry_score ← float_field (get "geometry_score" (PFloat 965 10)) ;
     mret {| prompt_complexity := prompt_complexity;
             generation_time := generation_time;
             metrics_quality_level :=
               member_text quality_level +:+ "-production";
             estimated_printability := estimated_printability;
             mesh_quality := mesh_quality;
             geometry_score := geometry_score;
             polygon_count := target_poly_count options;
             texture_resolution :=
               pretty (texture_size options) +:+ "x"
               +:+ pretty (texture_size options) |}) ;
  metadata ←
    (material ← item "recommended_material" ;
     print_time ← item "estimated_print_time" ;
     support ← item "support_required" ;
     processing ← item "post_processing" ;
     dimensions ← item "dimensions" ;
     capacity ← item "planter_capacity" ;
     empty ← item "weight_empty" ;
     filled ← item "weight_filled" ;
     recommended_material ← str_field material ;
     estimated_print_time ← str_field print_time ;
     support_required ← str_field support ;
     post_processing ← str_field processing ;
     meta_dimensions ← str_field dimensions ;
     planter_capacity ← str_field capacity ;
     weight_empty ← str_field empty ;
     weight_filled ← str_field filled ;
     layer_height ← str_field (get "layer_height" (PStr "0.2mm")) ;
     filament_usage ← str_field (get "filament_usage" (PStr "150g")) ;
     mret {| meta_breed := breed analysis_result;
             meta_confidence := confidence analysis_result;
             recommended_material := recommended_material;
             estimated_print_time := estimated_print_time;
             support_required := support_required;
             post_processing := post_processing;
             meta_dimensions := meta_dimensions;
             planter_capacity := planter_capacity;
             weight_empty := weight_empty;
             weight_filled := weight_filled;
             meta_infill_percentage := infill_percentage options;
             layer_height := layer_height;
             meta_print_speed := print_speed options;
             filament_usage := filament_usage |}) ;
  let texture_generation :=
    get "texture_generation" (PStr "High-quality texture mapping") in
  let features :=
    {| drainage_holes := include_drainage options;
       water_reservoir := include_reservoir options;
       customizations :=
         (if String.eqb (custom_text options) "" then []
          else py_split ","%char (custom_text options));
       features_plant_type := plant_type options;
       care_instructions :=
         generate_care_instructions (breed analysis_result)
           (plant_type options) |} in
  let job_id := get "job_id" PNone in
  model_url ← str_field model_url ;
  stl_url ← optional_str_field stl_url ;
  preview_url ← optional_str_field preview_url ;
  texture_generation ← str_field texture_generation ;
  job_id ← optional_str_field job_id ;
  mret {| success := true;
          development_mode := false;
          model_url := model_url;
          stl_url := stl_url;
          obj_url := Some obj_url;
          preview_url := preview_url;
          thumbnail_url := Some thumbnail_url;
          breed_analysis := analysis_result;
          quality_metrics := quality_metrics;
          result_metadata := metadata;
          generation_details :=
            [("input_image", "Processed with production AI");
             ("breed_detection",
              "Identified as " +:+ breed analysis_result +:+ " with "
              +:+ percent_text (confidence analysis_result)
              +:+ "% confidence using advanced AI");
             ("model_optimization", "Production-grade optimization applied");
             ("planter_integration",
              "Professional planter cavity integration");
             ("printability", "Validated for commercial 3D printing");
             ("mesh_optimization", "Advanced mesh optimization applied");
             ("texture_generation", texture_generation);
             ("color_accuracy", "95% match to original photo")];
          additional_features := Some features;
          message :=
            "Production mode: Ultra-high quality 3D model generated using advanced AI services.";
          result_processing_time := "0s";
          estimated_cost := calculate_estimated_cost quality_level;
          result_job_id := job_id |}.

(** Lines 876-958.  [analyze_pet] and [construct] are those of
    [analyze_pet_image_enhanced].  Whatever a stage or the construction of
    the answer raises is raised again as a plain [Exception]. *)
Definition generate_production_model_enhanced (env : PipelineEnv)
    (analyze_pet : outcome Response)
    (construct : list (string * pyval) → option EnhancedBreedAnalysis)
    (percent_text : pyval → string) (member_text : QualityLevel → string)
    (image_url : string) (quality_level : QualityLevel)
    (breed : option string) (options : EnhancedGenerationOptions)
    : M EnhancedGenerationResult :=
  try_except
    (let analysis_result :=
       analyze_pet_image_enhanced analyze_pet construct image_url breed
         (Some options) in
     model_result ←
       generate_with_3d_service_enhanced env image_url analysis_result
         quality_level options ;
     lift (optimized_result ←
             optimize_model_enhanced (PDict model_result) options ;
           additional_formats ←
             generate_additional_formats optimized_result options ;
           production_result percent_text member_text quality_level options
             analysis_result optimized_result additional_formats))
    (λ e,
       raise (Exception ("Production AI generation failed: " +:+ str_exn e))).

(** The text of a member in an f-string before Python 3.12. *)
Definition member_value (quality_level : QualityLevel) : string :=
  match quality_level with
  | standard => "standard"
  | high => "high"
  | ultra_high => "ultra-high"
  | production => "production"
  end.

(** The percentage of the exact product, truncated.  The float product of
    Python can fall below it by one ([int(0.29 * 100)] is 28); at the
    confidences of [fallback_analysis] both agree. *)
Definition whole_percent (c : pyval) : string :=
  match c with
  | PFloat num den => pretty (Z.quot (num * 100) (Z.pos den))
  | _ => "0"
  end.

(** * Properties *)

(** ** Client identity *)

Lemma py_or_Some_nonempty (s b : string) : s ≠ "" → py_or (Some s) b = s.
Proof.
  intros Hs. unfold py_or.
  destruct (String.eqb_spec s ""); [contradiction | reflexivity].
Qed.

(** With a peer address the handler computes the documented cascade. *)
Lemma client_id_with_peer (request : Request) (addr : Address) :
  client request = Some addr → client_id request = client_id_cascade request.
Proof. intros H. unfold client_id, client_id_cascade. by rewrite H. Qed.

(** X4: with a peer address, the key is the forwarded-address header when
    that is present and not empty; otherwise the real-IP header when that
    is present and not empty; otherwise the address of the connection. *)
Theorem client_id_precedence_with_peer (request : Request) (addr : Address) :
  client request = Some addr →
  let forwarded := headers request !! "x-forwarded-for" in
  let real_ip := headers request !! "x-real-ip" in
  (∀ f, forwarded = Some f → f ≠ "" → client_id request = f)
  ∧ (forwarded = None ∨ forwarded = Some "" →
     ∀ r, real_ip = Some r → r ≠ "" → client_id request = r)
  ∧ (forwarded = None ∨ forwarded = Some "" →
     real_ip = None ∨ real_ip = Some "" →
     client_id request = host addr).
Proof.
  intros Hpeer forwarded real_ip. subst forwarded real_ip.
  unfold client_id. rewrite Hpeer. split; [|split].
  - intros f -> Hf. by apply py_or_Some_nonempty.
  - intros Hfw r -> Hr.
    destruct Hfw as [->| ->]; cbn [py_or String.eqb];
      by apply py_or_Some_nonempty.
  - intros [->| ->] [->| ->]; reflexivity.
Qed.

Lemma client_id_precedence_with_peer_witness :
  client_id relayed_request = "203.0.113.7".
Proof.
  destruct (client_id_precedence_with_peer relayed_request
              {| host := "10.0.0.1"; port := 51544 |} eq_refl)
    as (Hforwarded & _ & _).
  apply Hforwarded; [reflexivity | discriminate].
Defined.

(** Without one, every request lands in the constant bucket. *)
Lemma client_id_without_peer (request : Request) :
  client request = None → client_id request = "anonymous".
Proof. intros H. unfold client_id. by rewrite H. Qed.

(** C7: on a request that carries the forwarded-address header but no peer
    address, the rate-limit key is the constant bucket and not the
    forwarded address that the documented precedence puts first. *)
Theorem client_id_ignores_forwarded_header_without_peer :
  headers proxied_request !! "x-forwarded-for" = Some "203.0.113.7"
  ∧ client_id proxied_request = "anonymous"
  ∧ client_id_cascade proxied_request = "203.0.113.7".
Proof. by vm_compute. Qed.

(** ** The address-keyed limiter *)

Lemma serve_app {S A : Type} (step : Z → S → outcome A * S)
    (l1 l2 : list Z) (s : S) :
  serve step (l1 ++ l2) s =
  (fst (serve step l1 s) ++ fst (serve step l2 (snd (serve step l1 s))),
   snd (serve step l2 (snd (serve step l1 s)))).
Proof.
  revert s. induction l1 as [|now l1 IH]; intros s; simpl.
  - by destruct (serve step l2 s).
  - destruct (step now s) as [o s1]. rewrite IH.
    destruct (serve step l1 s1) as [os s2]. simpl.
    by destruct (serve step l2 s2).
Qed.

Section RateLimitingFacts.

Context (ticks : positive).

Lemma py_int_nonneg (d : Z) : 0 ≤ d → 0 ≤ py_int ticks d.
Proof.
  intros Hd. unfold py_int. rewrite Z.quot_div_nonneg by lia.
  apply Z.div_pos; lia.
Qed.

Lemma py_int_pos_iff (d : Z) :
  0 ≤ d → 0 < py_int ticks d ↔ seconds ticks 1 ≤ d.
Proof.
  intros Hd. unfold py_int, seconds. rewrite Z.quot_div_nonneg by lia.
  rewrite Z.mul_1_l. split.
  - intros Hq. destruct (Z_lt_le_dec d (Z.pos ticks)) as [Hlt|]; [|done].
    rewrite Z.div_small in Hq by lia. lia.
  - intros Hle. apply Z.div_str_pos. lia.
Qed.

(** The handler is the fixed-window machine with threshold 50 and a
    3600-second window on the record of the caller's key, and leaves the
    other keys alone. *)
Lemma enhanced_refines_fixed_window (request : Request) (now : Z)
    (log : gmap string RateRecord) :
  let cid := client_id request in
  let contract :=
    fixed_window_allow MAX_REQUESTS_PER_HOUR (seconds ticks 3600) now
      (log !! cid) in
  let run := check_rate_limit_enhanced ticks request now log in
  fst run = enhanced_outcome ticks cid (fst contract)
  ∧ snd run !! cid = snd contract
  ∧ ∀ k, k ≠ cid → snd run !! k = log !! k.
Proof.
  intros cid contract run. subst contract run.
  unfold check_rate_limit_enhanced, fixed_window_allow. fold cid.
  destruct (log !! cid) as [r|] eqn:Hr; simpl.
  - repeat case_bool_decide; simpl; try lia;
      repeat split; try (by rewrite lookup_insert_eq); try done;
      intros k Hk; by rewrite lookup_insert_ne.
  - repeat split; [by rewrite lookup_insert_eq|].
    intros k Hk. by rewrite lookup_insert_ne.
Qed.

(** A request that finds no record, or an expired one, opens a window. *)
Lemma enhanced_opens_window (request : Request) (now : Z)
    (log : gmap string RateRecord) :
  (log !! client_id request = None
   ∨ ∃ r, log !! client_id request = Some r ∧ now > reset_time r) →
  check_rate_limit_enhanced ticks request now log =
  (Return (admitted_as (client_id request)),
   <[client_id request :=
       {| count := 1; reset_time := now + seconds ticks 3600 |}]> log).
Proof.
  intros [Hnone | (r & Hr & Hlate)]; unfold check_rate_limit_enhanced.
  - by rewrite Hnone.
  - rewrite Hr. by rewrite bool_decide_eq_true_2.
Qed.

(** Inside a window, requests are admitted and counted while the count
    stays within the threshold. *)
Lemma enhanced_admits_within_window (request : Request) (times : list Z)
    (log : gmap string RateRecord) (n R : Z) :
  log !! client_id request = Some {| count := n; reset_time := R |} →
  Forall (λ t, t ≤ R) times →
  n + Z.of_nat (length times) ≤ MAX_REQUESTS_PER_HOUR →
  serve (check_rate_limit_enhanced ticks request) times log =
  (replicate (length times) (Return (admitted_as (client_id request))),
   <[client_id request :=
       {| count := n + Z.of_nat (length times); reset_time := R |}]> log).
Proof.
  revert log n. induction times as [|t times IH]; intros log n Hlog Hall Hn.
  - simpl. rewrite Z.add_0_r. by rewrite insert_id.
  - apply Forall_cons in Hall as [Ht Hall]. simpl in Hn. simpl serve.
    unfold check_rate_limit_enhanced at 1. rewrite Hlog. simpl.
    rewrite bool_decide_eq_false_2 by lia.
    rewrite bool_decide_eq_false_2 by (unfold MAX_REQUESTS_PER_HOUR in *; lia).
    rewrite (IH _ (n + 1)); [| by rewrite lookup_insert_eq | done | lia].
    simpl. rewrite insert_insert_eq. do 3 f_equal. lia.
Qed.

(** At the threshold, a request inside the window is turned away and
    changes nothing. *)
Lemma enhanced_rejects_at_threshold (request : Request) (now : Z)
    (log : gmap string RateRecord) (r : RateRecord) :
  log !! client_id request = Some r →
  now ≤ reset_time r → MAX_REQUESTS_PER_HOUR ≤ count r →
  check_rate_limit_enhanced ticks request now log =
  (Raise (HTTPException 429
            (rate_limit_detail (py_int ticks (reset_time r - now)))),
   log).
Proof.
  intros Hr Hnow Hcount. unfold check_rate_limit_enhanced. rewrite Hr.
  rewrite bool_decide_eq_false_2 by lia.
  by rewrite bool_decide_eq_true_2 by lia.
Qed.

End RateLimitingFacts.

Section FixedWindow.

Context (ticks : positive).

(** C2, as the handler has it: for every key the check is the fixed-window
    machine (threshold 50, window 3600 s), reporting the retry-after as the
    rest of the window truncated to whole seconds; the 51st request of a
    window is turned away without being counted, with a retry-after that is
    never negative and is positive exactly when a full second of the window
    is left; a request after the window is let in and opens a new one. *)
Theorem enhanced_limiter_fixed_window (request : Request) :
  let cid := client_id request in
  let window := seconds ticks 3600 in
  (∀ now log,
     let contract :=
       fixed_window_allow MAX_REQUESTS_PER_HOUR window now (log !! cid) in
     let run := check_rate_limit_enhanced ticks request now log in
     fst run = enhanced_outcome ticks cid (fst contract)
     ∧ snd run !! cid = snd contract
     ∧ ∀ k, k ≠ cid → snd run !! k = log !! k)
  ∧ (∀ t0 ts t log,
       (log !! cid = None ∨ ∃ r, log !! cid = Some r ∧ t0 > reset_time r) →
       length ts = 49%nat →
       Forall (λ t', t' ≤ t0 + window) (ts ++ [t]) →
       serve (check_rate_limit_enhanced ticks request) (t0 :: ts ++ [t]) log =
       (replicate 50 (Return (admitted_as cid))
          ++ [Raise (HTTPException 429
                       (rate_limit_detail (py_int ticks (t0 + window - t))))],
        <[cid := {| count := 50; reset_time := t0 + window |}]> log)
       ∧ 0 ≤ py_int ticks (t0 + window - t)
       ∧ (0 < py_int ticks (t0 + window - t)
          ↔ seconds ticks 1 ≤ t0 + window - t))
  ∧ (∀ now log r,
       log !! cid = Some r → now > reset_time r →
       check_rate_limit_enhanced ticks request now log =
       (Return (admitted_as cid),
        <[cid := {| count := 1; reset_time := now + window |}]> log)).
Proof.
  intros cid window. split; [|split].
  - intros now log. apply enhanced_refines_fixed_window.
  - intros t0 ts t log Hopen Hlen Hall.
    apply Forall_app in Hall as [Hts Ht].
    rewrite Forall_singleton in Ht.
    split; [|split; [apply py_int_nonneg; lia | apply py_int_pos_iff; lia]].
    cbn [serve]. rewrite (enhanced_opens_window ticks request t0 log Hopen).
    fold cid window. rewrite serve_app.
    rewrite (enhanced_admits_within_window ticks request ts _ 1 (t0 + window));
      [| by rewrite lookup_insert_eq | done
       | rewrite Hlen; unfold MAX_REQUESTS_PER_HOUR; lia].
    fold cid. rewrite Hlen. cbn [fst snd serve].
    rewrite insert_insert_eq.
    erewrite enhanced_rejects_at_threshold;
      [| by rewrite lookup_insert_eq | simpl; lia
       | unfold MAX_REQUESTS_PER_HOUR; simpl; lia].
    simpl. reflexivity.
  - intros now log r Hr Hlate.
    apply enhanced_opens_window. right. by exists r.
Qed.

End FixedWindow.

(** C2 at a concrete run: fifty requests of one caller in the first ten
    seconds, and a fifty-first twenty seconds in. *)
Lemma enhanced_limiter_fixed_window_witness :
  serve (check_rate_limit_enhanced 1 direct_request)
    (0 :: replicate 49 10 ++ [20]) ∅ =
  (replicate 50 (Return (admitted_as "198.51.100.4"))
     ++ [Raise (HTTPException 429
                  "Rate limit exceeded. Try again in 3580 seconds")],
   {["198.51.100.4" := {| count := 50; reset_time := 3600 |}]}).
Proof.
  destruct (enhanced_limiter_fixed_window 1 direct_request) as (_ & H & _).
  destruct (H 0 (replicate 49 10) 20 ∅) as (Hrun & _).
  - left. reflexivity.
  - reflexivity.
  - vm_compute. repeat constructor; discriminate.
  - rewrite Hrun. reflexivity.
Defined.

(** C2 as worded fails at the end of a window: a fifty-first request that
    arrives exactly when the window ends is still inside it (the window is
    over only when [now > reset_time]) and is turned away with a retry-after
    of zero; with a clock of half seconds the same happens half a second
    before the end. *)
Lemma retry_after_zero_inside_window :
  Forall (λ t, t ≤ 0 + seconds 1 3600) (replicate 50 3600)
  ∧ last (fst (serve (check_rate_limit_enhanced 1 direct_request)
                 (0 :: replicate 50 3600) ∅)) =
    Some (Raise (HTTPException 429
                   "Rate limit exceeded. Try again in 0 seconds"))
  ∧ Forall (λ t, t < 0 + seconds 2 3600) (replicate 50 7199)
  ∧ last (fst (serve (check_rate_limit_enhanced 2 direct_request)
                 (0 :: replicate 50 7199) ∅)) =
    Some (Raise (HTTPException 429
                   "Rate limit exceeded. Try again in 0 seconds")).
Proof.
  split; [|split; [|split]].
  - apply Forall_replicate. by vm_compute.
  - by vm_compute.
  - apply Forall_replicate. by vm_compute.
  - by vm_compute.
Qed.

(** ** The user-keyed limiter *)

Lemma filter_keep_all {A} (P : A → Prop) `{∀ x, Decision (P x)} (l : list A) :
  Forall P l → filter P l = l.
Proof.
  induction 1 as [|x l Hx Hl IH]; [done|].
  by rewrite filter_cons_True, IH.
Qed.

Section SlidingWindow.

Context (ticks : positive).

(** The limiter keeps the arrival times of the admitted requests of the
    last hour and counts them. *)
Lemma check_rate_limit_sliding (user : User) (now : Z)
    (log : gmap string (list Z)) :
  let recent :=
    filter (λ t, now - t < seconds ticks 3600)
      (default [] (log !! user_id user)) in
  check_rate_limit ticks user now log =
  if bool_decide (length recent < 100)%nat then
    (Return user, <[user_id user := recent ++ [now]]> log)
  else
    (Raise (HTTPException 429
              "Rate limit exceeded. Maximum 100 requests per hour."),
     <[user_id user := recent]> log).
Proof.
  intros recent. unfold check_rate_limit. fold recent.
  repeat case_bool_decide; try lia; [done|].
  by rewrite insert_insert_eq.
Qed.

(** While every request of a user arrives less than an hour after the
    first one, nothing is dropped from the log and its length plays the part
    of the counter. *)
Lemma sliding_matches_fixed_window_from (user : User) (t0 : Z)
    (ts l : list Z) (log : gmap string (list Z)) :
  log !! user_id user = Some l →
  Forall (λ t, t0 ≤ t < t0 + seconds ticks 3600) l →
  Forall (λ t, t0 ≤ t < t0 + seconds ticks 3600) ts →
  is_Return <$> fst (serve (check_rate_limit ticks user) ts log) =
  is_Allowed <$>
    fixed_window_run 100 (seconds ticks 3600) ts
      (Some {| count := Z.of_nat (length l);
               reset_time := t0 + seconds ticks 3600 |}).
Proof.
  revert l log. induction ts as [|t ts IH]; intros l log Hlog Hl Hts; [done|].
  apply Forall_cons in Hts as [Ht Hts].
  cbn [serve fixed_window_run]. rewrite check_rate_limit_sliding.
  rewrite Hlog. cbn [default].
  rewrite filter_keep_all by (eapply Forall_impl; [exact Hl|]; simpl; lia).
  unfold fixed_window_allow. cbn [count reset_time].
  rewrite (bool_decide_eq_false_2 (t > _)) by lia.
  destruct (decide (length l < 100)%nat) as [Hlt|Hge].
  - rewrite bool_decide_eq_true_2 by done.
    rewrite (bool_decide_eq_true_2 (_ < 100)) by lia.
    specialize (IH (l ++ [t]) (<[user_id user := l ++ [t]]> log)).
    destruct (serve _ ts _) as [os s2] eqn:Hserve. cbn [fst fmap list_fmap].
    f_equal. cbn [fst] in IH. rewrite IH.
    + replace (Z.of_nat (length (l ++ [t]))) with (Z.of_nat (length l) + 1)
        by (rewrite length_app; cbn [length]; lia).
      done.
    + by rewrite lookup_insert_eq.
    + apply Forall_app. split; [done|]. by apply Forall_singleton.
    + done.
  - rewrite bool_decide_eq_false_2 by done.
    rewrite (bool_decide_eq_false_2 (_ < 100)) by lia.
    specialize (IH l (<[user_id user := l]> log)).
    destruct (serve _ ts _) as [os s2] eqn:Hserve. cbn [fst fmap list_fmap].
    f_equal. cbn [fst] in IH. rewrite IH; [done | by rewrite lookup_insert_eq | done..].
Qed.

Lemma sliding_matches_fixed_window (user : User) (t0 : Z) (ts : list Z)
    (log : gmap string (list Z)) :
  log !! user_id user = None →
  Forall (λ t, t0 ≤ t < t0 + seconds ticks 3600) ts →
  is_Return <$> fst (serve (check_rate_limit ticks user) (t0 :: ts) log) =
  is_Allowed <$> fixed_window_run 100 (seconds ticks 3600) (t0 :: ts) None.
Proof.
  intros Hlog Hts. cbn [serve fixed_window_run].
  rewrite check_rate_limit_sliding. rewrite Hlog. cbn [default].
  rewrite filter_nil. rewrite bool_decide_eq_true_2 by (simpl; lia).
  unfold fixed_window_allow.
  pose proof (sliding_matches_fixed_window_from user t0 ts [t0]
                (<[user_id user := [] ++ [t0]]> log)) as H.
  destruct (serve _ ts _) as [os s2] eqn:Hserve. cbn [fst fmap list_fmap].
  f_equal. cbn [fst] in H. apply H; [by rewrite lookup_insert_eq| |done].
  apply Forall_singleton. unfold seconds. lia.
Qed.

End SlidingWindow.

(** C6, as the two handlers have it: the address-keyed limiter is the
    fixed-window machine with threshold 50; the user-keyed limiter keeps no
    counter and no reset time but the arrival times of the last hour's
    admitted requests, turns a request away (with a plain message) when 100
    of them remain, and decides like the fixed-window machine with threshold
    100 as long as every request of the user arrives less than an hour after
    the first. *)
Theorem limiters_agree_within_first_window (ticks : positive)
    (request : Request) (user : User) :
  (∀ now log,
     let contract :=
       fixed_window_allow MAX_REQUESTS_PER_HOUR (seconds ticks 3600) now
         (log !! client_id request) in
     let run := check_rate_limit_enhanced ticks request now log in
     fst run = enhanced_outcome ticks (client_id request) (fst contract)
     ∧ snd run !! client_id request = snd contract
     ∧ ∀ k, k ≠ client_id request → snd run !! k = log !! k)
  ∧ (∀ now log,
       let recent :=
         filter (λ t, now - t < seconds ticks 3600)
           (default [] (log !! user_id user)) in
       check_rate_limit ticks user now log =
       if bool_decide (length recent < 100)%nat then
         (Return user, <[user_id user := recent ++ [now]]> log)
       else
         (Raise (HTTPException 429
                   "Rate limit exceeded. Maximum 100 requests per hour."),
          <[user_id user := recent]> log))
  ∧ (∀ t0 ts log,
       log !! user_id user = None →
       Forall (λ t, t0 ≤ t < t0 + seconds ticks 3600) ts →
       is_Return <$> fst (serve (check_rate_limit ticks user) (t0 :: ts) log) =
       is_Allowed <$>
         fixed_window_run 100 (seconds ticks 3600) (t0 :: ts) None).
Proof.
  split; [|split].
  - intros now log. apply enhanced_refines_fixed_window.
  - intros now log. apply check_rate_limit_sliding.
  - intros t0 ts log Hlog Hts. by apply sliding_matches_fixed_window.
Qed.

Lemma limiters_agree_within_first_window_witness :
  is_Return <$>
    fst (serve (check_rate_limit 1 demo_user) (0 :: replicate 100 3599) ∅) =
  is_Allowed <$>
    fixed_window_run 100 (seconds 1 3600) (0 :: replicate 100 3599) None.
Proof.
  destruct (limiters_agree_within_first_window 1 direct_request demo_user)
    as (_ & _ & H).
  apply (H 0 (replicate 100 3599) ∅).
  - reflexivity.
  - apply Forall_replicate. unfold seconds. lia.
Defined.

(** C6 as worded fails across the end of an hour: after one request at
    second 0 and ninety-nine at second 3599, the fixed-window machine with
    threshold 100 starts afresh at second 3601 and lets two requests in; the
    user-keyed limiter still counts the ninety-nine and turns the second one
    away. *)
Lemma sliding_log_departs_from_fixed_window :
  fixed_window_run 100 (seconds 1 3600) late_burst None !! 101%nat
  = Some Allowed
  ∧ fst (serve (check_rate_limit 1 demo_user) late_burst ∅) !! 101%nat
    = Some (Raise (HTTPException 429
                     "Rate limit exceeded. Maximum 100 requests per hour.")).
Proof. split; by vm_compute. Qed.

(** ** The poller *)

Lemma waiting_S (i k : nat) :
  waiting i (S k) = Query i :: Sleep 2 :: waiting (S i) k.
Proof. reflexivity. Qed.

Lemma queries_waiting (i k : nat) : queries (waiting i k) = k.
Proof.
  revert i. induction k as [|k IH]; intros i; [done|].
  rewrite waiting_S. unfold queries in *.
  rewrite filter_cons_True by done. rewrite filter_cons_False by (by intros []).
  cbn [length]. by rewrite IH.
Qed.

Lemma queries_snoc (tr : list event) (i : nat) :
  queries (tr ++ [Query i]) = S (queries tr).
Proof.
  unfold queries. rewrite filter_app, length_app.
  rewrite filter_cons_True by done. cbn. lia.
Qed.

Section Poller.

Context (q : nat → outcome Response).

Lemma poll_loop_terminal (n i : nat) (result st : pyval) :
  answers (q i) result st → is_terminal_status st = true →
  poll_loop q (S n) i = (Return result, [Query i]).
Proof.
  intros (response & Hq & H200 & Hjson & Hst) Hterm.
  cbn [poll_loop]. rewrite Hq, H200. cbn. rewrite Hjson. cbn.
  rewrite Hst. cbn. by rewrite Hterm.
Qed.

Lemma poll_loop_pending (n i : nat) :
  pending_answer (q i) →
  poll_loop q (S n) i =
  (fst (poll_loop q n (S i)), Query i :: Sleep 2 :: snd (poll_loop q n (S i))).
Proof.
  intros (result & st & (response & Hq & H200 & Hjson & Hst) & Hrun).
  cbn [poll_loop]. rewrite Hq, H200. cbn. rewrite Hjson. cbn.
  rewrite Hst. cbn. rewrite Hrun. by destruct (poll_loop q n (S i)).
Qed.

Lemma poll_loop_bad_status (n i : nat) (response : Response) :
  q i = Return response → resp_status response ≠ 200 →
  poll_loop q (S n) i =
  (Raise (Exception ("Failed to check job status: "
                     +:+ pretty (resp_status response))),
   [Query i]).
Proof.
  intros Hq Hbad. cbn [poll_loop]. rewrite Hq.
  destruct (Z.eqb_spec (resp_status response) 200); [contradiction | done].
Qed.

(** Attempts that find the job running are walked through one by one. *)
Lemma poll_loop_skip (n i k : nat) :
  (∀ j, (j < k)%nat → pending_answer (q (i + j)%nat)) →
  poll_loop q (k + n) i =
  (fst (poll_loop q n (i + k)), waiting i k ++ snd (poll_loop q n (i + k))).
Proof.
  revert i. induction k as [|k IH]; intros i Hrun.
  - cbn. rewrite Nat.add_0_r. by destruct (poll_loop q n i).
  - replace (S k + n)%nat with (S (k + n)) by lia.
    rewrite poll_loop_pending
      by (specialize (Hrun 0%nat); rewrite Nat.add_0_r in Hrun; apply Hrun; lia).
    rewrite IH.
    + replace (S i + k)%nat with (i + S k)%nat by lia. by rewrite waiting_S.
    + intros j Hj. replace (S i + j)%nat with (i + S j)%nat by lia.
      apply Hrun. lia.
Qed.

Lemma poll_loop_returns_at (n k : nat) (result st : pyval) :
  (k < n)%nat →
  (∀ j, (j < k)%nat → pending_answer (q j)) →
  answers (q k) result st → is_terminal_status st = true →
  poll_loop q n 0 = (Return result, waiting 0 k ++ [Query k]).
Proof.
  intros Hk Hrun Hans Hterm.
  replace n with (k + S (n - S k))%nat by lia.
  rewrite poll_loop_skip by done. cbn [Nat.add].
  by rewrite (poll_loop_terminal _ _ result st).
Qed.

Lemma poll_loop_times_out (n : nat) :
  (∀ j, (j < n)%nat → pending_answer (q j)) →
  poll_loop q n 0 = (Raise (Exception "Job polling timeout"), waiting 0 n).
Proof.
  intros Hrun. replace n with (n + 0)%nat at 1 by lia.
  rewrite poll_loop_skip by done. cbn. by rewrite app_nil_r.
Qed.

Lemma poll_loop_fails_at (n k : nat) (response : Response) :
  (k < n)%nat →
  (∀ j, (j < k)%nat → pending_answer (q j)) →
  q k = Return response → resp_status response ≠ 200 →
  poll_loop q n 0 =
  (Raise (Exception ("Failed to check job status: "
                     +:+ pretty (resp_status response))),
   waiting 0 k ++ [Query k]).
Proof.
  intros Hk Hrun Hq Hbad.
  replace n with (k + S (n - S k))%nat by lia.
  rewrite poll_loop_skip by done. cbn [Nat.add].
  by rewrite (poll_loop_bad_status _ _ response).
Qed.

End Poller.

(** C3: a terminal status at attempt [k+1] (the attempts before it having
    found the job running) is returned after exactly [k+1] status queries;
    a job that is never seen terminal ends in the timeout exception after
    exactly [max_attempts] queries, each followed by a sleep of two seconds;
    an answer other than HTTP 200 raises at once, with no further query.
    The default bound is 30. *)
Theorem poll_replicate_job_bounds (provider : Provider) (job_id : pyval)
    (max_attempts : Z) :
  let q := get provider job_id in
  let run := poll_replicate_job provider job_id max_attempts in
  (∀ k result st,
     (k < Z.to_nat max_attempts)%nat →
     (∀ j, (j < k)%nat → pending_answer (q j)) →
     answers (q k) result st → is_terminal_status st = true →
     run = (Return result, waiting 0 k ++ [Query k])
     ∧ queries (snd run) = S k)
  ∧ ((∀ j, (j < Z.to_nat max_attempts)%nat → pending_answer (q j)) →
     run = (Raise (Exception "Job polling timeout"),
            waiting 0 (Z.to_nat max_attempts))
     ∧ queries (snd run) = Z.to_nat max_attempts)
  ∧ (∀ k response,
       (k < Z.to_nat max_attempts)%nat →
       (∀ j, (j < k)%nat → pending_answer (q j)) →
       q k = Return response → resp_status response ≠ 200 →
       run = (Raise (Exception ("Failed to check job status: "
                                +:+ pretty (resp_status response))),
              waiting 0 k ++ [Query k])
       ∧ queries (snd run) = S k)
  ∧ Z.to_nat DEFAULT_MAX_ATTEMPTS = 30%nat.
Proof.
  intros q run. subst run. unfold poll_replicate_job. fold q.
  split; [|split; [|split]].
  - intros k result st Hk Hrun Hans Hterm.
    rewrite (poll_loop_returns_at q _ k result st) by done.
    split; [done|]. cbn [snd]. by rewrite queries_snoc, queries_waiting.
  - intros Hrun. rewrite poll_loop_times_out by done.
    split; [done|]. cbn [snd]. by rewrite queries_waiting.
  - intros k response Hk Hrun Hq Hbad.
    rewrite (poll_loop_fails_at q _ k response) by done.
    split; [done|]. cbn [snd]. by rewrite queries_snoc, queries_waiting.
  - reflexivity.
Qed.

(** C3 at a provider whose job is running at the first two queries and has
    succeeded at the third. *)
Lemma poll_replicate_job_bounds_witness :
  poll_replicate_job third_time_lucky (PStr "p1") DEFAULT_MAX_ATTEMPTS =
  (Return (PDict [("status", PStr "succeeded");
                  ("output", PStr "https://cdn/x.glb")]),
   [Query 0; Sleep 2; Query 1; Sleep 2; Query 2])
  ∧ queries
      (snd (poll_replicate_job third_time_lucky (PStr "p1")
              DEFAULT_MAX_ATTEMPTS)) = 3%nat.
Proof.
  destruct (poll_replicate_job_bounds third_time_lucky (PStr "p1")
              DEFAULT_MAX_ATTEMPTS) as (H & _).
  apply (H 2%nat (PDict [("status", PStr "succeeded");
                         ("output", PStr "https://cdn/x.glb")])
           (PStr "succeeded")).
  - vm_compute. lia.
  - intros j Hj. exists (PDict [("status", PStr "processing")]), (PStr "processing").
    split; [|reflexivity]. exists running.
    destruct j as [|[|j]]; [by vm_compute | by vm_compute | lia].
  - exists (done_with "https://cdn/x.glb"). by vm_compute.
  - reflexivity.
Defined.

(** ** Procedural fallback of the 3D conversion *)

Lemma append_assoc (s1 s2 s3 : string) :
  (s1 +:+ s2) +:+ s3 = s1 +:+ (s2 +:+ s3).
Proof.
  induction s1 as [|c s1 IH]; [done|].
  change (String c ((s1 +:+ s2) +:+ s3) = String c (s1 +:+ (s2 +:+ s3))).
  by rewrite IH.
Qed.



(** The two failures of the conversion that the design text names: the
    provider refuses the submission, or the job is still running after the
    last status query. *)
Lemma conversion_fails_on_refusal (env : PipelineEnv) (image : pyval)
    (analysis : EnhancedBreedAnalysis) (quality_level : QualityLevel)
    (options : EnhancedGenerationOptions) (response : Response) :
  post (trellis env) = Return response → resp_status response ≠ 200 →
  ∃ e, generate_custom_3d_model_enhanced env image analysis quality_level
         options = Raise e.
Proof.
  intros Hpost Hbad. unfold generate_custom_3d_model_enhanced.
  rewrite Hpost. cbn.
  destruct (Z.eqb_spec (resp_status response) 200); [contradiction|].
  cbn. eauto.
Qed.

Lemma conversion_fails_on_timeout (env : PipelineEnv) (image : pyval)
    (analysis : EnhancedBreedAnalysis) (quality_level : QualityLevel)
    (options : EnhancedGenerationOptions) (response : Response)
    (prediction pid : pyval) :
  post (trellis env) = Return response → resp_status response = 200 →
  resp_json response = Return prediction →
  py_getitem prediction "id" = Return pid →
  (∀ j, (j < 30)%nat → pending_answer (get (trellis env) pid j)) →
  generate_custom_3d_model_enhanced env image analysis quality_level options
  = Raise (Exception "Job polling timeout").
Proof.
  intros Hpost H200 Hjson Hid Hrun. unfold generate_custom_3d_model_enhanced.
  rewrite Hpost. cbn. rewrite H200. cbn. rewrite Hjson. cbn. rewrite Hid. cbn.
  unfold poll_replicate_job.
  change (Z.to_nat DEFAULT_MAX_ATTEMPTS) with 30%nat.
  by rewrite (poll_loop_times_out (get (trellis env) pid) 30 Hrun).
Qed.

(** ** The production operation over the procedural fallback *)














(** The answer of the operation in that run. *)
Example production_answer_over_procedural_model :
  ∃ result,
    fst (generate_production_model_enhanced first_try analysis_down
           (λ _, None) whole_percent member_value
           "https://img.example/dog.jpg" ultra_high (Some "Labrador")
           default_options empty_world) = Return result
    ∧ obj_url result =
      Some "http://localhost:8000/temp_outputs/custom_1700000000_3f2a9c1e.obj"
    ∧ thumbnail_url result =
      Some "http://localhost:8000/temp_outputs/custom_1700000000_3f2a9c1e-thumb.jpg"
    ∧ metrics_quality_level (quality_metrics result) = "ultra-high-production"
    ∧ texture_resolution (quality_metrics result) = "1024x1024"
    ∧ generation_time (quality_metrics result) = PFloat 45 1
    ∧ assoc_get "breed_detection" (generation_details result) =
      Some "Identified as Labrador with 90% confidence using advanced AI"
    ∧ estimated_cost result = "$6.50"
    ∧ (customizations <$> additional_features result) = Some [].
Proof. eexists. split; [by vm_compute|]. repeat split; by vm_compute. Qed.

(** ** Option payload of the enhanced endpoint *)

Section OptionPayload.

Context {Result : Type}.
Context (json_loads : string → outcome pyval).
Context (validate : list (string * pyval) → option EnhancedGenerationOptions).
Context (generate : string → QualityLevel → option string →
                    EnhancedGenerationOptions → outcome Result).

(** A text that is not JSON is replaced by the defaults. *)
Lemma parse_options_not_json (text : string) :
  text ≠ "" → json_loads text = Raise JSONDecodeError →
  parse_options json_loads validate (Some text) = Return default_options.
Proof.
  intros Hne Hloads. unfold parse_options.
  destruct (String.eqb_spec text ""); [contradiction|].
  by rewrite Hloads.
Qed.

(** So is a JSON text that is not an object. *)
Lemma parse_options_not_object (text : string) (v : pyval) :
  text ≠ "" → json_loads text = Return v →
  (∀ kwargs, v ≠ PDict kwargs) →
  parse_options json_loads validate (Some text) = Return default_options.
Proof.
  intros Hne Hloads Hv. unfold parse_options.
  destruct (String.eqb_spec text ""); [contradiction|].
  rewrite Hloads. cbn. destruct v; try done. by destruct (Hv items).
Qed.

(** X3: a payload that is not JSON, or is JSON but not an object, is
    replaced by the default options. *)
Lemma unreadable_payload_gets_defaults (text : string) :
  text ≠ "" →
  (json_loads text = Raise JSONDecodeError
   ∨ ∃ v, json_loads text = Return v ∧ ∀ kwargs, v ≠ PDict kwargs) →
  parse_options json_loads validate (Some text) = Return default_options.
Proof.
  intros Hne [Hbad | (v & Hv & Hshape)].
  - by apply parse_options_not_json.
  - by apply (parse_options_not_object text v).
Qed.

(** An object that the model accepts is used as given. *)
Lemma parse_options_valid (text : string) (kwargs : list (string * pyval))
    (o : EnhancedGenerationOptions) :
  text ≠ "" → json_loads text = Return (PDict kwargs) →
  validate kwargs = Some o →
  parse_options json_loads validate (Some text) = Return o.
Proof.
  intros Hne Hloads Hval. unfold parse_options.
  destruct (String.eqb_spec text ""); [contradiction|].
  rewrite Hloads. cbn. by rewrite Hval.
Qed.

(** An object that the model refuses is not replaced: the validation error
    leaves the inner handler. *)
Lemma parse_options_invalid (text : string) (kwargs : list (string * pyval)) :
  text ≠ "" → json_loads text = Return (PDict kwargs) →
  validate kwargs = None →
  parse_options json_loads validate (Some text) = Raise ValidationError.
Proof.
  intros Hne Hloads Hval. unfold parse_options.
  destruct (String.eqb_spec text ""); [contradiction|].
  rewrite Hloads. cbn. by rewrite Hval.
Qed.

(** C9: a payload that is a JSON object but fails the validation of the
    option model is not replaced by the defaults; the request is answered
    with HTTP 500, and nothing after the parsing of the options runs. *)
Theorem invalid_option_values_are_rejected (text : string)
    (kwargs : list (string * pyval)) (image_url : string)
    (quality_level : QualityLevel) (breed : option string) :
  text ≠ "" → json_loads text = Return (PDict kwargs) →
  validate kwargs = None →
  generate_enhanced_3d_simple json_loads validate generate image_url
    quality_level breed (Some text) =
  Raise (HTTPException 500
           "Failed to generate enhanced 3D model: validation error").
Proof.
  intros Hne Hloads Hval. unfold generate_enhanced_3d_simple.
  by rewrite (parse_options_invalid text kwargs).
Qed.

End OptionPayload.

Lemma unreadable_payload_gets_defaults_witness :
  parse_options cartoon_loads validate_enums (Some "photo_style=cartoon") =
  Return default_options.
Proof.
  apply (unreadable_payload_gets_defaults cartoon_loads validate_enums
           "photo_style=cartoon").
  - discriminate.
  - left. vm_compute. reflexivity.
Defined.

Lemma invalid_option_values_are_rejected_witness :
  generate_enhanced_3d_simple cartoon_loads validate_enums
    (λ _ _ _ _, Return ()) "https://img.example/dog.jpg" ultra_high None
    (Some cartoon_payload) =
  Raise (HTTPException 500
           "Failed to generate enhanced 3D model: validation error").
Proof.
  apply (invalid_option_values_are_rejected cartoon_loads validate_enums
           (λ _ _ _ _, Return ()) cartoon_payload
           [("photo_style", PStr "cartoon")]).
  - vm_compute. discriminate.
  - vm_compute. reflexivity.
  - vm_compute. reflexivity.
Defined.

(** ** Batch breed detection *)

Section Batch.

Context (io : ImageIO) (engine : ObjectEngine).




End Batch.




(** A batch of three whose second image cannot be fetched. *)
Example batch_with_missing_image :
  fst (fst (batch_detect_breeds web_images (Some labrador_objects)
              [by_url "https://img.example/a.jpg";
               by_url "https://img.example/missing.jpg";
               by_url "https://img.example/c.jpg"] ∅)) =
  Return
    {| results :=
         [PDict [("predicted_breed", PStr "Labrador");
                 ("confidence", PFloat 93 100); ("batch_index", PInt 0)];
          error_entry 1
            (HTTPException 400
               "Failed to load image from URL: 404 Not Found");
          PDict [("predicted_breed", PStr "Labrador");
                 ("confidence", PFloat 93 100); ("batch_index", PInt 2)]];
       total_processed := 3 |}.
Proof. by vm_compute. Qed.

(** Two positions that were given the same object show the same
    dictionary, with the index of the later one. *)
Example batch_with_one_result_object :
  fst (fst (batch_detect_breeds web_images (Some one_result_object)
              [by_url "https://img.example/a.jpg";
               by_url "https://img.example/c.jpg"] ∅)) =
  Return
    {| results :=
         [PDict [("predicted_breed", PStr "Labrador");
                 ("confidence", PFloat 93 100); ("batch_index", PInt 1)];
          PDict [("predicted_breed", PStr "Labrador");
                 ("confidence", PFloat 93 100); ("batch_index", PInt 1)]];
       total_processed := 2 |}.
Proof. by vm_compute. Qed.

(** ** Deleting a job *)

(** A requester other than the owner recorded in the metadata of the job
    is refused, and nothing changes. *)
Lemma delete_job_not_owner (env : TaskEnv) (jid : string) (user : User)
    (w : World) (j : Job) :
  job_storage w !! jid = Some j →
  md_user_id <$> metadata j ≠ Some (user_id user) →
  delete_job env jid user w = (Raise (HTTPException 403 "Access denied"), w).
Proof.
  intros Hj Hne. unfold delete_job. rewrite Hj.
  by rewrite bool_decide_eq_true_2.
Qed.

(** X2: the owner recorded in the metadata deletes the job: the record
    goes, and so does the model file, before the handler returns; every
    other file and every other record stay as they were. *)
Lemma delete_job_recorded_owner (env : TaskEnv) (jid : string) (user : User)
    (w : World) (j : Job) :
  job_storage w !! jid = Some j →
  md_user_id <$> metadata j = Some (user_id user) →
  io_ok env UnlinkArtifact = true →
  ∃ w',
    delete_job env jid user w = (Return "Job deleted successfully", w')
    ∧ job_storage w' = delete jid (job_storage w)
    ∧ (∀ p, stl_file_path j = Some p → p ≠ "" → p ∉ files w')
    ∧ (∀ q, q ∈ files w' ↔
            q ∈ files w ∧ ¬ (stl_file_path j = Some q ∧ q ≠ ""))
    ∧ journal w' = journal w.
Proof.
  intros Hj Hown Hio. unfold delete_job. rewrite Hj.
  rewrite bool_decide_eq_false_2 by (by intros []).
  unfold mbind, M_bind, mret, M_ret, remove_job, unlink. rewrite Hio.
  destruct (stl_file_path j) as [p|] eqn:Hp; cbn.
  - destruct (String.eqb_spec p "") as [->|Hne]; cbn.
    + eexists. split; [done|]. cbn. split; [done|].
      split; [by intros ? [= <-]|]. split; [|done].
      intros q. split; [|by intros [? _]].
      intros Hq. split; [done|]. by intros [[= <-] ?].
    + destruct (bool_decide_reflect (p ∈ files w)) as [Hin|Hout]; cbn.
      * rewrite bool_decide_eq_true_2 by done. cbn.
        eexists. split; [done|]. cbn. split; [done|].
        split; [|split; [|done]].
        -- intros q Hq _. injection Hq as <-.
           apply not_elem_of_difference. right. by apply elem_of_singleton.
        -- intros q. rewrite elem_of_difference, elem_of_singleton.
           split.
           ++ intros [Hq Hqp]. split; [done|]. intros [[= <-] _]. done.
           ++ intros [Hq Hnot]. split; [done|]. intros ->. apply Hnot.
              by split.
      * eexists. split; [done|]. cbn. split; [done|].
        split; [by intros ? [= <-]|]. split; [|done].
        intros q. split; [|by intros [? _]].
        intros Hq. split; [done|]. intros [[= <-] _]. done.
  - eexists. split; [done|]. cbn. split; [done|]. split; [done|].
    split; [|done]. intros q. split; [|by intros [? _]].
    intros Hq. split; [done|]. by intros [[=] _].
Qed.

Lemma delete_job_recorded_owner_witness :
  let env := demo_env all_ok in
  let w := snd (submit_and_run env photo demo_user empty_world) in
  ∃ j w',
    job_storage w !! uuid4 env = Some j
    ∧ delete_job env (uuid4 env) demo_user w =
      (Return "Job deleted successfully", w')
    ∧ job_storage w' = delete (uuid4 env) (job_storage w)
    ∧ (∀ p, stl_file_path j = Some p → p ≠ "" → p ∉ files w')
    ∧ (∀ q, q ∈ files w' ↔
            q ∈ files w ∧ ¬ (stl_file_path j = Some q ∧ q ≠ ""))
    ∧ journal w' = journal w.
Proof.
  cbv zeta.
  destruct (job_storage
              (snd (submit_and_run (demo_env all_ok) photo demo_user
                      empty_world))
            !! uuid4 (demo_env all_ok)) as [j|] eqn:Hj;
    [|vm_compute in Hj; discriminate].
  exists j.
  destruct (delete_job_recorded_owner (demo_env all_ok)
              (uuid4 (demo_env all_ok)) demo_user _ j Hj)
    as (w' & Hrun & Hrest).
  - vm_compute in Hj. injection Hj as <-. reflexivity.
  - reflexivity.
  - exists w'. split; [reflexivity|]. split; [exact Hrun | exact Hrest].
Defined.

(** C8: the user who submitted a job is refused when deleting it as long as
    the job has not completed, because the owner is written into the record
    only by the update of the success path.  Here the job has failed (the
    upload could not be read); the same holds right after submission. *)
Theorem owner_cannot_delete_unfinished_job :
  let env := demo_env all_ok in
  let submitted :=
    generate_planter env closed_photo None None None None demo_user
      empty_world in
  let finished := submit_and_run env closed_photo demo_user empty_world in
  (∃ task, fst finished = Return task
            ∧ task_user_id task = user_id demo_user)
  ∧ (status <$> job_storage (snd finished) !! uuid4 env) = Some failed
  ∧ (metadata <$> job_storage (snd finished) !! uuid4 env) = Some None
  ∧ delete_job env (uuid4 env) demo_user (snd finished) =
    (Raise (HTTPException 403 "Access denied"), snd finished)
  ∧ (status <$> job_storage (snd submitted) !! uuid4 env) = Some pending
  ∧ delete_job env (uuid4 env) demo_user (snd submitted) =
    (Raise (HTTPException 403 "Access denied"), snd submitted).
Proof.
  cbv zeta. split; [eexists; split; by vm_compute|].
  repeat split; by vm_compute.
Qed.

(** ** The background task *)

(** X1: every run of the task on a freshly created job returns (no
    exception leaves it), leaves the job in a terminal state and the other
    jobs alone; along the versions it writes, progress never decreases,
    [completed_at] is set exactly on the terminal ones, and the status
    moves forward, except that a completed record may be marked failed
    afterwards.  A job that ends completed has moved forward only, and its
    temporary input file is gone. *)
Lemma task_lifecycle (env : TaskEnv) (jid : string) (file : UploadFile)
    (breed_hint style size quality uid : string) (w : World) (j0 : Job) :
  job_storage w !! jid = Some j0 →
  status j0 = pending → completed_at j0 = None → progress j0 = 0 →
  let run :=
    process_planter_generation env jid file breed_hint style size quality uid
      w in
  fst run = Return ()
  ∧ ∃ js j,
      journal (snd run) = journal w ++ js
      ∧ last (j0 :: js) = Some j
      ∧ job_storage (snd run) !! jid = Some j
      ∧ is_terminal (status j) = true
      ∧ chain_ok forward_or_relabelled (j0 :: js) = true
      ∧ forallb stamped_iff_terminal js = true
      ∧ (status j = completed →
         chain_ok forward (j0 :: js) = true ∧ tmp_name env ∉ files (snd run))
      ∧ (∀ k, k ≠ jid → job_storage (snd run) !! k = job_storage w !! k).
Proof.
  intros Hj Hs Hc Hp run. subst run.
  destruct j0; cbn in Hs, Hc, Hp; subst.
  task_unfold. rewrite Hj. task_run.
  all: split; [reflexivity|].
  all: rewrite <- ?app_assoc; eexists _, _; split; [reflexivity|].
  all: split; [reflexivity|].
  all: split; [first [reflexivity | by rewrite lookup_insert_eq]|].
  all: do 3 (split; [reflexivity|]).
  all: split; [ | intros k Hk; by rewrite ?lookup_insert_ne by done].
  all: try (intros [=]; fail).
  all: intros _; split; [reflexivity|].
  all: apply not_elem_of_difference; right; by apply elem_of_singleton.
Qed.

Lemma task_lifecycle_witness :
  let env := demo_env all_ok in
  let w :=
    snd (generate_planter env photo None None None None demo_user empty_world) in
  let run :=
    process_planter_generation env (uuid4 env) photo "" "realistic" "medium"
      "high" "demo_user" w in
  fst run = Return ()
  ∧ ∃ js j,
      journal (snd run) = journal w ++ js
      ∧ last (new_job (uuid4 env) (created_stamp env) :: js) = Some j
      ∧ job_storage (snd run) !! uuid4 env = Some j
      ∧ is_terminal (status j) = true
      ∧ chain_ok forward_or_relabelled
          (new_job (uuid4 env) (created_stamp env) :: js) = true
      ∧ forallb stamped_iff_terminal js = true
      ∧ (status j = completed →
         chain_ok forward (new_job (uuid4 env) (created_stamp env) :: js)
         = true
         ∧ tmp_name env ∉ files (snd run))
      ∧ (∀ k, k ≠ uuid4 env →
              job_storage (snd run) !! k = job_storage w !! k).
Proof.
  cbv zeta.
  apply (task_lifecycle (demo_env all_ok) (uuid4 (demo_env all_ok)) photo
           "" "realistic" "medium" "high" "demo_user").
  - vm_compute. reflexivity.
  - reflexivity.
  - reflexivity.
  - reflexivity.
Defined.

(** ** The background task on concrete runs *)

(** A run in demo mode in which every call succeeds. *)
Example demo_run_completes :
  let w := snd (submit_and_run (demo_env all_ok) photo demo_user empty_world) in
  status <$> journal w =
    [pending; processing; processing; processing; completed]
  ∧ progress <$> journal w = [0; 0; 10; 20; 100]
  ∧ chain_ok forward (journal w) = true
  ∧ forallb stamped_iff_terminal (journal w) = true
  ∧ elements (files w) =
    ["temp_outputs/1b4e28ba-2fa1-41d2-883f-0016d3cca427_demo_planter.stl"].
Proof. cbv zeta. repeat split; by vm_compute. Qed.

(** C4: when the uploaded file cannot be removed after the job has been
    marked completed, the handler of the same [try] marks the job failed:
    the record goes from completed to failed and its [completed_at] is
    written a second time. *)
Theorem completed_job_is_relabelled_failed :
  let env := demo_env input_stuck in
  let w := snd (submit_and_run env photo demo_user empty_world) in
  status <$> journal w =
    [pending; processing; processing; processing; completed; failed]
  ∧ progress <$> journal w = [0; 0; 10; 20; 100; 100]
  ∧ completed_at <$> journal w =
    [None; None; None; None; Some "2025-01-01 10:00:02 UTC";
     Some "2025-01-01 10:00:03 UTC"]
  ∧ chain_ok forward (journal w) = false
  ∧ (status <$> job_storage w !! uuid4 env) = Some failed.
Proof. cbv zeta. repeat split; by vm_compute. Qed.

(** C5: when the upload cannot be read, the job ends failed and the
    temporary file that was opened for it is still on disk. *)
Theorem failed_job_leaves_input_file :
  let env := demo_env all_ok in
  let w := snd (submit_and_run env closed_photo demo_user empty_world) in
  status <$> journal w = [pending; processing; processing; failed]
  ∧ (status <$> job_storage w !! uuid4 env) = Some failed
  ∧ (error <$> job_storage w !! uuid4 env) =
    Some (Some "I/O operation on closed file")
  ∧ elements (files w) = [tmp_name env]
  ∧ tmp_name env ∈ files w.
Proof.
  cbv zeta. do 4 (split; [by vm_compute|]).
  apply elem_of_elements.
  replace (elements _) with [tmp_name (demo_env all_ok)] by (by vm_compute).
  apply list_elem_of_singleton. reflexivity.
Qed.

(** ** Authentication and the job routes *)

Lemma authenticated_accepted {A} (token : string) (handler : User → M A)
    (w : World) :
  String.prefix "pk_" token = true →
  authenticated token handler w = handler demo_user w.
Proof.
  intros Htok. unfold authenticated, get_current_user. rewrite Htok.
  reflexivity.
Qed.

(** X5: every accepted token stands for the same user, so the holder of any
    accepted token deletes a job that was completed for the holder of
    another one: the ownership test of [delete_job] cannot tell them
    apart. *)
Theorem accepted_tokens_share_one_identity (env : TaskEnv)
    (token other : string) (jid : string) (w : World) (j : Job) (owner : User) :
  get_current_user token = Return owner →
  String.prefix "pk_" other = true →
  job_storage w !! jid = Some j →
  md_user_id <$> metadata j = Some (user_id owner) →
  io_ok env UnlinkArtifact = true →
  ∃ w',
    authenticated other (delete_job env jid) w =
    (Return "Job deleted successfully", w')
    ∧ job_storage w' !! jid = None.
Proof.
  intros Hown Hother Hj Hmd Hio.
  rewrite authenticated_accepted by done.
  unfold get_current_user in Hown.
  destruct (String.prefix "pk_" token); [|discriminate].
  injection Hown as <-.
  unfold delete_job. rewrite Hj.
  rewrite bool_decide_eq_false_2 by (by intros []).
  unfold mbind, M_bind, mret, M_ret, remove_job, unlink. rewrite Hio.
  destruct (stl_file_path j) as [p|]; cbn.
  - destruct (negb (String.eqb p "") && bool_decide (p ∈ files w)) eqn:Hp; cbn.
    + apply andb_true_iff in Hp as [_ Hp]. rewrite Hp. cbn.
      eexists. split; [done|]. cbn. apply lookup_delete_eq.
    + eexists. split; [done|]. cbn. apply lookup_delete_eq.
  - eexists. split; [done|]. cbn. apply lookup_delete_eq.
Qed.

Lemma accepted_tokens_share_one_identity_witness :
  let env := demo_env all_ok in
  let w := snd (submit_and_run env photo demo_user empty_world) in
  ∃ w',
    authenticated "pk_live_bob" (delete_job env (uuid4 env)) w =
    (Return "Job deleted successfully", w')
    ∧ job_storage w' !! uuid4 env = None.
Proof.
  cbv zeta.
  destruct (job_storage
              (snd (submit_and_run (demo_env all_ok) photo demo_user
                      empty_world))
            !! uuid4 (demo_env all_ok)) as [j|] eqn:Hj;
    [|vm_compute in Hj; discriminate].
  apply (accepted_tokens_share_one_identity (demo_env all_ok) "pk_test_alice"
           "pk_live_bob" _ _ j demo_user).
  - reflexivity.
  - reflexivity.
  - exact Hj.
  - vm_compute in Hj. injection Hj as <-. reflexivity.
  - reflexivity.
Defined.

(** A token without the prefix is answered with 401 and the handler does
    not run. *)
Lemma rejected_token_runs_no_handler {A} (token : string)
    (handler : User → M A) (w : World) :
  String.prefix "pk_" token = false →
  authenticated token handler w =
  (Raise (HTTPException 401 "Invalid authentication token"), w).
Proof.
  intros Htok. unfold authenticated, get_current_user. by rewrite Htok.
Qed.

Lemma download_stl_unknown (jid : string) (user : User) (w : World) :
  job_storage w !! jid = None →
  download_stl jid user w = (Raise (HTTPException 404 "Job not found"), w).
Proof. intros H. unfold download_stl. by rewrite H. Qed.

Lemma delete_job_unknown (env : TaskEnv) (jid : string) (user : User)
    (w : World) :
  job_storage w !! jid = None →
  delete_job env jid user w = (Raise (HTTPException 404 "Job not found"), w).
Proof. intros H. unfold delete_job. by rewrite H. Qed.

(** X6: [delete_job] does all or nothing.  When it returns, the record is
    out of the registry, no file has been added, and a later download or a
    second delete of the same job is answered with 404; when it raises
    (unknown job, requester not the recorded owner, or the model file
    cannot be removed), registry and files are as before. *)
Theorem delete_job_all_or_nothing (env : TaskEnv) (jid : string) (user : User)
    (w : World) :
  match delete_job env jid user w with
  | (Return _, w') =>
      job_storage w' = delete jid (job_storage w)
      ∧ files w' ⊆ files w
      ∧ (∀ u, download_stl jid u w' =
              (Raise (HTTPException 404 "Job not found"), w'))
      ∧ (∀ u, delete_job env jid u w' =
              (Raise (HTTPException 404 "Job not found"), w'))
  | (Raise e, w') =>
      w' = w
      ∧ (e = HTTPException 404 "Job not found"
         ∨ e = HTTPException 403 "Access denied"
         ∨ e = OSError)
  end.
Proof.
  unfold delete_job at 1.
  destruct (job_storage w !! jid) as [j|] eqn:Hj; [|by auto].
  case_bool_decide; [by auto|].
  unfold mbind, M_bind, mret, M_ret, remove_job, unlink.
  assert (∀ fs,
    let w' := {| job_storage := delete jid (job_storage w); files := fs;
                 journal := journal w |} in
    job_storage w' = delete jid (job_storage w)
    ∧ (fs ⊆ files w → files w' ⊆ files w)
    ∧ (∀ u, download_stl jid u w' =
            (Raise (HTTPException 404 "Job not found"), w'))
    ∧ (∀ u, delete_job env jid u w' =
            (Raise (HTTPException 404 "Job not found"), w'))) as Hgone.
  { intros fs w'. split; [done|]. split; [done|].
    split; intros u;
      [apply download_stl_unknown | apply delete_job_unknown];
      apply lookup_delete_eq. }
  destruct (stl_file_path j) as [p|].
  - destruct (negb (String.eqb p "") && bool_decide (p ∈ files w)) eqn:Hp.
    + apply andb_true_iff in Hp as [_ Hp].
      destruct (io_ok env UnlinkArtifact);
        cbn -[download_stl delete_job]; [rewrite Hp|by auto].
      destruct (Hgone (files w ∖ {[p]})) as (H1 & H2 & H3 & H4).
      split; [exact H1|]. split; [|split; [exact H3 | exact H4]].
      apply H2. by apply subseteq_difference_l.
    + destruct (Hgone (files w)) as (H1 & H2 & H3 & H4).
      split; [exact H1|]. split; [by apply H2|]. split; [exact H3 | exact H4].
  - destruct (Hgone (files w)) as (H1 & H2 & H3 & H4).
    split; [exact H1|]. split; [by apply H2|]. split; [exact H3 | exact H4].
Qed.

(** ** Downloading the model of a finished job *)

(** X7: in demo mode, after the background task has run on a registered
    job, the download route answers according to how the task ended: with
    the placeholder model file of the job when the job is completed, with
    400 when it is failed.  A completed demo job is never answered with
    404, as long as the temporary upload file is not the model file. *)
Theorem demo_job_download (env : TaskEnv) (jid : string) (file : UploadFile)
    (breed_hint style size quality uid : string) (w : World) (j0 : Job)
    (user : User) :
  neural_planter env = None →
  job_storage w !! jid = Some j0 →
  tmp_name env ≠ "temp_outputs/" +:+ jid +:+ "_demo_planter.stl" →
  let w' :=
    snd (process_planter_generation env jid file breed_hint style size quality
           uid w) in
  ∃ j,
    job_storage w' !! jid = Some j
    ∧ ((status j = completed
        ∧ download_stl jid user w' =
          (Return {| fr_path := "temp_outputs/" +:+ jid +:+ "_demo_planter.stl";
                     fr_media_type := "application/octet-stream";
                     fr_filename := "petplantr_" +:+ jid +:+ "_planter.stl" |},
           w'))
       ∨ (status j = failed
          ∧ download_stl jid user w' =
            (Raise (HTTPException 400 "Job not completed"), w'))).
Proof.
  intros Hdemo Hj Hne w'. subst w'.
  task_unfold. rewrite Hdemo, Hj. task_run.
  all: eexists; split; [first [reflexivity | by rewrite lookup_insert_eq]|].
  all: unfold download_stl; cbn [job_storage files journal fst snd];
       rewrite lookup_insert_eq; cbn.
  all: try (right; split; reflexivity).
  all: left; split; [reflexivity|].
  all: rewrite (bool_decide_eq_true_2 (_ ∈ _)); [reflexivity|].
  all: apply elem_of_difference; split;
       [apply elem_of_union_l; by apply elem_of_singleton
       | intros Hin; apply elem_of_singleton in Hin; congruence].
Qed.

Lemma demo_job_download_witness :
  let env := demo_env all_ok in
  let w :=
    snd (generate_planter env photo None None None None demo_user empty_world) in
  let w' :=
    snd (process_planter_generation env (uuid4 env) photo "" "realistic"
           "medium" "high" "demo_user" w) in
  ∃ j,
    job_storage w' !! uuid4 env = Some j
    ∧ ((status j = completed
        ∧ download_stl (uuid4 env) demo_user w' =
          (Return {| fr_path :=
                       "temp_outputs/" +:+ uuid4 env +:+ "_demo_planter.stl";
                     fr_media_type := "application/octet-stream";
                     fr_filename :=
                       "petplantr_" +:+ uuid4 env +:+ "_planter.stl" |},
           w'))
       ∨ (status j = failed
          ∧ download_stl (uuid4 env) demo_user w' =
            (Raise (HTTPException 400 "Job not completed"), w'))).
Proof.
  cbv zeta.
  apply (demo_job_download (demo_env all_ok) (uuid4 (demo_env all_ok)) photo
           "" "realistic" "medium" "high" "demo_user" _
           (new_job (uuid4 (demo_env all_ok)) (created_stamp (demo_env all_ok)))
           demo_user).
  - reflexivity.
  - vm_compute. reflexivity.
  - vm_compute. discriminate.
Defined.

(** ** The neural pipeline inside the background task *)

(** X8: a failure of the neural pipeline does not fail the job.  When the
    call into the loaded pipeline raises (and the uploaded file is still
    there, and the file-system calls succeed), the task writes the
    placeholder model, and the job ends completed with progress 100, the
    fixed quality score 75.0 and no error recorded; the model file is on
    disk and the temporary upload file is gone. *)
Theorem neural_failure_completes_with_placeholder (env : TaskEnv)
    (p : Planter) (jid : string) (file : UploadFile)
    (breed_hint style size quality uid : string) (w : World) (j0 : Job)
    (content : string) (e : exn) (fs : gset string) :
  neural_planter env = Some p →
  planter_api p ≠ has_neither →
  (∀ site, io_ok env site = true) →
  read file = Return content →
  job_storage w !! jid = Some j0 →
  planter_run p (tmp_name env) ("temp_outputs/" +:+ jid +:+ "_planter.stl")
    breed_hint ({[tmp_name env]} ∪ files w) = (Raise e, fs) →
  tmp_name env ∈ fs →
  tmp_name env ≠ "temp_outputs/" +:+ jid +:+ "_planter.stl" →
  let w' :=
    snd (process_planter_generation env jid file breed_hint style size quality
           uid w) in
  ∃ j,
    job_storage w' !! jid = Some j
    ∧ status j = completed ∧ progress j = 100
    ∧ quality_score j = Some (PFloat 75 1)
    ∧ stl_file_path j = Some ("temp_outputs/" +:+ jid +:+ "_planter.stl")
    ∧ error j = error j0
    ∧ "temp_outputs/" +:+ jid +:+ "_planter.stl" ∈ files w'
    ∧ tmp_name env ∉ files w'.
Proof.
  intros Hp Hapi Hio Hread Hj Hrun Htmp Hne w'. subst w'.
  task_unfold. rewrite Hp, Hj, Hread, !Hio.
  destruct (planter_api p) eqn:Hapi'; [| |done].
  all: repeat (cbn [job_storage files journal fst snd andb py_get default
                    assoc_get String.eqb Ascii.eqb Bool.eqb];
               first [rewrite lookup_insert_eq | rewrite Hrun
                     | rewrite (bool_decide_eq_true_2 (tmp_name env ∈ _))
                         by (apply elem_of_union_r; exact Htmp)]).
  all: cbn [job_storage files journal fst snd andb].
  all: eexists; split; [first [reflexivity | by rewrite lookup_insert_eq]|].
  all: do 5 (split; [reflexivity|]).
  all: split;
       [apply elem_of_difference; split;
        [apply elem_of_union_l; by apply elem_of_singleton
        | intros Hin; apply elem_of_singleton in Hin; congruence]
       | apply not_elem_of_difference; right; by apply elem_of_singleton].
Qed.

Lemma neural_failure_completes_with_placeholder_witness :
  let env := neural_env in
  let w :=
    snd (generate_planter env photo None None None None demo_user empty_world) in
  let w' :=
    snd (process_planter_generation env (uuid4 env) photo "" "realistic"
           "medium" "high" "demo_user" w) in
  ∃ j,
    job_storage w' !! uuid4 env = Some j
    ∧ status j = completed ∧ progress j = 100
    ∧ quality_score j = Some (PFloat 75 1)
    ∧ stl_file_path j =
      Some ("temp_outputs/" +:+ uuid4 env +:+ "_planter.stl")
    ∧ error j = None
    ∧ "temp_outputs/" +:+ uuid4 env +:+ "_planter.stl" ∈ files w'
    ∧ tmp_name env ∉ files w'.
Proof.
  cbv zeta.
  apply (neural_failure_completes_with_placeholder neural_env broken_planter
           (uuid4 neural_env) photo "" "realistic" "medium" "high" "demo_user"
           _ (new_job (uuid4 neural_env) (created_stamp neural_env)) "JFIF"
           (Exception "CUDA out of memory")
           ({[tmp_name neural_env]} ∪ ∅)).
  - reflexivity.
  - discriminate.
  - reflexivity.
  - reflexivity.
  - vm_compute. reflexivity.
  - reflexivity.
  - apply elem_of_union_l. by apply elem_of_singleton.
  - vm_compute. discriminate.
Defined.

(** ** Listing the jobs of a user *)

Lemma ltb_asym (a b : string) : String.ltb a b = true → String.ltb b a = false.
Proof.
  unfold String.ltb. rewrite (String.compare_antisym b a).
  by destruct (String.compare a b).
Qed.

Lemma ltb_irrefl (a : string) : String.ltb a a = false.
Proof.
  destruct (String.ltb a a) eqn:H; [|done].
  by rewrite (ltb_asym a a H) in H.
Qed.

Lemma insert_by_created_at_perm (x : JobSummary) (l : list JobSummary) :
  insert_by_created_at x l ≡ₚ x :: l.
Proof.
  induction l as [|y l IH]; [done|]. cbn [insert_by_created_at].
  destruct (String.ltb _ _); [|done].
  rewrite IH. apply Permutation_swap.
Qed.

Lemma sorted_by_created_at_reverse_perm (l : list JobSummary) :
  sorted_by_created_at_reverse l ≡ₚ l.
Proof.
  induction l as [|x l IH]; [done|]. cbn [sorted_by_created_at_reverse].
  by rewrite insert_by_created_at_perm, IH.
Qed.

Lemma insert_by_created_at_sorted (x : JobSummary) (l : list JobSummary) :
  Sorted not_before l → Sorted not_before (insert_by_created_at x l).
Proof.
  induction 1 as [|y l Hl IH Hhd]; cbn [insert_by_created_at].
  - by repeat constructor.
  - destruct (String.ltb (js_created_at x) (js_created_at y)) eqn:Hxy.
    + constructor; [done|].
      destruct Hhd as [|z l Hyz]; cbn [insert_by_created_at].
      * constructor. by apply ltb_asym.
      * destruct (String.ltb (js_created_at x) (js_created_at z));
          constructor; [done | by apply ltb_asym].
    + constructor; [by constructor | by constructor].
Qed.

Lemma sorted_by_created_at_reverse_sorted (l : list JobSummary) :
  Sorted not_before (sorted_by_created_at_reverse l).
Proof.
  induction l as [|x l IH]; [constructor|].
  by apply insert_by_created_at_sorted.
Qed.

(** Entries with the same creation stamp keep their order. *)
Lemma insert_by_created_at_stable (stamp : string) (x : JobSummary)
    (l : list JobSummary) :
  filter (λ s, js_created_at s = stamp) (insert_by_created_at x l) =
  filter (λ s, js_created_at s = stamp) (x :: l).
Proof.
  induction l as [|y l IH]; [done|]. cbn [insert_by_created_at].
  destruct (String.ltb (js_created_at x) (js_created_at y)) eqn:Hxy; [|done].
  assert (js_created_at x ≠ js_created_at y) as Hne.
  { intros Heq. rewrite Heq, ltb_irrefl in Hxy. done. }
  destruct (decide (js_created_at y = stamp)) as [Hy|Hy].
  - rewrite (filter_cons_True _ y) by done. rewrite IH.
    rewrite (filter_cons_False _ x) by congruence.
    rewrite (filter_cons_False _ x) by congruence.
    by rewrite (filter_cons_True _ y) by done.
  - rewrite (filter_cons_False _ y) by done. rewrite IH.
    destruct (decide (js_created_at x = stamp)) as [Hx|Hx].
    + rewrite !(filter_cons_True _ x) by done.
      by rewrite (filter_cons_False _ y) by done.
    + rewrite !(filter_cons_False _ x) by done.
      by rewrite (filter_cons_False _ y) by done.
Qed.

Lemma sorted_by_created_at_reverse_stable (stamp : string)
    (l : list JobSummary) :
  filter (λ s, js_created_at s = stamp) (sorted_by_created_at_reverse l) =
  filter (λ s, js_created_at s = stamp) l.
Proof.
  induction l as [|x l IH]; [done|]. cbn [sorted_by_created_at_reverse].
  rewrite insert_by_created_at_stable.
  destruct (decide (js_created_at x = stamp)).
  - rewrite !(filter_cons_True _ x) by done. by rewrite IH.
  - rewrite !(filter_cons_False _ x) by done. by rewrite IH.
Qed.

(** X9: the listing of a user's jobs is sorted by creation stamp, latest
    first, entries with equal stamps in the order of the registry; it holds
    exactly the summaries of the records whose metadata names the user as
    owner, so a job without metadata (one that has not completed) is never
    listed. *)
Theorem list_user_jobs_sorted_owned (user : User)
    (items : list (string * Job)) :
  let jobs := list_user_jobs user items in
  Sorted not_before jobs
  ∧ jobs ≡ₚ job_summary <$> filter (λ item, owned_by user item = true) items
  ∧ (∀ stamp,
       filter (λ s, js_created_at s = stamp) jobs =
       filter (λ s, js_created_at s = stamp)
         (job_summary <$> filter (λ item, owned_by user item = true) items))
  ∧ (∀ s, s ∈ jobs →
       ∃ jid j md,
         (jid, j) ∈ items ∧ metadata j = Some md
         ∧ md_user_id md = user_id user ∧ status j = js_status s
         ∧ js_job_id s = jid).
Proof.
  intros jobs. subst jobs. unfold list_user_jobs.
  split; [apply sorted_by_created_at_reverse_sorted|].
  split; [apply sorted_by_created_at_reverse_perm|].
  split; [intros stamp; apply sorted_by_created_at_reverse_stable|].
  intros s Hs. rewrite sorted_by_created_at_reverse_perm in Hs.
  apply list_elem_of_fmap in Hs as ([jid j] & -> & Hin).
  apply list_elem_of_filter in Hin as [Hown Hin].
  unfold owned_by in Hown. apply bool_decide_eq_true_1 in Hown.
  cbn [snd] in Hown. destruct (metadata j) as [md|] eqn:Hmd; [|done].
  injection Hown as Hown. by exists jid, j, md.
Qed.

(** ** Invariants of the limiters *)

Section LimiterInvariants.

Context (ticks : positive).

Lemma check_rate_limit_enhanced_count (request : Request) (now : Z)
    (log : gmap string RateRecord) :
  map_Forall (λ _ r, 1 ≤ count r ≤ MAX_REQUESTS_PER_HOUR) log →
  map_Forall (λ _ r, 1 ≤ count r ≤ MAX_REQUESTS_PER_HOUR)
    (snd (check_rate_limit_enhanced ticks request now log)).
Proof.
  intros Hinv. unfold check_rate_limit_enhanced.
  destruct (log !! client_id request) as [r|] eqn:Hr; cbn [snd].
  - pose proof (Hinv _ _ Hr) as Hc. cbn beta in Hc.
    repeat case_bool_decide; cbn [snd]; [| done |];
      apply map_Forall_insert_2; try done; cbn [count];
      unfold MAX_REQUESTS_PER_HOUR in *; lia.
  - apply map_Forall_insert_2; [|done]. cbn [count].
    unfold MAX_REQUESTS_PER_HOUR. lia.
Qed.

(** X10: whatever requests arrive, from whatever clients and at whatever
    times, every record of the address-keyed limiter keeps its count between
    1 and 50. *)
Theorem request_log_counts_stay_in_range (arrivals : list (Request * Z)) :
  map_Forall (λ _ r, 1 ≤ count r ≤ MAX_REQUESTS_PER_HOUR)
    (snd (serve_requests ticks arrivals ∅)).
Proof.
  assert (∀ log,
    map_Forall (λ _ r, 1 ≤ count r ≤ MAX_REQUESTS_PER_HOUR) log →
    map_Forall (λ _ r, 1 ≤ count r ≤ MAX_REQUESTS_PER_HOUR)
      (snd (serve_requests ticks arrivals log))) as H.
  { induction arrivals as [|[request now] rest IH]; intros log Hinv; [done|].
    cbn [serve_requests].
    pose proof (check_rate_limit_enhanced_count request now log Hinv) as H1.
    destruct (check_rate_limit_enhanced ticks request now log) as [o log1].
    specialize (IH log1 H1).
    by destruct (serve_requests ticks rest log1). }
  apply H. apply map_Forall_empty.
Qed.

(** Pruning at a later time what was pruned at an earlier one is pruning
    once. *)
Lemma prune_twice (now last : Z) (adm : list Z) :
  last ≤ now →
  filter (λ x, now - x < seconds ticks 3600)
    (filter (λ x, last - x < seconds ticks 3600) adm) =
  filter (λ x, now - x < seconds ticks 3600) adm.
Proof.
  intros Hle. induction adm as [|x adm IH]; [done|].
  destruct (decide (last - x < seconds ticks 3600)) as [Hl|Hl].
  - rewrite (filter_cons_True (λ x, last - x < _) x) by done.
    destruct (decide (now - x < seconds ticks 3600)) as [Hx|Hx].
    + rewrite !(filter_cons_True (λ x, now - x < _) x) by done.
      by rewrite IH.
    + rewrite !(filter_cons_False (λ x, now - x < _) x) by done.
      by rewrite IH.
  - rewrite (filter_cons_False (λ x, last - x < _) x) by done.
    rewrite (filter_cons_False (λ x, now - x < _) x) by lia.
    by rewrite IH.
Qed.

Lemma admitted_times_cons {A} (t : Z) (o : outcome A)
    (served : list (Z * outcome A)) :
  admitted_times ((t, o) :: served) =
  (if is_Return o then [t] else []) ++ admitted_times served.
Proof.
  unfold admitted_times. destruct o; cbn [is_Return].
  - by rewrite filter_cons_True by done.
  - by rewrite filter_cons_False by done.
Qed.

(** A run of the user-keyed limiter whose log holds what is left of the
    admitted arrivals [adm] after a check at time [last]. *)
Lemma check_rate_limit_run (user : User) (times : list Z) (last : Z)
    (adm : list Z) (log : gmap string (list Z)) :
  default [] (log !! user_id user) =
    filter (λ x, last - x < seconds ticks 3600) adm →
  (length (default [] (log !! user_id user)) ≤ 100)%nat →
  StronglySorted Z.le (last :: times) →
  let run := serve (check_rate_limit ticks user) times log in
  (∀ i (t : Z) o, times !! i = Some t → fst run !! i = Some o →
     (o = Return user
      ∨ o = Raise (HTTPException 429
                     "Rate limit exceeded. Maximum 100 requests per hour."))
     ∧ (is_Return o = true ↔
        (length (filter (λ x : Z, (t - x < seconds ticks 3600)%Z)
                   (adm ++ admitted_times (take i (zip times (fst run)))))
         < 100)%nat))
  ∧ (length (default [] (snd run !! user_id user)) ≤ 100)%nat.
Proof.
  revert last adm log.
  induction times as [|t0 times IH]; intros last adm log Hlog Hlen Hsorted run.
  - subst run. cbn [serve fst snd]. split; [|done]. intros i t o Hi. done.
  - subst run. cbn [serve].
    apply StronglySorted_inv in Hsorted as [Hsorted Hlast].
    apply Forall_cons in Hlast as [Hle Hlast].
    rewrite check_rate_limit_sliding. cbv zeta. rewrite Hlog.
    rewrite (prune_twice t0 last adm Hle).
    set (recent := filter (λ x, t0 - x < seconds ticks 3600) adm).
    assert (length recent ≤ 100)%nat as Hrecent.
    { subst recent. rewrite <- (prune_twice t0 last adm Hle), <- Hlog.
      etrans; [apply length_filter | exact Hlen]. }
    assert (StronglySorted Z.le (t0 :: times)) as Hsorted'.
    { done. }
    destruct (decide (length recent < 100)%nat) as [Hlt|Hge].
    + rewrite bool_decide_eq_true_2 by done.
      specialize (IH t0 (adm ++ [t0]) (<[user_id user := recent ++ [t0]]> log)).
      destruct IH as [IH1 IH2].
      { rewrite lookup_insert_eq. cbn [default from_option id]. rewrite filter_app.
        rewrite (filter_cons_True _ t0) by (unfold seconds; lia).
        by rewrite filter_nil. }
      { rewrite lookup_insert_eq. cbn [default from_option id]. rewrite length_app.
        cbn [length]. lia. }
      { done. }
      destruct (serve (check_rate_limit ticks user) times
                  (<[user_id user := recent ++ [t0]]> log)) as [os s2].
      cbn [fst snd] in *. split; [|done].
      intros [|i] t o Ht Ho.
      * injection Ht as <-. injection Ho as <-. split; [by left|].
        cbn [take zip zip_with]. unfold admitted_times.
        rewrite filter_nil. cbn [fmap list_fmap]. rewrite app_nil_r.
        cbn [is_Return]. fold recent. done.
      * cbn [lookup list_lookup] in Ht, Ho.
        destruct (IH1 i t o Ht Ho) as [Hcase Hiff]. split; [done|].
        cbn [take zip zip_with]. fold (zip times os).
        rewrite admitted_times_cons. cbn [is_Return].
        rewrite app_assoc. done.
    + rewrite bool_decide_eq_false_2 by done.
      specialize (IH t0 adm (<[user_id user := recent]> log)).
      destruct IH as [IH1 IH2].
      { rewrite lookup_insert_eq. done. }
      { rewrite lookup_insert_eq. done. }
      { done. }
      destruct (serve (check_rate_limit ticks user) times
                  (<[user_id user := recent]> log)) as [os s2].
      cbn [fst snd] in *. split; [|done].
      intros [|i] t o Ht Ho.
      * injection Ht as <-. injection Ho as <-. split; [by right|].
        cbn [take zip zip_with]. unfold admitted_times.
        rewrite filter_nil. cbn [fmap list_fmap]. rewrite app_nil_r.
        cbn [is_Return]. fold recent. split; [done | lia].
      * cbn [lookup list_lookup] in Ht, Ho.
        destruct (IH1 i t o Ht Ho) as [Hcase Hiff]. split; [done|].
        cbn [take zip zip_with]. fold (zip times os).
        rewrite admitted_times_cons. cbn [is_Return app]. done.
Qed.

(** X11: the user-keyed limiter is a sliding window.  As long as the clock
    does not go back, a request of a user with no earlier record is let
    through exactly when fewer than 100 of the user's requests that were let
    through before it arrived less than 3600 s before it; it is otherwise
    answered with 429.  The log of the user never holds more than 100
    arrival times. *)
Theorem check_rate_limit_sliding_window (user : User) (times : list Z)
    (log : gmap string (list Z)) :
  log !! user_id user = None →
  Sorted Z.le times →
  let run := serve (check_rate_limit ticks user) times log in
  (∀ i (t : Z) o, times !! i = Some t → fst run !! i = Some o →
     (o = Return user
      ∨ o = Raise (HTTPException 429
                     "Rate limit exceeded. Maximum 100 requests per hour."))
     ∧ (is_Return o = true ↔
        (length (filter (λ x : Z, (t - x < seconds ticks 3600)%Z)
                   (admitted_times (take i (zip times (fst run)))))
         < 100)%nat))
  ∧ (length (default [] (snd run !! user_id user)) ≤ 100)%nat.
Proof.
  intros Hlog Hsorted.
  apply (Sorted_StronglySorted _) in Hsorted.
  destruct times as [|t0 times].
  - cbn [serve fst snd]. rewrite Hlog. split; [done | cbn; lia].
  - apply (check_rate_limit_run user (t0 :: times) t0 [] log).
    + by rewrite Hlog.
    + rewrite Hlog. cbn. lia.
    + constructor; [done|]. constructor; [lia|].
      by apply StronglySorted_inv in Hsorted as [_ ?].
Qed.

End LimiterInvariants.

Lemma check_rate_limit_sliding_window_witness :
  let times := [0; 1800; 3599; 3600; 7200] in
  let run := serve (check_rate_limit 1 demo_user) times ∅ in
  (∀ i (t : Z) o, times !! i = Some t → fst run !! i = Some o →
     (o = Return demo_user
      ∨ o = Raise (HTTPException 429
                     "Rate limit exceeded. Maximum 100 requests per hour."))
     ∧ (is_Return o = true ↔
        (length (filter (λ x : Z, (t - x < seconds 1 3600)%Z)
                   (admitted_times (take i (zip times (fst run)))))
         < 100)%nat))
  ∧ (length (default [] (snd run !! user_id demo_user)) ≤ 100)%nat.
Proof.
  cbv zeta.
  apply (check_rate_limit_sliding_window 1 demo_user [0; 1800; 3599; 3600; 7200] ∅).
  - reflexivity.
  - repeat constructor; lia.
Defined.

(** ** Stages of a production run *)

(** Every model the 3D stage returns has the same five entries. *)
Lemma model_result_entries (env : PipelineEnv) (image_url : string)
    (analysis : EnhancedBreedAnalysis) (quality_level : QualityLevel)
    (options : EnhancedGenerationOptions) (w w' : World)
    (model : list (string * pyval)) :
  generate_with_3d_service_enhanced env image_url analysis quality_level
    options w = (Return model, w') →
  ∃ model_url stl_url preview_url id message,
    model = [("model_url", model_url); ("stl_url", stl_url);
             ("preview_url", preview_url); ("job_id", id);
             ("message", message)].
Proof.
  assert (∀ w0 w1 m,
    generate_procedural_model_enhanced env analysis quality_level options w0
    = (Return m, w1) →
    ∃ model_url stl_url preview_url id message,
      m = [("model_url", model_url); ("stl_url", stl_url);
           ("preview_url", preview_url); ("job_id", id);
           ("message", message)]) as Hproc.
  { intros w0 w1 m H. unfold generate_procedural_model_enhanced in H.
    unfold mbind, M_bind, guard_io, create_file, mret, M_ret in H.
    split_run H. injection H as <- _. eauto 10. }
  intros H. unfold generate_with_3d_service_enhanced in H.
  destruct (has_token env); cbn [negb] in H; [|by eapply Hproc].
  unfold try_except, lift in H.
  destruct (generate_custom_3d_model_enhanced env _ analysis quality_level
              options) as [m|e] eqn:Hcustom; [|by eapply Hproc].
  injection H as <- _. clear Hproc.
  unfold generate_custom_3d_model_enhanced in Hcustom.
  unfold mbind, outcome_bind, mret, outcome_ret in Hcustom.
  split_run Hcustom. injection Hcustom as <-. eauto 10.
Qed.

(** X12: the optimisation stage accepts every model the 3D stage returns:
    it raises no [KeyError], hands on the three URLs as they are, and leaves
    out the [job_id] of the model, so the [job_id] of a production answer is
    always [None]. *)
Theorem optimized_model_keeps_urls_drops_job_id (env : PipelineEnv)
    (image_url : string) (analysis : EnhancedBreedAnalysis)
    (quality_level : QualityLevel) (options : EnhancedGenerationOptions)
    (w w' : World) (model : list (string * pyval)) :
  generate_with_3d_service_enhanced env image_url analysis quality_level
    options w = (Return model, w') →
  ∃ optimized,
    optimize_model_enhanced (PDict model) options = Return optimized
    ∧ is_Some (assoc_get "job_id" model)
    ∧ production_job_id optimized = PNone
    ∧ ∀ key, key ∈ ["model_url"; "stl_url"; "preview_url"] →
        is_Some (assoc_get key model)
        ∧ assoc_get key optimized = assoc_get key model.
Proof.
  intros H. apply model_result_entries in H as (a & b & c & d & e & ->).
  eexists. split; [reflexivity|]. split; [by eexists|]. split; [reflexivity|].
  intros key Hkey. repeat (apply elem_of_cons in Hkey as [->|Hkey]).
  - split; [by eexists | reflexivity].
  - split; [by eexists | reflexivity].
  - split; [by eexists | reflexivity].
  - by apply elem_of_nil in Hkey.
Qed.

Lemma optimized_model_keeps_urls_drops_job_id_witness :
  ∃ model optimized,
    fst (generate_with_3d_service_enhanced first_try "https://img.example/dog.jpg"
           labrador ultra_high default_options empty_world) = Return model
    ∧ optimize_model_enhanced (PDict model) default_options = Return optimized
    ∧ is_Some (assoc_get "job_id" model)
    ∧ production_job_id optimized = PNone
    ∧ ∀ key, key ∈ ["model_url"; "stl_url"; "preview_url"] →
        is_Some (assoc_get key model)
        ∧ assoc_get key optimized = assoc_get key model.
Proof.
  destruct (generate_with_3d_service_enhanced first_try
              "https://img.example/dog.jpg" labrador ultra_high
              default_options empty_world) as [[model|e] w'] eqn:Hrun;
    [|vm_compute in Hrun; discriminate].
  destruct (optimized_model_keeps_urls_drops_job_id first_try
              "https://img.example/dog.jpg" labrador ultra_high
              default_options empty_world w' model Hrun)
    as (optimized & Hopt).
  exists model, optimized. split; [reflexivity | exact Hopt].
Defined.

(** X13: the image stage never fails the run.  Any result other than the
    original image URL is the output of a prediction that the provider
    accepted and reported as succeeded with a non-empty output (its first
    element when the output is a non-empty list). *)
Theorem enhanced_image_or_original (env : PipelineEnv) (image_url : string)
    (analysis : EnhancedBreedAnalysis) (options : EnhancedGenerationOptions) :
  let image := generate_enhanced_pet_image env image_url analysis options in
  image = PStr image_url
  ∨ ∃ response prediction pid result st out,
      post (flux env) = Return response
      ∧ resp_status response = 200
      ∧ resp_json response = Return prediction
      ∧ py_getitem prediction "id" = Return pid
      ∧ fst (poll_replicate_job (flux env) pid DEFAULT_MAX_ATTEMPTS)
        = Return result
      ∧ py_getitem result "status" = Return st
      ∧ is_str st "succeeded" = true
      ∧ py_getitem result "output" = Return out
      ∧ py_truthy out = true
      ∧ image = match out with PList (first :: _) => first | _ => out end.
Proof.
  intros image. subst image. unfold generate_enhanced_pet_image.
  unfold succeeded_output, mbind, outcome_bind, mret, outcome_ret.
  destruct (post (flux env)) as [response|] eqn:Hpost; [|by left].
  destruct (Z.eqb_spec (resp_status response) 200) as [H200|]; [|by left].
  cbn [negb].
  destruct (resp_json response) as [prediction|] eqn:Hjson; [|by left].
  destruct (py_getitem prediction "id") as [pid|] eqn:Hid; [|by left].
  destruct (fst (poll_replicate_job (flux env) pid DEFAULT_MAX_ATTEMPTS))
    as [result|] eqn:Hpoll; [|by left].
  destruct (py_getitem result "status") as [st|] eqn:Hst; [|by left].
  destruct (is_str st "succeeded") eqn:Hsucc; [|by left].
  destruct (py_getitem result "output") as [out|] eqn:Hout; [|by left].
  destruct (py_truthy out) eqn:Htruthy; [|by left].
  right. exists response, prediction, pid, result, st, out.
  do 9 (split; [done|]).
  destruct out as [| | | | |[|first rest]|]; reflexivity.
Qed.

(** X14: the analysis stage never fails the run.  Unless the remote
    endpoint answers 200 with a JSON object that the model accepts, the
    analysis is the built-in one: the breed is the caller's hint, or
    Mixed Breed without one, with confidence 0.9 with a hint and 0.7
    without. *)
Theorem analysis_or_fallback (analyze_pet : outcome Response)
    (construct : list (string * pyval) → option EnhancedBreedAnalysis)
    (image_url : string) (user_breed : option string)
    (options : option EnhancedGenerationOptions) :
  let analysis :=
    analyze_pet_image_enhanced analyze_pet construct image_url user_breed
      options in
  (analysis = fallback_analysis user_breed
   ∧ breed analysis = py_or user_breed "Mixed Breed"
   ∧ confidence analysis =
     match truthy_opt user_breed with
     | Some _ => PFloat 9 10
     | None => PFloat 7 10
     end)
  ∨ ∃ response data items,
      analyze_pet = Return response
      ∧ resp_status response = 200
      ∧ resp_json response = Return data
      ∧ py_get data "analysis" data = Return (PDict items)
      ∧ construct (analysis_kwargs user_breed items) = Some analysis.
Proof.
  intros analysis. subst analysis.
  assert (breed (fallback_analysis user_breed) = py_or user_breed "Mixed Breed"
          ∧ confidence (fallback_analysis user_breed) =
            match truthy_opt user_breed with
            | Some _ => PFloat 9 10
            | None => PFloat 7 10
            end) as Hfb.
  { split; reflexivity. }
  unfold analyze_pet_image_enhanced, mbind, outcome_bind.
  destruct analyze_pet as [response|] eqn:Hpost; [|by left].
  destruct (Z.eqb_spec (resp_status response) 200) as [H200|]; [|by left].
  destruct (resp_json response) as [data|] eqn:Hjson; [|by left].
  destruct (py_get data "analysis" data) as [analysis_data|] eqn:Hget;
    [|by left].
  destruct analysis_data as [| | | | | |items]; try (by left).
  destruct (construct (analysis_kwargs user_breed items)) as [analysis|]
    eqn:Hc; [|by left].
  right. by exists response, data, items.
Qed.

Lemma py_or_val_same (v : pyval) : py_or_val v v = v.
Proof. unfold py_or_val. by destruct (py_truthy v). Qed.

(** X19: the three URLs of every model the 3D stage returns are one and the
    same value: the STL URL and the preview URL of a production model are
    its GLB URL, for a model of the provider as for the procedural one. *)
Theorem model_urls_coincide (env : PipelineEnv) (image_url : string)
    (analysis : EnhancedBreedAnalysis) (quality_level : QualityLevel)
    (options : EnhancedGenerationOptions) (w w' : World)
    (model : list (string * pyval)) :
  generate_with_3d_service_enhanced env image_url analysis quality_level
    options w = (Return model, w') →
  ∃ url,
    assoc_get "model_url" model = Some url
    ∧ assoc_get "stl_url" model = Some url
    ∧ assoc_get "preview_url" model = Some url.
Proof.
  assert (∀ w0 w1 m,
    generate_procedural_model_enhanced env analysis quality_level options w0
    = (Return m, w1) →
    ∃ url,
      assoc_get "model_url" m = Some url ∧ assoc_get "stl_url" m = Some url
      ∧ assoc_get "preview_url" m = Some url) as Hproc.
  { intros w0 w1 m H. unfold generate_procedural_model_enhanced in H.
    unfold mbind, M_bind, guard_io, create_file, mret, M_ret in H.
    split_run H. injection H as <- _. by eexists. }
  intros H. unfold generate_with_3d_service_enhanced in H.
  destruct (has_token env); cbn [negb] in H; [|by eapply Hproc].
  unfold try_except, lift in H.
  destruct (generate_custom_3d_model_enhanced env _ analysis quality_level
              options) as [m|e] eqn:Hcustom; [|by eapply Hproc].
  injection H as <- _. clear Hproc.
  unfold generate_custom_3d_model_enhanced in Hcustom.
  unfold mbind, outcome_bind, mret, outcome_ret in Hcustom.
  destruct (post (trellis env)) as [response|]; [|discriminate].
  destruct (negb (resp_status response =? 200)); [discriminate|].
  destruct (resp_json response) as [prediction|]; [|discriminate].
  destruct (py_getitem prediction "id") as [pid|]; [|discriminate].
  destruct (fst (poll_replicate_job (trellis env) pid DEFAULT_MAX_ATTEMPTS))
    as [result|]; [|discriminate].
  destruct (succeeded_output result) as [[output|]|]; try discriminate.
  destruct (py_get output "model_file" output) as [model_url|];
    [|discriminate].
  cbn in Hcustom. injection Hcustom as <-.
  exists model_url. rewrite py_or_val_same. by cbn.
Qed.

Lemma model_urls_coincide_witness :
  ∃ model url,
    fst (generate_with_3d_service_enhanced first_try
           "https://img.example/dog.jpg" labrador ultra_high default_options
           empty_world) = Return model
    ∧ assoc_get "model_url" model = Some url
    ∧ assoc_get "stl_url" model = Some url
    ∧ assoc_get "preview_url" model = Some url.
Proof.
  destruct (generate_with_3d_service_enhanced first_try
              "https://img.example/dog.jpg" labrador ultra_high
              default_options empty_world) as [[model|e] w'] eqn:Hrun;
    [|vm_compute in Hrun; discriminate].
  destruct (model_urls_coincide first_try "https://img.example/dog.jpg"
              labrador ultra_high default_options empty_world w' model Hrun)
    as (url & Hurl).
  exists model, url. split; [reflexivity | exact Hurl].
Defined.

(** ** Loading an image *)

(** X15: what [_load_image] lets through and how it refuses.  An image it
    returns has at most 5000 x 5000 pixels.  A non-empty base64 text takes
    precedence: the URL is then not looked at.  When it raises, the
    exception is a 400 whose detail is one of its two fixed messages, or one
    of its two messages that end in the text of the error met while the
    image was decoded, fetched or opened, unless it is the exception that
    the conversion to RGB raised. *)
Theorem _load_image_contract (io : ImageIO) (url b64 : option string) :
  (∀ image, _load_image io url b64 = Return image →
     width image * height image ≤ 5000 * 5000)
  ∧ (∀ text other, b64 = Some text → text ≠ "" →
       _load_image io other b64 = _load_image io url b64)
  ∧ (∀ e, _load_image io url b64 = Raise e →
       (∃ data cause,
          truthy_opt b64 = Some data ∧ open_base64 io data = Raise cause
          ∧ e = HTTPException 400
                  ("Invalid base64 image: " +:+ str_exn cause))
       ∨ (∃ address cause,
            truthy_opt b64 = None ∧ truthy_opt url = Some address
            ∧ open_url io address = Raise cause
            ∧ e = HTTPException 400
                    ("Failed to load image from URL: " +:+ str_exn cause))
       ∨ (truthy_opt b64 = None ∧ truthy_opt url = None
          ∧ e = HTTPException 400
                  "Either image_url or image_base64 must be provided")
       ∨ e = HTTPException 400 "Image too large (max 5000x5000)"
       ∨ ∃ image, mode image ≠ "RGB" ∧ convert_rgb io image = Raise e).
Proof.
  split; [|split].
  - intros image H. unfold _load_image, mbind, outcome_bind in H.
    repeat (match type of H with
            | context [match ?x with _ => _ end] =>
                lazymatch x with
                | context [match _ with _ => _ end] => fail
                | _ => destruct x eqn:?
                end
            end; try discriminate H).
    all: injection H as <-.
    all: match goal with
         | Hgt : (_ >? _) = false |- _ =>
             rewrite Z.gtb_ltb in Hgt; apply Z.ltb_ge in Hgt; lia
         end.
  - intros text other -> Hne. unfold _load_image, truthy_opt.
    by destruct (String.eqb_spec text "").
  - intros e H. unfold _load_image, mbind, outcome_bind in H.
    assert (∀ image : Image,
      (if String.eqb (mode image) "RGB" then Return image
       else convert_rgb io image) = Raise e →
      ∃ image, mode image ≠ "RGB" ∧ convert_rgb io image = Raise e)
      as Hconv.
    { intros image Hc. destruct (String.eqb_spec (mode image) "RGB");
        [discriminate|]. by exists image. }
    assert (∀ image : Image,
      match (if String.eqb (mode image) "RGB" then Return image
             else convert_rgb io image) with
      | Return image =>
          if width image * height image >? 5000 * 5000
          then Raise (HTTPException 400 "Image too large (max 5000x5000)")
          else Return image
      | Raise e => Raise e
      end = Raise e →
      e = HTTPException 400 "Image too large (max 5000x5000)"
      ∨ ∃ image, mode image ≠ "RGB" ∧ convert_rgb io image = Raise e)
      as Hrest.
    { intros image Hr.
      destruct (if String.eqb (mode image) "RGB" then Return image
                else convert_rgb io image) as [image'|e'] eqn:Hc.
      - destruct (_ >? _); [|discriminate]. injection Hr as <-. by left.
      - injection Hr as ->. right. by apply (Hconv image). }
    destruct (truthy_opt b64) as [data|] eqn:Hb.
    + destruct (open_base64 io data) as [image|cause] eqn:Ho.
      * apply Hrest in H as [->|Hc];
          [right; right; right; by left | do 4 right; exact Hc].
      * injection H as <-. left. by exists data, cause.
    + destruct (truthy_opt url) as [address|] eqn:Hu.
      * destruct (open_url io address) as [image|cause] eqn:Ho.
        -- apply Hrest in H as [->|Hc];
             [right; right; right; by left | do 4 right; exact Hc].
        -- injection H as <-. right. left.
           by exists address, cause.
      * injection H as <-. right. right. by left.
Qed.

(** ** The single-image routes *)

(** X16: with the engine loaded, [detect_breed] has no 4xx answer: every
    failure, a bad request included, is answered with 500.  In particular a
    400 of [_load_image] (undecodable data, an unreachable URL, an image
    that is too large) reaches the client as
    500 [Detection failed: 400: ...].  Without the engine the answer is
    503, whatever the request. *)
Theorem detect_breed_answers_500_for_bad_input {R : Type}
    (build_response : BreedDetectionRequest → Image → pyval → outcome R)
    (io : ImageIO) (engine : Engine) (request : BreedDetectionRequest) :
  (∀ e, detect_breed build_response io (Some engine) request = Raise e →
     ∃ detail, e = HTTPException 500 ("Detection failed: " +:+ detail))
  ∧ (∀ detail,
       _load_image io (image_url request) (image_base64 request) =
       Raise (HTTPException 400 detail) →
       detect_breed build_response io (Some engine) request =
       Raise (HTTPException 500 ("Detection failed: 400: " +:+ detail)))
  ∧ detect_breed build_response io None request =
    Raise (HTTPException 503 "Model not loaded").
Proof.
  split; [|split; [|reflexivity]].
  - intros e H. unfold detect_breed in H.
    destruct (_ ← _load_image io _ _ ; _) as [response|cause];
      [discriminate|].
    injection H as <-. by eexists.
  - intros detail H. unfold detect_breed. rewrite H. reflexivity.
Qed.

(** X17: with the engine loaded, [detect_breed_from_file] answers 400
    exactly for an upload whose content type is missing or not an image
    type, whatever the file holds; every other failure (the file cannot be
    read or decoded, inference fails, the result cannot be rendered) is a
    500. *)
Theorem detect_breed_from_file_answers {R : Type}
    (open_image : string → outcome Image) (elapsed_ms : pyval)
    (json_response : pyval → outcome R) (io : ImageIO) (engine : Engine)
    (file : UploadFile) (use_tta : bool) (confidence_threshold : pyval)
    (top_k : Z) :
  let answer :=
    detect_breed_from_file open_image elapsed_ms json_response io
      (Some engine) file use_tta confidence_threshold top_k in
  (is_image file = false →
   answer = Raise (HTTPException 400 "File must be an image"))
  ∧ (is_image file = true →
     ∀ e, answer = Raise e →
       ∃ detail, e = HTTPException 500 ("Detection failed: " +:+ detail))
  ∧ (is_image file = true →
     ∀ image_data cause,
       read file = Return image_data →
       open_image image_data = Raise cause →
       answer =
       Raise (HTTPException 500 ("Detection failed: " +:+ str_exn cause))).
Proof.
  intros answer. subst answer. unfold detect_breed_from_file.
  split; [|split].
  - intros ->. reflexivity.
  - intros -> e H. cbn [negb] in H.
    destruct (_ ← read file ; _) as [response|cause]; [discriminate|].
    injection H as <-. by eexists.
  - intros -> image_data cause Hread Hopen. cbn [negb].
    rewrite Hread. cbn [mbind outcome_bind]. by rewrite Hopen.
Qed.

Lemma detect_breed_from_file_answers_witness :
  let answer :=
    detect_breed_from_file strict_decoder (PFloat 12 1)
      (λ v, Return v) web_images (Some labrador_engine) garbled_photo true
      (PFloat 8 10) 5 in
  answer =
  Raise (HTTPException 500 "Detection failed: cannot identify image file").
Proof.
  cbv zeta.
  destruct (detect_breed_from_file_answers strict_decoder (PFloat 12 1)
              (λ v, Return v) web_images labrador_engine garbled_photo true
              (PFloat 8 10) 5) as (_ & _ & H).
  apply (H eq_refl "not an image" (Exception "cannot identify image file")).
  - reflexivity.
  - reflexivity.
Defined.

Lemma detect_breed_answers_500_for_bad_input_witness :
  detect_breed (λ _ _ results, Return results) web_images
    (Some labrador_engine) (by_url "https://img.example/missing.jpg") =
  Raise (HTTPException 500
           "Detection failed: 400: Failed to load image from URL: 404 Not Found").
Proof.
  destruct (detect_breed_answers_500_for_bad_input
              (λ _ _ results, Return results) web_images labrador_engine
              (by_url "https://img.example/missing.jpg")) as (_ & H & _).
  apply (H "Failed to load image from URL: 404 Not Found").
  reflexivity.
Defined.

(** ** Inference calls of a batch *)

Lemma detect_from_calls_loaded (io : ImageIO) (engine : ObjectEngine)
    (i : nat) (requests : list BreedDetectionRequest)
    (store : gmap nat pyval) (k : nat) :
  k ∈ snd (detect_from io engine i requests store) ↔
  ∃ j r, k = (i + j)%nat ∧ requests !! j = Some r
         ∧ is_Return (_load_image io (image_url r) (image_base64 r)) = true.
Proof.
  revert i store. induction requests as [|r0 requests IH]; intros i store.
  - cbn [detect_from snd]. split; [by intros ?%elem_of_nil|].
    by intros (j & r & _ & Hr & _).
  - cbn [detect_from].
    assert (snd (detect_one io engine i r0 store) =
            is_Return (_load_image io (image_url r0) (image_base64 r0)))
      as Hran.
    { unfold detect_one.
      destruct (_load_image io (image_url r0) (image_base64 r0)); [|done].
      destruct (predict_object engine _ _ _ _ store) as [[ref|e] s1]; [|done].
      by destruct (py_setitem _ _ _). }
    destruct (detect_one io engine i r0 store) as [[entry s1] ran].
    cbn [snd] in Hran.
    specialize (IH (S i) s1).
    destruct (detect_from io engine (S i) requests s1) as [[entries s2] calls].
    cbn [snd] in *.
    assert (k ∈ calls ↔
            ∃ j r, k = (i + S j)%nat ∧ requests !! j = Some r
                   ∧ is_Return (_load_image io (image_url r) (image_base64 r))
                     = true) as IH'.
    { rewrite IH. split; intros (j & r & -> & Hr); exists j, r;
        (split; [lia | done]). }
    clear IH. split.
    + intros Hk.
      assert (k ∈ calls ∨ (ran = true ∧ k = i)) as [Hin|[-> ->]].
      { destruct ran; [|by left].
        apply elem_of_cons in Hk as [->|Hk]; [by right | by left]. }
      * apply IH' in Hin as (j & r & -> & Hr & Hl).
        by exists (S j), r.
      * exists 0%nat, r0. split; [lia|]. by split.
    + intros (j & r & -> & Hr & Hl). destruct j as [|j].
      * cbn in Hr. injection Hr as <-. rewrite Hl in Hran. subst ran.
        rewrite Nat.add_0_r. by left.
      * cbn in Hr.
        assert ((i + S j)%nat ∈ calls) by (apply IH'; by exists j, r).
        destruct ran; [by right | done].
Qed.

(** X18: in a batch of at most ten requests, with the engine loaded,
    inference runs for exactly the requests whose image could be loaded: a
    request that names no usable image costs no call of the engine and
    keeps no other request from being served. *)
Theorem batch_runs_inference_on_loaded_images (io : ImageIO)
    (engine : ObjectEngine) (requests : list BreedDetectionRequest)
    (store : gmap nat pyval) :
  (length requests ≤ 10)%nat →
  ∀ j, j ∈ snd (batch_detect_breeds io (Some engine) requests store) ↔
       ∃ r, requests !! j = Some r
            ∧ is_Return (_load_image io (image_url r) (image_base64 r)) = true.
Proof.
  intros Hlen j. unfold batch_detect_breeds.
  destruct (Z.gtb_spec (Z.of_nat (length requests)) 10); [lia|].
  pose proof (detect_from_calls_loaded io engine 0 requests store j) as Hcalls.
  destruct (detect_from io engine 0 requests store) as [[entries s'] calls].
  cbn [snd] in *. rewrite Hcalls. split.
  - intros (j' & r & -> & Hr & Hl). by exists r.
  - intros (r & Hr & Hl). by exists j, r.
Qed.

Lemma batch_runs_inference_on_loaded_images_witness :
  (1%nat ∈ snd (batch_detect_breeds web_images (Some labrador_objects)
                  [by_url "https://img.example/a.jpg";
                   by_url "https://img.example/missing.jpg";
                   by_url "https://img.example/c.jpg"] ∅) ↔
   ∃ r, [by_url "https://img.example/a.jpg";
         by_url "https://img.example/missing.jpg";
         by_url "https://img.example/c.jpg"] !! 1%nat = Some r
        ∧ is_Return (_load_image web_images (image_url r)
                       (image_base64 r)) = true).
Proof.
  apply (batch_runs_inference_on_loaded_images web_images labrador_objects
           [by_url "https://img.example/a.jpg";
            by_url "https://img.example/missing.jpg";
            by_url "https://img.example/c.jpg"] ∅).
  cbn [length]. lia.
Defined.

(** ** Validation of the image URL *)

Lemma py_split_no_sep (sep : ascii) (s : string) :
  py_in (String sep EmptyString) s = false → py_split sep s = [s].
Proof.
  induction s as [|c s IH]; [done|]. intros H. cbn [py_in] in H.
  apply orb_false_iff in H as [Hhere Hrest]. cbn [py_split].
  cbn [String.prefix] in Hhere.
  destruct (Ascii.eqb_spec c sep) as [->|Hne].
  - destruct (ascii_dec sep sep); [|done].
    by destruct s.
  - by rewrite (IH Hrest).
Qed.

Lemma py_in_app_sep (sep : ascii) (s1 s2 : string) :
  py_in (String sep EmptyString) (s1 +:+ String sep s2) = true.
Proof.
  induction s1 as [|c s1 IH].
  - change (py_in (String sep EmptyString) (String sep s2) = true).
    cbn [py_in String.prefix]. destruct (ascii_dec sep sep); [|done].
    by destruct s2.
  - change (py_in (String sep EmptyString) (String c (s1 +:+ String sep s2))
            = true).
    cbn [py_in]. rewrite IH. apply orb_true_r.
Qed.

Lemma py_split_app_sep (sep : ascii) (s1 s2 : string) :
  py_in (String sep EmptyString) s1 = false →
  py_split sep (s1 +:+ String sep s2) = s1 :: py_split sep s2.
Proof.
  induction s1 as [|c s1 IH]; intros H.
  - change (py_split sep (String sep s2) = "" :: py_split sep s2).
    cbn [py_split]. by rewrite Ascii.eqb_refl.
  - change (py_split sep (String c (s1 +:+ String sep s2)) =
            String c s1 :: py_split sep s2).
    cbn [py_in] in H. apply orb_false_iff in H as [Hhere Hrest].
    cbn [py_split]. rewrite (IH Hrest).
    destruct (Ascii.eqb_spec c sep) as [->|]; [|done].
    cbn [String.prefix] in Hhere. destruct (ascii_dec sep sep); [|done].
    by destruct s1.
Qed.

(** X20: a data URL of the usual form, [data:image/<format>;base64,<payload>]
    with one of the four supported formats and a payload without comma,
    passes the format check whatever the payload, and is refused as too
    large exactly when three times the length of the payload exceeds four
    times the bound of 10 MB. *)
Theorem data_url_is_checked_by_format_and_payload_length
    (lower : string → string) (head : string → outcome (option string))
    (int_of : string → outcome Z) (format payload : string) :
  format ∈ SUPPORTED_IMAGE_FORMATS →
  py_in "," payload = false →
  let image_url := "data:image/" +:+ format +:+ ";base64," +:+ payload in
  validate_image_url lower image_url = Return ()
  ∧ validate_image_size head int_of image_url =
    if 3 * Z.of_nat (String.length payload) >? 4 * MAX_IMAGE_SIZE
    then Raise (HTTPException 400 "Image too large. Maximum size: 10MB")
    else Return ().
Proof.
  intros Hfmt Hpayload image_url. subst image_url.
  pose proof (py_split_no_sep ","%char payload Hpayload) as Hsplit.
  assert (∀ s1,
    py_in "," s1 = false →
    String.prefix "data:image/" (s1 +:+ String ","%char payload) = true →
    validate_image_size head int_of (s1 +:+ String ","%char payload) =
    if 3 * Z.of_nat (String.length payload) >? 4 * MAX_IMAGE_SIZE
    then Raise (HTTPException 400 "Image too large. Maximum size: 10MB")
    else Return ()) as Hsize.
  { intros s1 Hs1 Hprefix. unfold validate_image_size.
    rewrite Hprefix, py_in_app_sep, (py_split_app_sep _ _ _ Hs1), Hsplit.
    cbn [nth]. by destruct (_ >? _). }
  unfold SUPPORTED_IMAGE_FORMATS in Hfmt.
  repeat (apply elem_of_cons in Hfmt as [->|Hfmt]);
    [| | | |by apply elem_of_nil in Hfmt].
  all: split;
    [ unfold validate_image_url; cbn -[bool_decide SUPPORTED_IMAGE_FORMATS];
      rewrite bool_decide_eq_true_2
        by (unfold SUPPORTED_IMAGE_FORMATS; set_solver);
      reflexivity |].
  - apply (Hsize "data:image/jpg;base64"); reflexivity.
  - apply (Hsize "data:image/jpeg;base64"); reflexivity.
  - apply (Hsize "data:image/png;base64"); reflexivity.
  - apply (Hsize "data:image/webp;base64"); reflexivity.
Qed.

Lemma data_url_is_checked_by_format_and_payload_length_witness :
  let image_url := "data:image/" +:+ "png" +:+ ";base64," +:+ "iVBORw0KGgo=" in
  validate_image_url id image_url = Return ()
  ∧ validate_image_size unreachable digits_only image_url =
    if 3 * Z.of_nat (String.length "iVBORw0KGgo=") >? 4 * MAX_IMAGE_SIZE
    then Raise (HTTPException 400 "Image too large. Maximum size: 10MB")
    else Return ().
Proof.
  apply (data_url_is_checked_by_format_and_payload_length id unreachable
           digits_only "png" "iVBORw0KGgo=").
  - unfold SUPPORTED_IMAGE_FORMATS. set_solver.
  - reflexivity.
Defined.

(** X21: the format check has three answers only: it passes, or it
    refuses a data URL with 400 [Invalid base64 image URL format], or it
    refuses any other URL with 400 [Invalid image URL format].  The message
    that names the unsupported format never leaves the handler.  A data URL
    is refused exactly when the text after the last slash of its part
    before the first semicolon is not a supported format. *)
Theorem validate_image_url_answers (lower : string → string)
    (image_url : string) :
  (String.prefix "data:image/" image_url = true →
   validate_image_url lower image_url =
   if bool_decide
        (List.last (py_split "/"%char (hd "" (py_split ";"%char image_url))) ""
         ∈ SUPPORTED_IMAGE_FORMATS)
   then Return ()
   else Raise (HTTPException 400 "Invalid base64 image URL format"))
  ∧ (String.prefix "data:image/" image_url = false →
     validate_image_url lower image_url =
     if existsb (λ fmt, py_in fmt (lower image_url)) SUPPORTED_IMAGE_FORMATS
     then Return ()
     else Raise (HTTPException 400 "Invalid image URL format"))
  ∧ ∀ format,
      validate_image_url lower image_url ≠
      Raise (HTTPException 400
               ("Unsupported base64 image format: " +:+ format)).
Proof.
  split; [|split].
  - intros H. unfold validate_image_url. rewrite H.
    by case_bool_decide.
  - intros H. unfold validate_image_url. rewrite H.
    by destruct (existsb _ _).
  - intros format. unfold validate_image_url.
    destruct (String.prefix "data:image/" image_url).
    + case_bool_decide; [done|]. intros [=].
    + destruct (existsb _ _); [done|]. cbn [negb]. intros [=].
Qed.

(** X22: the size check of an ordinary URL fails open.  Unless the HEAD
    request or the reading of the header raise an HTTP exception
    themselves, the URL is refused only when the answer carries a
    non-empty content-length that reads as a number above 10 MB; a failed
    request, a missing header and a header that is not a number all let
    the URL through. *)
Theorem regular_url_size_check_fails_open
    (head : string → outcome (option string)) (int_of : string → outcome Z)
    (image_url : string) :
  String.prefix "data:image/" image_url = false →
  (∀ code detail, head image_url ≠ Raise (HTTPException code detail)) →
  (∀ text code detail, int_of text ≠ Raise (HTTPException code detail)) →
  (validate_image_size head int_of image_url = Return ()
   ∨ validate_image_size head int_of image_url =
     Raise (HTTPException 400 "Image too large. Maximum size: 10MB"))
  ∧ (validate_image_size head int_of image_url ≠ Return () ↔
     ∃ text n,
       head image_url = Return (Some text) ∧ text ≠ ""
       ∧ int_of text = Return n ∧ n > MAX_IMAGE_SIZE).
Proof.
  intros Hurl Hhead Hint. unfold validate_image_size. rewrite Hurl.
  unfold mbind, outcome_bind.
  destruct (head image_url) as [[text|]|e] eqn:Hh.
  - unfold truthy_opt. destruct (String.eqb_spec text "") as [->|Hne].
    + split; [by left|]. split; [done|].
      intros (t & n & [= <-] & Hne & _). done.
    + destruct (int_of text) as [n|e] eqn:Hn.
      * destruct (Z.gtb_spec n MAX_IMAGE_SIZE).
        -- split; [by right|]. split; [|done].
           intros _. exists text, n.
           split; [done|]. split; [done|]. split; [done | lia].
        -- split; [by left|]. split; [done|].
           intros (t & m & [= <-] & _ & Hm & Hgt).
           rewrite Hn in Hm. injection Hm as <-. lia.
      * assert (match e with
                | HTTPException code detail =>
                    Raise (HTTPException code detail)
                | _ => Return ()
                end = (Return () : outcome unit)) as ->.
        { destruct e; try done. by destruct (Hint text status_code detail). }
        split; [by left|]. split; [done|].
        intros (t & m & [= <-] & _ & Hm & _). by rewrite Hn in Hm.
  - split; [by left|]. split; [done|]. by intros (t & n & [=] & _).
  - assert (match e with
            | HTTPException code detail => Raise (HTTPException code detail)
            | _ => Return ()
            end = (Return () : outcome unit)) as ->.
    { destruct e; try done. by destruct (Hhead status_code detail). }
    split; [by left|]. split; [done|]. by intros (t & n & [=] & _).
Qed.

Lemma regular_url_size_check_fails_open_witness :
  (validate_image_size unreachable digits_only "https://img.example/dog.jpg"
   = Return ()
   ∨ validate_image_size unreachable digits_only "https://img.example/dog.jpg"
     = Raise (HTTPException 400 "Image too large. Maximum size: 10MB"))
  ∧ (validate_image_size unreachable digits_only "https://img.example/dog.jpg"
     ≠ Return () ↔
     ∃ text n,
       unreachable "https://img.example/dog.jpg" = Return (Some text)
       ∧ text ≠ ""
       ∧ digits_only text = Return n ∧ n > MAX_IMAGE_SIZE).
Proof.
  apply (regular_url_size_check_fails_open unreachable digits_only
           "https://img.example/dog.jpg").
  - reflexivity.
  - discriminate.
  - discriminate.
Defined.

(** ** Status of a job and the other routes *)

(** X23: the status route and the download route agree.  The status of a
    job carries the two download URLs exactly when the job is completed
    and its record names a model file; whenever [download_stl] serves a
    job, the status of that job, if it can be rendered, is completed and
    carries the URL of that very route; and both routes answer 404 for an
    unknown job. *)
Theorem status_agrees_with_download (as_float : pyval → option pyval)
    (jid : string) (user : User) (w : World) :
  (∀ result w',
     get_generation_status as_float jid user w = (Return result, w') →
     w' = w
     ∧ ∃ j, job_storage w !! jid = Some j
            ∧ gr_status result = status j
            ∧ (is_Some (stl_file_url result) ↔
               status j = completed ∧ is_Some (stl_file_path j))
            ∧ (is_Some (preview_image_url result) ↔
               is_Some (stl_file_url result)))
  ∧ (∀ file w',
       download_stl jid user w = (Return file, w') →
       ∀ result w'',
         get_generation_status as_float jid user w = (Return result, w'') →
         gr_status result = completed
         ∧ stl_file_url result = Some ("/api/v1/download/" +:+ jid +:+ "/stl"))
  ∧ (job_storage w !! jid = None →
     get_generation_status as_float jid user w =
     (Raise (HTTPException 404 "Job not found"), w)
     ∧ download_stl jid user w =
       (Raise (HTTPException 404 "Job not found"), w)).
Proof.
  split; [|split].
  - intros result w' H. unfold get_generation_status in H.
    destruct (job_storage w !! jid) as [j|]; [|discriminate].
    destruct (match processing_time j with
              | Some x => Some <$> as_float x
              | None => Some None
              end) as [time|]; [|discriminate].
    destruct (match quality_score j with
              | Some x => Some <$> as_float x
              | None => Some None
              end) as [score|]; [|discriminate].
    injection H as <- <-. split; [done|]. exists j.
    split; [done|]. split; [done|]. cbn [stl_file_url preview_image_url].
    destruct (bool_decide_reflect (status j = completed)) as [Hs|Hs];
      destruct (bool_decide_reflect (is_Some (stl_file_path j))) as [Hp|Hp];
      cbn [andb].
    + split; [|done]. split; [by intros _ | by intros _; eexists].
    + split; [|split; by intros []]. split; [by intros [] | by intros [_ ?]].
    + split; [|split; by intros []]. split; [by intros [] | by intros [? _]].
    + split; [|split; by intros []]. split; [by intros [] | by intros [? _]].
  - intros file w' Hd result w'' H.
    unfold download_stl in Hd. unfold get_generation_status in H.
    destruct (job_storage w !! jid) as [j|]; [|discriminate].
    destruct (bool_decide_reflect (status j = completed)) as [Hs|Hs];
      [|discriminate].
    destruct (stl_file_path j) as [p|]; [|discriminate].
    destruct (match processing_time j with
              | Some x => Some <$> as_float x
              | None => Some None
              end) as [time|]; [|discriminate].
    destruct (match quality_score j with
              | Some x => Some <$> as_float x
              | None => Some None
              end) as [score|]; [|discriminate].
    injection H as <- _. cbn [gr_status stl_file_url]. split; [done|].
    reflexivity.
  - intros Hj. unfold get_generation_status, download_stl. by rewrite Hj.
Qed.

(** X24: a job that has just been submitted.  An upload that is not an
    image is refused with 400 and nothing is registered.  For an image
    the job is registered as pending under the id drawn for it, and the
    submitting user is noted in the task, not in the record; until the
    task has run, downloading the job is answered with 400, and it appears
    in no user's listing, whatever the order in which the registry is
    enumerated. *)
Theorem freshly_submitted_job (env : TaskEnv) (file : UploadFile)
    (breed_hint style size quality : option string) (user : User)
    (w : World) :
  let submitted :=
    generate_planter env file breed_hint style size quality user w in
  (is_image file = false →
   submitted = (Raise (HTTPException 400 "File must be an image"), w))
  ∧ (is_image file = true →
     ∃ task,
       fst submitted = Return (new_job (uuid4 env) (created_stamp env), task)
       ∧ task_job_id task = uuid4 env
       ∧ task_user_id task = user_id user
       ∧ job_storage (snd submitted) !! uuid4 env =
         Some (new_job (uuid4 env) (created_stamp env))
       ∧ files (snd submitted) = files w
       ∧ (∀ u, download_stl (uuid4 env) u (snd submitted) =
               (Raise (HTTPException 400 "Job not completed"), snd submitted))
       ∧ (∀ u items,
            (∀ k j, (k, j) ∈ items → job_storage (snd submitted) !! k = Some j) →
            ∀ s, s ∈ list_user_jobs u items → js_job_id s ≠ uuid4 env)).
Proof.
  intros submitted. subst submitted. unfold generate_planter. split.
  - intros ->. reflexivity.
  - intros ->. cbn [negb].
    unfold mbind, M_bind, mret, M_ret, store_job. cbn [fst snd].
    eexists. split; [reflexivity|]. cbn [task_job_id task_user_id].
    split; [done|]. split; [done|]. cbn [job_storage files].
    split; [by rewrite lookup_insert_eq|]. split; [done|]. split.
    + intros u. unfold download_stl. cbn [job_storage].
      by rewrite lookup_insert_eq.
    + intros u items Hitems s Hs Heq.
      unfold list_user_jobs in Hs.
      rewrite sorted_by_created_at_reverse_perm in Hs.
      apply list_elem_of_fmap in Hs as ([k j] & -> & Hin).
      apply list_elem_of_filter in Hin as [Hown Hin].
      cbn [job_summary js_job_id fst] in Heq. subst k.
      specialize (Hitems _ _ Hin). rewrite lookup_insert_eq in Hitems.
      injection Hitems as <-.
      unfold owned_by in Hown. apply bool_decide_eq_true_1 in Hown.
      discriminate Hown.
Qed.

Lemma freshly_submitted_job_witness :
  let submitted :=
    generate_planter (demo_env all_ok) photo None None None None demo_user
      empty_world in
  ∃ task,
    fst submitted =
    Return (new_job (uuid4 (demo_env all_ok))
              (created_stamp (demo_env all_ok)), task)
    ∧ task_job_id task = uuid4 (demo_env all_ok)
    ∧ task_user_id task = user_id demo_user
    ∧ job_storage (snd submitted) !! uuid4 (demo_env all_ok) =
      Some (new_job (uuid4 (demo_env all_ok))
              (created_stamp (demo_env all_ok)))
    ∧ files (snd submitted) = files empty_world
    ∧ (∀ u, download_stl (uuid4 (demo_env all_ok)) u (snd submitted) =
            (Raise (HTTPException 400 "Job not completed"), snd submitted))
    ∧ (∀ u items,
         (∀ k j, (k, j) ∈ items → job_storage (snd submitted) !! k = Some j) →
         ∀ s, s ∈ list_user_jobs u items →
              js_job_id s ≠ uuid4 (demo_env all_ok)).
Proof.
  cbv zeta.
  destruct (freshly_submitted_job (demo_env all_ok) photo None None None None
              demo_user empty_world) as [_ H].
  apply H. reflexivity.
Defined.

(** ** A validated request *)

(** X25: a request that passed the validator of the request model names an
    image source, so [_load_image] never answers it with the 400 for a
    missing source (given that the conversion to RGB raises no HTTP
    exception of its own); a request that names none is stopped by the
    validator. *)
Theorem validated_request_has_a_source (io : ImageIO)
    (request validated : BreedDetectionRequest) :
  (∀ image code detail,
     convert_rgb io image ≠ Raise (HTTPException code detail)) →
  check_any_source request = Return validated →
  validated = request
  ∧ (is_Some (truthy_opt (image_url request))
     ∨ is_Some (truthy_opt (image_base64 request)))
  ∧ _load_image io (image_url validated) (image_base64 validated) ≠
    Raise (HTTPException 400
             "Either image_url or image_base64 must be provided").
Proof.
  intros Hconv Hcheck. unfold check_any_source in Hcheck.
  assert (validated = request
          ∧ (is_Some (truthy_opt (image_url request))
             ∨ is_Some (truthy_opt (image_base64 request)))) as [-> Hsrc].
  { destruct (truthy_opt (image_url request)) as [u|],
             (truthy_opt (image_base64 request)) as [b|];
      try discriminate; injection Hcheck as <-;
      (split; [done|]); (by left; eexists) || (by right; eexists). }
  split; [done|]. split; [done|].
  unfold _load_image, mbind, outcome_bind. intros H.
  destruct (truthy_opt (image_base64 request)) as [b|].
  - destruct (open_base64 io b) as [image|]; [|discriminate].
    destruct (String.eqb (mode image) "RGB").
    + by destruct (_ >? _).
    + destruct (convert_rgb io image) as [image'|e] eqn:Hc.
      * by destruct (_ >? _).
      * injection H as ->. exact (Hconv _ _ _ Hc).
  - destruct (truthy_opt (image_url request)) as [u|].
    + destruct (open_url io u) as [image|]; [|discriminate].
      destruct (String.eqb (mode image) "RGB").
      * by destruct (_ >? _).
      * destruct (convert_rgb io image) as [image'|e] eqn:Hc.
        -- by destruct (_ >? _).
        -- injection H as ->. exact (Hconv _ _ _ Hc).
    + destruct Hsrc as [[? [=]]|[? [=]]].
Qed.

Lemma validated_request_has_a_source_witness :
  by_url "https://img.example/missing.jpg" =
  by_url "https://img.example/missing.jpg"
  ∧ (is_Some (truthy_opt (image_url (by_url "https://img.example/missing.jpg")))
     ∨ is_Some (truthy_opt
                  (image_base64 (by_url "https://img.example/missing.jpg"))))
  ∧ _load_image web_images
      (image_url (by_url "https://img.example/missing.jpg"))
      (image_base64 (by_url "https://img.example/missing.jpg")) ≠
    Raise (HTTPException 400
             "Either image_url or image_base64 must be provided").
Proof.
  apply (validated_request_has_a_source web_images
           (by_url "https://img.example/missing.jpg")
           (by_url "https://img.example/missing.jpg")).
  - discriminate.
  - reflexivity.
Defined.

(** ** A result of the neural pipeline *)

(** X26: when the neural pipeline returns, its result decides how the job
    ends (the upload was read, the file-system calls succeed, the
    temporary upload file is still there).  A dictionary completes the job
    with its [quality_score] entry, or 0.0 without one, and the job is
    then served by the download route exactly when the pipeline has
    written the model file: a completed job without it is answered with
    404.  Any other result fails the job and leaves the temporary upload
    file behind. *)
Theorem neural_result_decides_the_job (env : TaskEnv) (p : Planter)
    (jid : string) (file : UploadFile)
    (breed_hint style size quality uid : string) (w : World) (j0 : Job)
    (content : string) (result : pyval) (fs : gset string) (user : User) :
  neural_planter env = Some p →
  planter_api p ≠ has_neither →
  (∀ site, io_ok env site = true) →
  read file = Return content →
  job_storage w !! jid = Some j0 →
  planter_run p (tmp_name env) ("temp_outputs/" +:+ jid +:+ "_planter.stl")
    breed_hint ({[tmp_name env]} ∪ files w) = (Return result, fs) →
  tmp_name env ∈ fs →
  tmp_name env ≠ "temp_outputs/" +:+ jid +:+ "_planter.stl" →
  let w' :=
    snd (process_planter_generation env jid file breed_hint style size quality
           uid w) in
  ∃ j,
    job_storage w' !! jid = Some j
    ∧ match result with
      | PDict items =>
          status j = completed
          ∧ quality_score j =
            Some (default (PFloat 0 1) (assoc_get "quality_score" items))
          ∧ processing_time j = Some (elapsed env)
          ∧ (tmp_name env ∉ files w')
          ∧ ("temp_outputs/" +:+ jid +:+ "_planter.stl" ∈ fs →
             download_stl jid user w' =
             (Return {| fr_path := "temp_outputs/" +:+ jid +:+ "_planter.stl";
                        fr_media_type := "application/octet-stream";
                        fr_filename :=
                          "petplantr_" +:+ jid +:+ "_planter.stl" |},
              w'))
          ∧ ("temp_outputs/" +:+ jid +:+ "_planter.stl" ∉ fs →
             download_stl jid user w' =
             (Raise (HTTPException 404 "STL file not found"), w'))
      | _ =>
          status j = failed ∧ quality_score j = quality_score j0
          ∧ tmp_name env ∈ files w'
      end.
Proof.
  intros Hp Hapi Hio Hread Hj Hrun Htmp Hne w'. subst w'.
  task_unfold. rewrite Hp, Hj, Hread, !Hio.
  destruct (planter_api p) eqn:Hapi'; [| |done].
  all: repeat (cbn [job_storage files journal fst snd andb];
               first [rewrite lookup_insert_eq | rewrite Hrun]).
  all: cbn [job_storage files journal fst snd andb].
  all: destruct result as [| | | | | |items];
       cbn [py_get job_storage files journal fst snd];
       rewrite ?lookup_insert_eq; cbn [job_storage files journal fst snd];
       try (eexists; split; [first [reflexivity | by rewrite lookup_insert_eq]|];
            split; [reflexivity|]; split; [reflexivity|]; exact Htmp).
  all: rewrite (bool_decide_eq_true_2 (tmp_name env ∈ fs)) by exact Htmp.
  all: cbn [job_storage files journal fst snd andb].
  all: eexists; split; [first [reflexivity | by rewrite lookup_insert_eq]|].
  all: do 3 (split; [reflexivity|]).
  all: split; [apply not_elem_of_difference; right; by apply elem_of_singleton|].
  all: unfold download_stl; cbn [job_storage files journal fst snd];
       rewrite lookup_insert_eq; cbn -[String.eqb].
  all: split; intros Hout.
  all: try (rewrite (bool_decide_eq_true_2 (_ ∈ _));
            [reflexivity
            | apply elem_of_difference; split;
              [exact Hout
              | intros Hin; apply elem_of_singleton in Hin; congruence]]).
  all: rewrite (bool_decide_eq_false_2 (_ ∈ _));
       [by rewrite andb_false_r
       | intros Hin; apply elem_of_difference in Hin as [Hin _]; done].
Qed.

Lemma neural_result_decides_the_job_witness :
  let env := forgetful_env in
  let w :=
    snd (generate_planter env photo None None None None demo_user empty_world) in
  let w' :=
    snd (process_planter_generation env (uuid4 env) photo "" "realistic"
           "medium" "high" "demo_user" w) in
  ∃ j,
    job_storage w' !! uuid4 env = Some j
    ∧ status j = completed
    ∧ quality_score j = Some (PFloat 91 1)
    ∧ download_stl (uuid4 env) demo_user w' =
      (Raise (HTTPException 404 "STL file not found"), w').
Proof.
  cbv zeta.
  destruct (neural_result_decides_the_job forgetful_env forgetful_planter
              (uuid4 forgetful_env) photo "" "realistic" "medium" "high"
              "demo_user"
              (snd (generate_planter forgetful_env photo None None None None
                      demo_user empty_world))
              (new_job (uuid4 forgetful_env) (created_stamp forgetful_env))
              "JFIF" (PDict [("quality_score", PFloat 91 1)])
              ({[tmp_name forgetful_env]} ∪ ∅) demo_user)
    as (j & Hj & Hs & Hq & _ & _ & _ & Hmissing).
  - reflexivity.
  - discriminate.
  - reflexivity.
  - reflexivity.
  - vm_compute. reflexivity.
  - reflexivity.
  - apply elem_of_union_l. by apply elem_of_singleton.
  - vm_compute. discriminate.
  - exists j. split; [exact Hj|]. split; [exact Hs|]. split; [exact Hq|].
    apply Hmissing. intros Hin.
    apply elem_of_union in Hin as [Hin|Hin].
    + apply elem_of_singleton in Hin. vm_compute in Hin. discriminate.
    + by apply elem_of_empty in Hin.
Defined.
